(** * The Context Protocol of fast-context: consumer, provider, notifier

    A shallow embedding of [src/lib/controllers/context-consumer.ts],
    [src/lib/controllers/context-provider.ts] (the FASTElement behaviour) and
    of the plain-element provider, together with the part of the DOM event
    model they rely on (bubbling along the composed path, listeners per
    element, [stopPropagation]).

    Object identity ([===] on contexts, callbacks, unsubscribe functions and
    elements) is modelled by decidable equality on names. *)

From stdpp Require Import base decidable option list gmap strings.

(** ** Names *)

(** DOM elements, compared by identity. *)
Definition Element := nat.
(** Context keys ([createContext(key)] returns the key), compared with [!==]. *)
Definition Context := string.
(** A [ContextCallback]: the identity of the function object. *)
Definition Callback := nat.
(** The identity of a [ContextProvider] instance. *)
Definition ProviderId := nat.
(** The identity of a user-supplied [options.callback]. *)
Definition UserFn := nat.

(** An unsubscribe function handed out by a provider.  It is a closure over
    the provider and the callback whose entry it deletes; [hstamp] tells
    apart the closures created by different registrations of one callback
    with one provider. *)
Record Handle := mkHandle {
  hprovider : ProviderId;
  hcallback : Callback;
  hstamp : nat }.

Global Instance Handle_eq_dec : EqDecision Handle.
Proof. solve_decision. Defined.

(** ** Events *)

(** [ContextRequestEvent(context, callback, subscribe)]. *)
Module ContextRequestEvent.
Record t := mk {
  context : Context;
  callback : Callback;
  subscribe : bool }.
End ContextRequestEvent.

(** [ContextProviderEvent(context)]. *)
Module ContextProviderEvent.
Record t := mk {
  context : Context }.
End ContextProviderEvent.

(** An event while it is dispatched: its payload, the composed path (the
    originating element first, then its ancestors, innermost first) and the
    stop-propagation flag.  Handlers only run during a dispatch, so the path
    always has its first entry. *)
Record Event (D : Type) := mkEvent {
  detail : D;
  origin : Element;
  ancestors : list Element;
  propagationStopped : bool }.
Arguments mkEvent {D}.
Arguments detail {D}.
Arguments origin {D}.
Arguments ancestors {D}.
Arguments propagationStopped {D}.

Definition composedPath {D} (ev : Event D) : list Element :=
  origin ev :: ancestors ev.

Definition stopPropagation {D} (ev : Event D) : Event D :=
  mkEvent (detail ev) (origin ev) (ancestors ev) true.

(** ** JavaScript [Map]: insertion order, live iteration

    A [Map] keeps its entries in a list in insertion order; [delete] empties
    the slot of the entry and [set] of a new key appends a slot, so that an
    iterator, which walks the slots by index, skips entries deleted before it
    reaches them and visits entries added while it runs. *)
Module JsMap.

Abbreviation t K A := (list (option (K * A))) (only parsing).

Section JsMap.
Context {K A : Type} `{EqDecision K}.
Implicit Types (m : t K A).

Definition empty : t K A := [].

Fixpoint get (k : K) m : option A :=
  match m with
  | [] => None
  | Some (k', a) :: m' => if decide (k' = k) then Some a else get k m'
  | None :: m' => get k m'
  end.

Definition has (k : K) m : bool :=
  match get k m with Some _ => true | None => false end.

Fixpoint delete (k : K) m : t K A :=
  match m with
  | [] => []
  | Some (k', a) :: m' =>
      if decide (k' = k) then None :: delete k m'
      else Some (k', a) :: delete k m'
  | None :: m' => None :: delete k m'
  end.

Fixpoint replace (k : K) (a : A) m : t K A :=
  match m with
  | [] => []
  | Some (k', a') :: m' =>
      if decide (k' = k) then Some (k, a) :: m'
      else Some (k', a') :: replace k a m'
  | None :: m' => None :: replace k a m'
  end.

Definition set (k : K) (a : A) m : t K A :=
  if has k m then replace k a m else m ++ [Some (k, a)].

(** The live entries, in insertion order. *)
Definition entries m : list (K * A) := omap id m.

Definition keys m : list K := (entries m).*1.

End JsMap.
End JsMap.

(** ** ContextConsumer (context-consumer.ts) *)

Module ContextConsumer.

(** What a method of the consumer calls outside the consumer, in order. *)
Inductive Call (V : Type) :=
| CallUnsubscribe (h : Handle)
| CallUser (f : UserFn) (value : option V) (unsubscribe : option Handle)
| DispatchEvent (target : Element) (ev : ContextRequestEvent.t).
Arguments CallUnsubscribe {V}.
Arguments CallUser {V}.
Arguments DispatchEvent {V}.

Record t (V : Type) := mk {
  host : option Element;
  context : Context;
  callback : option UserFn;
  subscribe : bool;
  provided : bool;
  value : option V;
  unsubscribe : option Handle;
  _callback : Callback }.
Arguments mk {V}.
Arguments host {V}.
Arguments context {V}.
Arguments callback {V}.
Arguments subscribe {V}.
Arguments provided {V}.
Arguments value {V}.
Arguments unsubscribe {V}.
Arguments _callback {V}.

Record Options := mkOptions {
  opt_context : Context;
  opt_callback : option UserFn;
  opt_subscribe : option bool }.

Section Methods.
Context {V : Type}.

(** A method runs on [this], may update its fields and calls out.  The
    functions called out (an unsubscribe function of a provider, the user
    callback) never call back into the same consumer, and a dispatch is the
    last statement of the method that performs it, so the calls are
    collected in order and performed by the caller. *)
Definition Method (A : Type) : Type := t V → A * t V * list (Call V).

Definition retM {A} (a : A) : Method A := λ this, (a, this, []).

Definition bindM {A B} (m : Method A) (k : A → Method B) : Method B :=
  λ this,
    let '(a, this1, calls1) := m this in
    let '(b, this2, calls2) := k a this1 in
    (b, this2, calls1 ++ calls2).

Definition this : Method (t V) := λ this, (this, this, []).

Definition call (c : Call V) : Method unit := λ this, (tt, this, [c]).

Definition when (b : bool) (m : Method unit) : Method unit :=
  if b then m else retM tt.

Definition set_host (h : option Element) : Method unit :=
  λ c, (tt, mk h (context c) (callback c) (subscribe c) (provided c)
                (value c) (unsubscribe c) (_callback c), []).

Definition set_provided (b : bool) : Method unit :=
  λ c, (tt, mk (host c) (context c) (callback c) (subscribe c) b
                (value c) (unsubscribe c) (_callback c), []).

Definition set_value (v : option V) : Method unit :=
  λ c, (tt, mk (host c) (context c) (callback c) (subscribe c) (provided c)
                v (unsubscribe c) (_callback c), []).

Definition set_unsubscribe (u : option Handle) : Method unit :=
  λ c, (tt, mk (host c) (context c) (callback c) (subscribe c) (provided c)
                (value c) u (_callback c), []).

End Methods.

Notation "x <- m ; k" := (bindM m (λ x, k))
  (at level 100, m at next level, right associativity, only parsing).
Notation "m ;; k" := (bindM m (λ _, k))
  (at level 100, right associativity, only parsing).

Section Code.
Context {V : Type}.

(** [new ContextConsumer(options)]; [cb] is the identity of the arrow
    function stored in [_callback] by the field initialiser. *)
Definition new (cb : Callback) (options : Options) : t V :=
  mk None (opt_context options) (opt_callback options)
     (default false (opt_subscribe options)) false None None cb.

(** [this.unsubscribe()]. *)
Definition call_unsubscribe : Method (V:=V) unit :=
  c <- this;
  match unsubscribe c with
  | Some h => call (CallUnsubscribe h)
  | None => retM tt
  end.

(** [this.callback(value, unsubscribe)] under [if (this.callback)]. *)
Definition call_callback (value : option V) (u : option Handle)
  : Method (V:=V) unit :=
  c <- this;
  match callback c with
  | Some f => call (CallUser f value u)
  | None => retM tt
  end.

(** The arrow function stored in [_callback]:
    [(value, unsubscribe) => { ... }]. *)
Definition _callback_body (value : option V) (unsubscribe' : option Handle)
  : Method (V:=V) unit :=
  c <- this;
  (match unsubscribe c with
   | Some held =>
       when (bool_decide (Some held ≠ unsubscribe'))
         (set_provided false;; call_unsubscribe);;
       when (negb (subscribe c)) call_unsubscribe
   | None => retM tt
   end);;
  set_value value;;
  c <- this;
  when (negb (provided c) || subscribe c)
    (set_provided true;; call_callback value unsubscribe');;
  set_unsubscribe unsubscribe'.

Definition dispatchRequest : Method (V:=V) unit :=
  c <- this;
  match host c with
  | Some el =>
      call (DispatchEvent el
              (ContextRequestEvent.mk (context c) (_callback c) (subscribe c)))
  | None => retM tt
  end.

Definition hostConnected : Method (V:=V) unit := dispatchRequest.

Definition hostDisconnected : Method (V:=V) unit :=
  c <- this;
  match unsubscribe c with
  | Some _ => call_unsubscribe;; set_unsubscribe None
  | None => retM tt
  end.

Definition bind (source : Element) : Method (V:=V) unit :=
  set_host (Some source);; hostConnected.

Definition unbind : Method (V:=V) unit := hostDisconnected.

(** *** Lifetimes of one consumer

    What the host and providers do to one consumer over time: the host binds
    and unbinds the behaviour (or connects and disconnects it), and providers
    invoke the callback handed out in its request events. *)
Inductive Op :=
| OpBind (source : Element)
| OpUnbind
| OpHostConnected
| OpHostDisconnected
| OpDeliver (value : option V) (unsubscribe' : option Handle).

Definition do_op (op : Op) : Method (V:=V) unit :=
  match op with
  | OpBind source => bind source
  | OpUnbind => unbind
  | OpHostConnected => hostConnected
  | OpHostDisconnected => hostDisconnected
  | OpDeliver value u => _callback_body value u
  end.

Fixpoint run (ops : list Op) : Method (V:=V) unit :=
  match ops with
  | [] => retM tt
  | op :: ops' => do_op op;; run ops'
  end.

Definition state_after (ops : list Op) (c : t V) : t V := (run ops c).1.2.
Definition calls_of (ops : list Op) (c : t V) : list (Call V) := (run ops c).2.

Definition is_user_call (c : Call V) : bool :=
  match c with CallUser _ _ _ => true | _ => false end.

(** The calls of the user callback among [calls]. *)
Definition user_calls (calls : list (Call V)) : list (Call V) :=
  filter (λ c, is_user_call c = true) calls.

(** The unsubscribe functions invoked among [calls]. *)
Fixpoint unsubscribed (calls : list (Call V)) : list Handle :=
  match calls with
  | [] => []
  | CallUnsubscribe h :: calls' => h :: unsubscribed calls'
  | _ :: calls' => unsubscribed calls'
  end.

(** The request events dispatched among [calls]. *)
Fixpoint dispatched (calls : list (Call V)) : list ContextRequestEvent.t :=
  match calls with
  | [] => []
  | DispatchEvent _ ev :: calls' => ev :: dispatched calls'
  | _ :: calls' => dispatched calls'
  end.

(** A delivery is a hand-off when an unsubscribe function is held and the
    one received differs from it. *)
Definition is_handoff (c : t V) (unsubscribe' : option Handle) : bool :=
  match unsubscribe c with
  | Some held => bool_decide (Some held ≠ unsubscribe')
  | None => false
  end.

(** The number of hand-off deliveries along a lifetime. *)
Fixpoint handoffs (ops : list Op) (c : t V) : nat :=
  match ops with
  | [] => 0
  | op :: ops' =>
      (match op with
       | OpDeliver _ u => if is_handoff c u then 1 else 0
       | _ => 0
       end) + handoffs ops' (do_op op c).1.2
  end.

End Code.
End ContextConsumer.

(** ** ValueNotifier and ContextProvider: the objects *)

Module ValueNotifier.

(** One entry of the subscription map: [{consumerHost, unsubscribe}]. *)
Record CallbackInfo := mkInfo {
  unsubscribe : Handle;
  consumerHost : Element }.

(** Modelled from the spec: the state of [ValueNotifier]
    ([value-notifier.ts] is not among the sources).  The spec gives it the
    current value and the subscriptions, "a mapping from callback-identity to
    [{consumerHost, unsubscribe}]"; [stamp] counts the unsubscribe functions
    created so far, so that each registration gets a function of its own
    identity ("differs across different Providers / different registration
    events"). *)
Record t (V : Type) := mk {
  value : option V;
  subscriptions : JsMap.t Callback CallbackInfo;
  stamp : nat }.
Arguments mk {V}.
Arguments value {V}.
Arguments subscriptions {V}.
Arguments stamp {V}.

(** [new ValueNotifier(defaultValue)]: nothing is subscribed yet. *)
Definition new {V} (defaultValue : option V) : t V :=
  mk defaultValue JsMap.empty 0.

End ValueNotifier.

Module ContextProvider.

(** [class ContextProvider extends ValueNotifier]: the inherited part is the
    field [notifier]. *)
Record t (V : Type) := mk {
  notifier : ValueNotifier.t V;
  host : option Element;
  context : Context }.
Arguments mk {V}.
Arguments notifier {V}.
Arguments host {V}.
Arguments context {V}.

Record Options (V : Type) := mkOptions {
  opt_context : Context;
  opt_initialValue : option V }.
Arguments mkOptions {V}.
Arguments opt_context {V}.
Arguments opt_initialValue {V}.

Definition value {V} (p : t V) : option V := ValueNotifier.value (notifier p).

Definition subscriptions {V} (p : t V) : JsMap.t Callback ValueNotifier.CallbackInfo :=
  ValueNotifier.subscriptions (notifier p).

Definition set_notifier {V} (n : ValueNotifier.t V) (p : t V) : t V :=
  mk n (host p) (context p).

Definition set_subscriptions {V}
    (m : JsMap.t Callback ValueNotifier.CallbackInfo) (p : t V) : t V :=
  set_notifier
    (ValueNotifier.mk (value p) m (ValueNotifier.stamp (notifier p))) p.

Definition set_host {V} (h : option Element) (p : t V) : t V :=
  mk (notifier p) h (context p).

End ContextProvider.

(** ** The document *)

(** The listeners the providers attach: [this.onContextRequest] under
    ['context-request'] and [this.onProviderRequest] under
    ['context-provider']. *)
Inductive Listener :=
| OnContextRequest (p : ProviderId)
| OnProviderRequest (p : ProviderId).

Global Instance Listener_eq_dec : EqDecision Listener.
Proof. solve_decision. Defined.

(** What happened, in order; the log is only written, never read. *)
Inductive LogEntry (V : Type) :=
| Dispatched (target : Element) (ev : ContextRequestEvent.t)
| Announced (target : Element) (ev : ContextProviderEvent.t)
| Invoked (p : ProviderId) (cb : Callback) (value : option V)
    (unsubscribe : option Handle)
| UserCalled (cb : Callback) (f : UserFn) (value : option V)
    (unsubscribe : option Handle)
| Unsubscribed (h : Handle).
Arguments Dispatched {V}.
Arguments Announced {V}.
Arguments Invoked {V}.
Arguments UserCalled {V}.
Arguments Unsubscribed {V}.

(** The document: the tree (each element's parent; a shadow root's content
    has the shadow host as parent, as the composed path has it), the listeners
    of each element in the order they were added, and the controllers.  A
    consumer is filed under the identity of its [_callback]. *)
Record World (V : Type) := mkWorld {
  parent : gmap Element Element;
  listeners : gmap Element (list Listener);
  providers : gmap ProviderId (ContextProvider.t V);
  consumers : gmap Callback (ContextConsumer.t V);
  log : list (LogEntry V) }.
Arguments mkWorld {V}.
Arguments parent {V}.
Arguments listeners {V}.
Arguments providers {V}.
Arguments consumers {V}.
Arguments log {V}.

Section World.
Context {V : Type}.
Implicit Types (w : World V) (p : ProviderId) (cb : Callback).

Definition set_parent (m : gmap Element Element) w : World V :=
  mkWorld m (listeners w) (providers w) (consumers w) (log w).

Definition set_listeners (m : gmap Element (list Listener)) w : World V :=
  mkWorld (parent w) m (providers w) (consumers w) (log w).

Definition set_providers (m : gmap ProviderId (ContextProvider.t V)) w : World V :=
  mkWorld (parent w) (listeners w) m (consumers w) (log w).

Definition set_consumers (m : gmap Callback (ContextConsumer.t V)) w : World V :=
  mkWorld (parent w) (listeners w) (providers w) m (log w).

Definition add_log (e : LogEntry V) w : World V :=
  mkWorld (parent w) (listeners w) (providers w) (consumers w) (log w ++ [e]).

(** The ancestors of [e], innermost first; [fuel] bounds the walk by the
    number of elements that have a parent. *)
Fixpoint ancestors_from (fuel : nat) (tree : gmap Element Element)
    (e : Element) : list Element :=
  match fuel with
  | 0 => []
  | S fuel' =>
      match tree !! e with
      | Some e' => e' :: ancestors_from fuel' tree e'
      | None => []
      end
  end.

Definition ancestors_of w (e : Element) : list Element :=
  ancestors_from (size (parent w)) (parent w) e.

Definition listeners_of w (e : Element) : list Listener :=
  default [] (listeners w !! e).

(** [el.addEventListener(type, fn)]: a listener already there is not added
    again. *)
Definition addEventListener (e : Element) (l : Listener) w : World V :=
  if bool_decide (l ∈ listeners_of w e) then w
  else set_listeners (<[e := listeners_of w e ++ [l]]> (listeners w)) w.

(** [el.removeEventListener(type, fn)]. *)
Definition removeEventListener (e : Element) (l : Listener) w : World V :=
  set_listeners
    (<[e := filter (λ l', l' ≠ l) (listeners_of w e)]> (listeners w)) w.

(** The subscription map of provider [p], as it is now. *)
Definition subscriptions_of w p : JsMap.t Callback ValueNotifier.CallbackInfo :=
  match providers w !! p with
  | Some P => ContextProvider.subscriptions P
  | None => JsMap.empty
  end.

(** *** Unsubscribe functions and callbacks *)

(** Modelled from the spec: the unsubscribe function of a subscription
    ([value-notifier.ts] is not among the sources): "each subscription is
    given a function that removes its entry from the Value Notifier". *)
Definition run_unsubscribe (h : Handle) w : World V :=
  let w := add_log (Unsubscribed h) w in
  match providers w !! hprovider h with
  | Some P =>
      set_providers
        (<[hprovider h :=
             ContextProvider.set_subscriptions
               (JsMap.delete (hcallback h) (ContextProvider.subscriptions P)) P]>
           (providers w)) w
  | None => w
  end.

(** The calls of a consumer's method, performed in order on behalf of the
    consumer filed under [cb]; [dispatchEvent] is what the document does
    with a request event. *)
Definition perform
    (dispatchEvent : Element → ContextRequestEvent.t → World V → World V)
    cb (c : ContextConsumer.Call V) w : World V :=
  match c with
  | ContextConsumer.CallUnsubscribe h => run_unsubscribe h w
  | ContextConsumer.CallUser f v u => add_log (UserCalled cb f v u) w
  | ContextConsumer.DispatchEvent target ev => dispatchEvent target ev w
  end.

(** A method [m] of the consumer filed under [cb], run in the document. *)
Definition run_method
    (dispatchEvent : Element → ContextRequestEvent.t → World V → World V)
    cb (m : ContextConsumer.Method (V:=V) unit) w : World V :=
  match consumers w !! cb with
  | Some c =>
      let '(_, c', calls) := m c in
      foldl (λ w c, perform dispatchEvent cb c w)
        (set_consumers (<[cb := c']> (consumers w)) w) calls
  | None => w
  end.

(** Inside a delivery nothing is dispatched. *)
Definition no_dispatch : Element → ContextRequestEvent.t → World V → World V :=
  λ _ _ w, w.

(** Provider [p] calls [callback(value, unsubscribe)].  A callback that is
    the [_callback] of a consumer of the document runs that consumer's code;
    of any other function only the call is known. *)
Definition invoke p cb (value : option V) (unsubscribe : option Handle) w
  : World V :=
  run_method no_dispatch cb (ContextConsumer._callback_body value unsubscribe)
    (add_log (Invoked p cb value unsubscribe) w).

End World.

(** ** ValueNotifier: the methods *)

Section Notifier.
Context {V : Type}.
Implicit Types (w : World V) (p : ProviderId) (cb : Callback).

(** Modelled from the spec: the registration step of
    [ValueNotifier.addCallback] ([value-notifier.ts] is not among the
    sources): the entry "[(callback, {consumerHost, unsubscribe})]" is added
    with an unsubscribe function of its own; the handle's "identity must stay
    stable for the life of one subscription registration", so a callback
    that is already subscribed keeps its entry ("idempotent
    re-registration"). *)
Definition register p cb (consumerHost : Element) w : World V :=
  match providers w !! p with
  | Some P =>
      let n := ContextProvider.notifier P in
      if JsMap.has cb (ValueNotifier.subscriptions n) then w
      else
        set_providers
          (<[p := ContextProvider.set_notifier
                    (ValueNotifier.mk (ValueNotifier.value n)
                       (JsMap.set cb
                          (ValueNotifier.mkInfo
                             (mkHandle p cb (ValueNotifier.stamp n))
                             consumerHost)
                          (ValueNotifier.subscriptions n))
                       (S (ValueNotifier.stamp n))) P]> (providers w)) w
  | None => w
  end.

(** Modelled from the spec: [ValueNotifier.addCallback]
    ([value-notifier.ts] is not among the sources).  "The nearest enclosing
    Provider ... registers the callback in its Value Notifier, and immediately
    invokes the callback with the current value; if [subscribe] was requested,
    the Provider retains the callback and re-invokes it on every value change,
    passing an unsubscribe handle". *)
Definition addCallback p cb (consumerHost : Element) (subscribe : bool) w
  : World V :=
  match providers w !! p with
  | Some P =>
      if negb subscribe then invoke p cb (ContextProvider.value P) None w
      else
        let w := register p cb consumerHost w in
        match JsMap.get cb (subscriptions_of w p) with
        | Some info =>
            invoke p cb (ContextProvider.value P)
              (Some (ValueNotifier.unsubscribe info)) w
        | None => w
        end
  | None => w
  end.

(** Modelled from the spec: the broadcast of [ValueNotifier.setValue]
    ([value-notifier.ts] is not among the sources): "broadcasts to every
    active subscription's callback, passing the provider's own
    unsubscribe-generator for that subscription (unchanged per
    subscription)".  A subscription removed while the broadcast runs is no
    longer active when its turn comes. *)
Definition broadcast_to p cb w : World V :=
  match providers w !! p with
  | Some P =>
      match JsMap.get cb (ContextProvider.subscriptions P) with
      | Some info =>
          invoke p cb (ContextProvider.value P)
            (Some (ValueNotifier.unsubscribe info)) w
      | None => w
      end
  | None => w
  end.

Definition broadcast p w : World V :=
  foldl (λ w cb, broadcast_to p cb w) w (JsMap.keys (subscriptions_of w p)).

(** Modelled from the spec: [ValueNotifier.setValue]
    ([value-notifier.ts] is not among the sources): "updates the stored value
    and broadcasts to every active subscription's callback". *)
Definition setValue p (v : option V) w : World V :=
  match providers w !! p with
  | Some P =>
      let n := ContextProvider.notifier P in
      broadcast p
        (set_providers
           (<[p := ContextProvider.set_notifier
                     (ValueNotifier.mk v (ValueNotifier.subscriptions n)
                        (ValueNotifier.stamp n)) P]> (providers w)) w)
  | None => w
  end.

End Notifier.

(** ** ContextProvider: the event handlers

    [onContextRequest] and [onProviderRequest] are the same in
    [src/lib/controllers/context-provider.ts] and in the plain-element
    provider. *)

Section Handlers.
Context {V : Type}.
Implicit Types (w : World V) (p : ProviderId) (cb : Callback).

(** The test [ev.context !== this.context || consumerHost === this.host],
    negated: the provider answers the event. *)
Definition answers {D} (ctx : D → Context) (P : ContextProvider.t V)
    (ev : Event D) : bool :=
  bool_decide (ctx (detail ev) = ContextProvider.context P)
  && negb (bool_decide (ContextProvider.host P = Some (origin ev))).

Definition onContextRequest p (ev : Event ContextRequestEvent.t) w
  : Event ContextRequestEvent.t * World V :=
  match providers w !! p with
  | Some P =>
      let consumerHost := origin ev in
      if bool_decide (ContextRequestEvent.context (detail ev)
                      ≠ ContextProvider.context P)
         || bool_decide (Some consumerHost = ContextProvider.host P)
      then (ev, w)
      else
        (stopPropagation ev,
         addCallback p (ContextRequestEvent.callback (detail ev)) consumerHost
           (ContextRequestEvent.subscribe (detail ev)) w)
  | None => (ev, w)
  end.

(** A request event bubbles along its path.  All the listeners of one
    element run, also after one of them has stopped the propagation; the
    next element is reached only if none has. *)
Definition request_listener (l : Listener)
    (st : Event ContextRequestEvent.t * World V)
  : Event ContextRequestEvent.t * World V :=
  match l with
  | OnContextRequest p => onContextRequest p st.1 st.2
  | OnProviderRequest _ => st
  end.

Fixpoint bubble_request (path : list Element)
    (st : Event ContextRequestEvent.t * World V)
  : Event ContextRequestEvent.t * World V :=
  match path with
  | [] => st
  | e :: path' =>
      let st' := foldl (λ st l, request_listener l st) st (listeners_of st.2 e) in
      if propagationStopped st'.1 then st' else bubble_request path' st'
  end.

(** [target.dispatchEvent(new ContextRequestEvent(...))]. *)
Definition dispatchRequestEvent (target : Element)
    (detail : ContextRequestEvent.t) w : World V :=
  let ev := mkEvent detail target (ancestors_of w target) false in
  (bubble_request (composedPath ev) (ev, add_log (Dispatched target detail) w)).2.

(** The loop of [onProviderRequest] over [this.subscriptions]: the iterator
    is at slot [i] of the live map and [seen] is the set of the callbacks
    already re-dispatched.  The result is the document after the loop and the
    events dispatched, each with the element it was dispatched from.  The
    loop goes on as long as the dispatches keep adding entries, hence
    [fuel]. *)
Section Reparent.
Variable dispatchEvent : Element → ContextRequestEvent.t → World V → World V.

Fixpoint reparent (fuel : nat) p (ctx : Context) (i : nat)
    (seen : gset Callback) w
  : option (World V * list (Element * ContextRequestEvent.t)) :=
  match fuel with
  | 0 => None
  | S fuel' =>
      match subscriptions_of w p !! i with
      | None => Some (w, [])
      | Some None => reparent fuel' p ctx (S i) seen w
      | Some (Some (callback, info)) =>
          if bool_decide (callback ∈ seen) then reparent fuel' p ctx (S i) seen w
          else
            let consumerHost := ValueNotifier.consumerHost info in
            let ev := ContextRequestEvent.mk ctx callback true in
            match reparent fuel' p ctx (S i) ({[callback]} ∪ seen)
                    (dispatchEvent consumerHost ev w) with
            | Some (w', out) => Some (w', (consumerHost, ev) :: out)
            | None => None
            end
      end
  end.

Definition onProviderRequest (fuel : nat) p (ev : Event ContextProviderEvent.t) w
  : option (Event ContextProviderEvent.t * World V
            * list (Element * ContextRequestEvent.t)) :=
  match providers w !! p with
  | Some P =>
      let childProviderHost := origin ev in
      if bool_decide (ContextProviderEvent.context (detail ev)
                      ≠ ContextProvider.context P)
         || bool_decide (Some childProviderHost = ContextProvider.host P)
      then Some (ev, w, [])
      else
        match reparent fuel p (ContextProvider.context P) 0 ∅ w with
        | Some (w', out) => Some (stopPropagation ev, w', out)
        | None => None
        end
  | None => Some (ev, w, [])
  end.

End Reparent.

(** A provider announcement bubbles like a request event; the requests the
    handlers dispatch go through the document. *)
Definition provider_listener (fuel : nat) (l : Listener)
    (st : option (Event ContextProviderEvent.t * World V))
  : option (Event ContextProviderEvent.t * World V) :=
  match st, l with
  | Some (ev, w), OnProviderRequest p =>
      match onProviderRequest dispatchRequestEvent fuel p ev w with
      | Some (ev', w', _) => Some (ev', w')
      | None => None
      end
  | _, _ => st
  end.

Fixpoint bubble_provider (fuel : nat) (path : list Element)
    (st : Event ContextProviderEvent.t * World V)
  : option (Event ContextProviderEvent.t * World V) :=
  match path with
  | [] => Some st
  | e :: path' =>
      match foldl (λ st l, provider_listener fuel l st) (Some st)
              (listeners_of st.2 e) with
      | Some st' =>
          if propagationStopped st'.1 then Some st'
          else bubble_provider fuel path' st'
      | None => None
      end
  end.

(** [target.dispatchEvent(new ContextProviderEvent(context))]. *)
Definition dispatchProviderEvent (fuel : nat) (target : Element)
    (detail : ContextProviderEvent.t) w : option (World V) :=
  let ev := mkEvent detail target (ancestors_of w target) false in
  snd <$> bubble_provider fuel (composedPath ev)
            (ev, add_log (Announced target detail) w).

End Handlers.

(** ** ContextProvider as a FASTElement behaviour
    (src/lib/controllers/context-provider.ts) *)

Module ContextProviderBehavior.
Section Code.
Context {V : Type}.
Implicit Types (w : World V) (p : ProviderId).

(** [new ContextProvider(options)], filed under [p]. *)
Definition new p (options : ContextProvider.Options V) w : World V :=
  set_providers
    (<[p := ContextProvider.mk
              (ValueNotifier.new (ContextProvider.opt_initialValue options))
              None (ContextProvider.opt_context options)]> (providers w)) w.

Definition attachListeners p w : World V :=
  match providers w !! p with
  | Some P =>
      match ContextProvider.host P with
      | Some el =>
          addEventListener el (OnProviderRequest p)
            (addEventListener el (OnContextRequest p) w)
      | None => w
      end
  | None => w
  end.

Definition hostConnected (fuel : nat) p w : option (World V) :=
  match providers w !! p with
  | Some P =>
      match ContextProvider.host P with
      | Some el =>
          dispatchProviderEvent fuel el
            (ContextProviderEvent.mk (ContextProvider.context P)) w
      | None => Some w
      end
  | None => Some w
  end.

Definition bind (fuel : nat) p (source : Element) w : option (World V) :=
  match providers w !! p with
  | Some P =>
      hostConnected fuel p
        (attachListeners p
           (set_providers
              (<[p := ContextProvider.set_host (Some source) P]> (providers w))
              w))
  | None => Some w
  end.

Definition unbind p w : World V := w.

End Code.
End ContextProviderBehavior.

(** ** ContextProvider on a plain element (the variant with
    [hostDisconnected]) *)

Module ContextProviderElement.
Section Code.
Context {V : Type}.
Implicit Types (w : World V) (p : ProviderId).

(** [new ContextProvider(el, options)], filed under [p]; the constructor's
    wiring of the host's life cycle is not modelled. *)
Definition new p (el : Element) (options : ContextProvider.Options V) w
  : World V :=
  set_providers
    (<[p := ContextProvider.mk
              (ValueNotifier.new (ContextProvider.opt_initialValue options))
              (Some el) (ContextProvider.opt_context options)]> (providers w)) w.

Definition hostConnected (fuel : nat) p w : option (World V) :=
  match providers w !! p with
  | Some P =>
      match ContextProvider.host P with
      | Some el =>
          dispatchProviderEvent fuel el
            (ContextProviderEvent.mk (ContextProvider.context P))
            (addEventListener el (OnProviderRequest p)
               (addEventListener el (OnContextRequest p) w))
      | None => Some w
      end
  | None => Some w
  end.

Definition hostDisconnected p w : World V :=
  match providers w !! p with
  | Some P =>
      match ContextProvider.host P with
      | Some el =>
          removeEventListener el (OnProviderRequest p)
            (removeEventListener el (OnContextRequest p) w)
      | None => w
      end
  | None => w
  end.

Definition bind (fuel : nat) p w : option (World V) := hostConnected fuel p w.

Definition unbind p w : World V := hostDisconnected p w.

End Code.
End ContextProviderElement.

(** ** ContextConsumer in the document *)

Module Consumer.
Section Code.
Context {V : Type}.
Implicit Types (w : World V) (cb : Callback).

(** [new ContextConsumer(options)], filed under the identity of its
    [_callback]. *)
Definition new cb (options : ContextConsumer.Options) w : World V :=
  set_consumers (<[cb := ContextConsumer.new cb options]> (consumers w)) w.

Definition bind cb (source : Element) w : World V :=
  run_method dispatchRequestEvent cb (ContextConsumer.bind source) w.

Definition unbind cb w : World V :=
  run_method dispatchRequestEvent cb ContextConsumer.unbind w.

Definition hostConnected cb w : World V :=
  run_method dispatchRequestEvent cb ContextConsumer.hostConnected w.

Definition hostDisconnected cb w : World V :=
  run_method dispatchRequestEvent cb ContextConsumer.hostDisconnected w.

End Code.
End Consumer.

(** ** Vocabulary of the statements *)

Section Vocabulary.
Context {V : Type}.
Implicit Types (w : World V) (p : ProviderId) (cb : Callback).

(** What the handlers read of a provider besides its subscriptions. *)
Definition frame (P : ContextProvider.t V) : option Element * Context * option V :=
  (ContextProvider.host P, ContextProvider.context P, ContextProvider.value P).

Definition frames w : gmap ProviderId (option Element * Context * option V) :=
  frame <$> providers w.

(** The current value of provider [p]. *)
Definition value_of w p : option V :=
  providers w !! p ≫= ContextProvider.value.

(** The calls of callbacks by providers recorded in a log: provider,
    callback, value. *)
Fixpoint invocations (l : list (LogEntry V))
  : list (ProviderId * Callback * option V) :=
  match l with
  | [] => []
  | Invoked p cb v _ :: l' => (p, cb, v) :: invocations l'
  | _ :: l' => invocations l'
  end.

(** The request events recorded in a log, each with its target. *)
Fixpoint requests (l : list (LogEntry V))
  : list (Element * ContextRequestEvent.t) :=
  match l with
  | [] => []
  | Dispatched target ev :: l' => (target, ev) :: requests l'
  | _ :: l' => requests l'
  end.

(** The calls of user callbacks recorded in a log: consumer, value. *)
Fixpoint user_called (l : list (LogEntry V)) : list (Callback * option V) :=
  match l with
  | [] => []
  | UserCalled cb _ v _ :: l' => (cb, v) :: user_called l'
  | _ :: l' => user_called l'
  end.

(** The providers whose ['context-request'] listener on element [e] answers
    the event [ev], in the order of their listeners. *)
Definition claimant (w : World V) (ev : Event ContextRequestEvent.t)
    (l : Listener) : option ProviderId :=
  match l with
  | OnContextRequest p =>
      match providers w !! p with
      | Some P =>
          if answers ContextRequestEvent.context P ev then Some p else None
      | None => None
      end
  | OnProviderRequest _ => None
  end.

Definition claimants w (ev : Event ContextRequestEvent.t) (e : Element)
  : list ProviderId :=
  omap (claimant w ev) (listeners_of w e).

(** What the claimants of one element do together. *)
Definition serve (ev : Event ContextRequestEvent.t) (w : World V)
    (ps : list ProviderId) : World V :=
  foldl
    (λ w p,
       addCallback p (ContextRequestEvent.callback (detail ev)) (origin ev)
         (ContextRequestEvent.subscribe (detail ev)) w)
    w ps.

(** The value field of the consumer filed under [cb]. *)
Definition consumer_value w cb : option V :=
  consumers w !! cb ≫= ContextConsumer.value.

(** Provider [p] holds a subscription for callback [cb]. *)
Definition subscribed w p cb : bool :=
  JsMap.has cb (subscriptions_of w p).

(** The calls of the callback [cb] by providers recorded in a log. *)
Definition deliveries_to cb (l : list (LogEntry V))
  : list (ProviderId * Callback * option V) :=
  filter (λ i, i.1.2 = cb) (invocations l).

(** Every subscription of the callback [cb] is the one whose unsubscribe
    function the consumer [c] holds. *)
Definition holds_its_subscriptions w cb (c : ContextConsumer.t V) : Prop :=
  ∀ q, subscribed w q cb = true →
       ∃ held, ContextConsumer.unsubscribe c = Some held
               ∧ hprovider held = q ∧ hcallback held = cb.

(** A slot that the loop of [onProviderRequest] passes over: an emptied
    slot, or an entry of a callback that was re-dispatched already. *)
Definition passed_over (seen : gset Callback)
    (s : option (Callback * ValueNotifier.CallbackInfo)) : Prop :=
  match s with
  | Some (k, _) => k ∈ seen
  | None => True
  end.

(** The subscription map [m'] differs from [m] at the callback [cb] only:
    its entry may have been deleted, and slots for it may have been added. *)
Definition touched cb (m m' : JsMap.t Callback ValueNotifier.CallbackInfo) : Prop :=
  ∃ added,
    (m' = m ++ added ∨ m' = JsMap.delete cb m ++ added)
    ∧ Forall (passed_over {[cb]}) added.

(** The request events of one re-parenting pass over the entries [es]: one
    per entry, dispatched from the entry's [consumerHost], with
    [subscribe = true]. *)
Definition redispatched (ctx : Context)
    (es : list (Callback * ValueNotifier.CallbackInfo))
  : list (Element * ContextRequestEvent.t) :=
  (λ e, (ValueNotifier.consumerHost e.2, ContextRequestEvent.mk ctx e.1 true))
    <$> es.

(** The unsubscribe functions in the document are those of the callbacks
    they are filed with: a consumer holds unsubscribe functions of its own
    callback, and the entry of a callback has the unsubscribe function of
    that callback. *)
Definition handles_wf w : Prop :=
  (∀ cb c h, consumers w !! cb = Some c →
             ContextConsumer.unsubscribe c = Some h → hcallback h = cb)
  ∧ (∀ p cb info, JsMap.get cb (subscriptions_of w p) = Some info →
                  hcallback (ValueNotifier.unsubscribe info) = cb).

(** The calls a delivery to the callback [cb] makes: unsubscribe functions
    of that callback, and the user callback. *)
Definition calls_local cb (calls : list (ContextConsumer.Call V)) : Prop :=
  Forall (λ c, match c with
               | ContextConsumer.CallUnsubscribe h => hcallback h = cb
               | ContextConsumer.CallUser _ _ _ => True
               | ContextConsumer.DispatchEvent _ _ => False
               end) calls.

(** A document in order: every consumer is filed under its [_callback];
    every entry of a subscription map is for a consumer of the document and
    has the unsubscribe function that consumer holds, a function of that
    provider for that callback; the unsubscribe function a consumer holds is
    that of its entry with the function's provider, and only a consumer that
    requested [subscribe] holds one; no callback has two entries in a map. *)
Record document_ok w : Prop := mk_document_ok {
  ok_filed :
    ∀ cb c, consumers w !! cb = Some c → ContextConsumer._callback c = cb;
  ok_entry :
    ∀ p cb info, JsMap.get cb (subscriptions_of w p) = Some info →
      hprovider (ValueNotifier.unsubscribe info) = p
      ∧ hcallback (ValueNotifier.unsubscribe info) = cb
      ∧ ∃ c, consumers w !! cb = Some c
             ∧ ContextConsumer.unsubscribe c
               = Some (ValueNotifier.unsubscribe info);
  ok_held :
    ∀ cb c h, consumers w !! cb = Some c →
      ContextConsumer.unsubscribe c = Some h →
      ContextConsumer.subscribe c = true
      ∧ ∃ info, JsMap.get cb (subscriptions_of w (hprovider h)) = Some info
                ∧ ValueNotifier.unsubscribe info = h;
  ok_nodup : ∀ p, NoDup (JsMap.keys (subscriptions_of w p)) }.

(** The consumer filed under [cb] requests with the flag [sub]. *)
Definition requests_as w cb (sub : bool) : Prop :=
  ∃ c, consumers w !! cb = Some c ∧ ContextConsumer.subscribe c = sub.

(** What happens to a document: controllers are created, under names not in
    use, and bound, unbound, connected and disconnected by their hosts;
    values are set; the tree changes. *)
Inductive step : World V → World V → Prop :=
| step_consumer_new cb options w :
    consumers w !! cb = None → step w (Consumer.new cb options w)
| step_consumer_bind cb source w : step w (Consumer.bind cb source w)
| step_consumer_unbind cb w : step w (Consumer.unbind cb w)
| step_consumer_hostConnected cb w : step w (Consumer.hostConnected cb w)
| step_consumer_hostDisconnected cb w : step w (Consumer.hostDisconnected cb w)
| step_behavior_new p options w :
    providers w !! p = None → step w (ContextProviderBehavior.new p options w)
| step_behavior_bind fuel p source w w' :
    ContextProviderBehavior.bind fuel p source w = Some w' → step w w'
| step_behavior_unbind p w : step w (ContextProviderBehavior.unbind p w)
| step_element_new p el options w :
    providers w !! p = None → step w (ContextProviderElement.new p el options w)
| step_element_bind fuel p w w' :
    ContextProviderElement.bind fuel p w = Some w' → step w w'
| step_element_unbind p w : step w (ContextProviderElement.unbind p w)
| step_setValue p v w : step w (setValue p v w)
| step_tree tree w : step w (set_parent tree w).

(** The documents that come about from a tree with nothing attached. *)
Inductive reachable : World V → Prop :=
| reachable_start tree : reachable (mkWorld tree ∅ ∅ ∅ [])
| reachable_step w w' : reachable w → step w w' → reachable w'.

(** Two documents with the same tree, listeners and provider frames. *)
Definition same_frame w w' : Prop :=
  parent w' = parent w ∧ listeners w' = listeners w ∧ frames w' = frames w.

End Vocabulary.

(** ** Documents of the test suites *)

Module Scenario.

Definition simpleContext : Context := "simple-context".

(** A document with the given child-parent pairs and nothing attached. *)
Definition document (tree : list (Element * Element)) : World Z :=
  mkWorld (list_to_map tree) ∅ ∅ ∅ [].

(** provider-consumer_test.ts: [<simple-context-provider>] (element 1, in
    the body, element 0) holds 1000 and has two children, a subscribed
    consumer (element 2) and a one-shot consumer (element 3). *)
Definition P : ProviderId := 10.
Definition Cs : Callback := 20.
Definition Co : Callback := 21.

Definition provider_mounted : World Z :=
  let w := document [(1, 0); (2, 1); (3, 1)] in
  let w :=
    ContextProviderElement.new P 1
      (ContextProvider.mkOptions simpleContext (Some 1000%Z)) w in
  default w (ContextProviderElement.bind 0 P w).

Definition mounted : World Z :=
  let w := provider_mounted in
  let w :=
    Consumer.bind Cs 2
      (Consumer.new Cs
         (ContextConsumer.mkOptions simpleContext (Some 1) (Some true)) w) in
  Consumer.bind Co 3
    (Consumer.new Co (ContextConsumer.mkOptions simpleContext (Some 2) None) w).

(** The document of [mounted] when the provider holds [v] and the log is
    [l]. *)
Definition mounted_with (v : option Z) (l : list (LogEntry Z)) : World Z :=
  let u := mkHandle P Cs 0 in
  mkWorld (list_to_map [(1, 0); (2, 1); (3, 1)])
    {[1 := [OnContextRequest P; OnProviderRequest P]]}
    {[P := ContextProvider.mk
             (ValueNotifier.mk v [Some (Cs, ValueNotifier.mkInfo u 2)] 1)
             (Some 1) simpleContext]}
    {[Cs := ContextConsumer.mk (Some 2) simpleContext (Some 1) true true v
              (Some u) Cs;
      Co := ContextConsumer.mk (Some 3) simpleContext (Some 2) false true
              (Some 1000%Z) None Co]}
    l.

(** Nested providers: an outer provider (element 1, value 1) encloses an
    inner one (element 2, value 2), which encloses the element of a
    consumer (element 3). *)
Definition Outer : ProviderId := 11.
Definition Inner : ProviderId := 12.
Definition C : Callback := 22.

Definition nested_providers : World Z :=
  let w := document [(1, 0); (2, 1); (3, 2)] in
  let w :=
    ContextProviderBehavior.new Outer
      (ContextProvider.mkOptions simpleContext (Some 1%Z)) w in
  let w := default w (ContextProviderBehavior.bind 0 Outer 1 w) in
  let w :=
    ContextProviderBehavior.new Inner
      (ContextProvider.mkOptions simpleContext (Some 2%Z)) w in
  default w (ContextProviderBehavior.bind 1 Inner 2 w).

Definition nested : World Z :=
  Consumer.new C
    (ContextConsumer.mkOptions simpleContext (Some 1) (Some true))
    nested_providers.

(** late-provider_test.ts: the consumer (element 3) is subscribed to the
    outer provider (element 1) when a provider for the same context is
    attached to element 2, in between; [late_announcement] is the
    announcement of that provider on its way up. *)
Definition late_provider : World Z :=
  let w := document [(1, 0); (2, 1); (3, 2)] in
  let w :=
    ContextProviderBehavior.new Outer
      (ContextProvider.mkOptions simpleContext (Some 1%Z)) w in
  let w := default w (ContextProviderBehavior.bind 0 Outer 1 w) in
  let w :=
    Consumer.bind C 3
      (Consumer.new C
         (ContextConsumer.mkOptions simpleContext (Some 1) (Some true)) w) in
  let w :=
    ContextProviderElement.new Inner 2
      (ContextProvider.mkOptions simpleContext (Some 2%Z)) w in
  addEventListener 2 (OnProviderRequest Inner)
    (addEventListener 2 (OnContextRequest Inner) w).

Definition late_announcement : Event ContextProviderEvent.t :=
  mkEvent (ContextProviderEvent.mk simpleContext) 2 [1; 0] false.

End Scenario.

(** ** Vocabulary of consumer lifetimes *)

Module Lifetime.
Import ContextConsumer.
Section Lifetime.
Context {V : Type}.

Definition is_bind (op : Op (V:=V)) : bool :=
  match op with OpBind _ => true | _ => false end.

Definition is_hostConnected (op : Op (V:=V)) : bool :=
  match op with OpHostConnected => true | _ => false end.

(** [unbind] and [hostDisconnected]. *)
Definition is_disconnect (op : Op (V:=V)) : bool :=
  match op with OpUnbind | OpHostDisconnected => true | _ => false end.

Definition is_delivery (op : Op (V:=V)) : bool :=
  match op with OpDeliver _ _ => true | _ => false end.

(** The unsubscribe functions the providers passed along a lifetime. *)
Fixpoint delivered (ops : list (Op (V:=V))) : list Handle :=
  match ops with
  | [] => []
  | OpDeliver _ (Some h) :: ops' => h :: delivered ops'
  | _ :: ops' => delivered ops'
  end.

(** The elements the request events among [calls] were dispatched from. *)
Fixpoint dispatch_targets (calls : list (Call V)) : list Element :=
  match calls with
  | [] => []
  | DispatchEvent target _ :: calls' => target :: dispatch_targets calls'
  | _ :: calls' => dispatch_targets calls'
  end.

(** The user callback's arguments among [calls]. *)
Fixpoint user_args (calls : list (Call V)) : list (option V * option Handle) :=
  match calls with
  | [] => []
  | CallUser _ v u :: calls' => (v, u) :: user_args calls'
  | _ :: calls' => user_args calls'
  end.

End Lifetime.
End Lifetime.

(** ** Vocabulary of deliveries in the document *)

Section Deliveries.
Context {V : Type}.

(** What the calls of a delivery to the consumer filed under [cb] leave in
    the log. *)
Definition logged (cb : Callback) (calls : list (ContextConsumer.Call V))
  : list (LogEntry V) :=
  omap (λ c, match c with
             | ContextConsumer.CallUnsubscribe h => Some (Unsubscribed h)
             | ContextConsumer.CallUser f v u => Some (UserCalled cb f v u)
             | ContextConsumer.DispatchEvent _ _ => None
             end) calls.

End Deliveries.

(** ** The plain-element provider: the constructor's watch on its host *)

Module ContextProviderWatch.
Section Code.
Context {V : Type}.
Implicit Types (w : World V) (p : ProviderId).

(** The closure [connectionCallback] of the constructor of the
    plain-element provider, for a host without [$fastController]:
    [isConnected] is [this.host.isConnected] as the call finds it, and the
    private field [isReady] is passed along with the document. *)
Definition connectionCallback (fuel : nat) p (isConnected : bool)
    (st : bool * World V) : option (bool * World V) :=
  let '(isReady, w) := st in
  if isConnected then
    if negb isReady
    then pair true <$> ContextProviderElement.hostConnected fuel p w
    else Some (isReady, w)
  else
    if isReady
    then Some (false, ContextProviderElement.hostDisconnected p w)
    else Some (isReady, w).

(** [new ContextProvider(el, options)] on such a host: the fields are set,
    with [isReady = false], and [connectionCallback()] is called once; the
    [ResizeObserver] calls it again later. *)
Definition new (fuel : nat) p (el : Element)
    (options : ContextProvider.Options V) (isConnected : bool) w
  : option (bool * World V) :=
  connectionCallback fuel p isConnected
    (false, ContextProviderElement.new p el options w).

(** The calls of [connectionCallback] by the observer, one for each entry
    of [observations], which tells what [isConnected] is at that call. *)
Fixpoint observe (fuel : nat) p (observations : list bool)
    (st : bool * World V) : option (bool * World V) :=
  match observations with
  | [] => Some st
  | isConnected :: observations' =>
      match connectionCallback fuel p isConnected st with
      | Some st' => observe fuel p observations' st'
      | None => None
      end
  end.

End Code.

(** How often the host is found connected after it was not, along
    [observations], when it was last found as [isReady] tells. *)
Fixpoint connections (isReady : bool) (observations : list bool) : nat :=
  match observations with
  | [] => 0
  | isConnected :: observations' =>
      (if isConnected && negb isReady then 1 else 0)
      + connections isConnected observations'
  end.

End ContextProviderWatch.

Section Announcements.
Context {V : Type}.

(** The provider announcements recorded in a log, each with its target. *)
Fixpoint announcements (l : list (LogEntry V))
  : list (Element * ContextProviderEvent.t) :=
  match l with
  | [] => []
  | Announced target ev :: l' => (target, ev) :: announcements l'
  | _ :: l' => announcements l'
  end.

End Announcements.

Section WatchInvariant.
Context {V : Type}.

(** What the watch keeps: the document is in order, the provider is hosted
    on [el] with context [ctx], and its two listeners are on [el] exactly
    when [isReady] is set. *)
Definition watch_ok (p : ProviderId) (el : Element) (ctx : Context)
    (st : bool * World V) : Prop :=
  document_ok st.2
  ∧ (∃ P, providers st.2 !! p = Some P
          ∧ ContextProvider.host P = Some el
          ∧ ContextProvider.context P = ctx)
  ∧ (OnContextRequest p ∈ listeners_of st.2 el ↔ st.1 = true)
  ∧ (OnProviderRequest p ∈ listeners_of st.2 el ↔ st.1 = true).

End WatchInvariant.

(** ** The nearest providers of a request *)

Section Nearest.
Context {V : Type}.
Implicit Types (w : World V).

(** The claimants of the first element of [path] that has any. *)
Fixpoint first_claimants w (ev : Event ContextRequestEvent.t)
    (path : list Element) : list ProviderId :=
  match path with
  | [] => []
  | e :: path' =>
      match claimants w ev e with
      | [] => first_claimants w ev path'
      | ps => ps
      end
  end.

(** The providers that answer the request [request] dispatched from
    [target]: those on the nearest element of the path on which any provider
    answers it. *)
Definition nearest_claimants w (target : Element)
    (request : ContextRequestEvent.t) : list ProviderId :=
  let ev := mkEvent request target (ancestors_of w target) false in
  first_claimants w ev (composedPath ev).

End Nearest.

(** ** One more document: two providers on one element *)

Module Twins.

(** Two providers of the same context are bound to element 1, first
    [Scenario.Outer] and then [Scenario.Inner]; a consumer that requests
    [subscribe] has been created for element 2, below it. *)
Definition document : World Z :=
  let w := Scenario.document [(1, 0); (2, 1)] in
  let w :=
    ContextProviderBehavior.new Scenario.Outer
      (ContextProvider.mkOptions Scenario.simpleContext (Some 1%Z)) w in
  let w := default w (ContextProviderBehavior.bind 0 Scenario.Outer 1 w) in
  let w :=
    ContextProviderBehavior.new Scenario.Inner
      (ContextProvider.mkOptions Scenario.simpleContext (Some 2%Z)) w in
  let w := default w (ContextProviderBehavior.bind 0 Scenario.Inner 1 w) in
  Consumer.new Scenario.C
    (ContextConsumer.mkOptions Scenario.simpleContext (Some 1) (Some true)) w.

End Twins.
(** * Properties *)

(** ** The consumer on its own *)

Module ConsumerFacts.
Import ContextConsumer.
Section Facts.
Context {V : Type}.
Implicit Types (c : t V) (v : option V) (u : option Handle).

(** The delivery callback, statement by statement: the fields it leaves and
    the calls it makes. *)
Lemma _callback_body_unfold c v u :
  _callback_body v u c =
  (tt,
   mk (host c) (context c) (callback c) (subscribe c) true v u (_callback c),
   (match unsubscribe c with
    | Some held =>
        (if bool_decide (Some held ≠ u) then [CallUnsubscribe held] else [])
        ++ (if subscribe c then [] else [CallUnsubscribe held])
    | None => []
    end)
   ++ (if negb (provided c) || is_handoff c u || subscribe c
       then match callback c with
            | Some f => [CallUser f v u]
            | None => []
            end
       else [])).
Proof.
  destruct c as [h ctx f s pr val [held|] cb]; cbn.
  - unfold is_handoff; cbn.
    destruct (bool_decide (Some held ≠ u)), s, pr, f; reflexivity.
  - unfold is_handoff; cbn. destruct s, pr, f; reflexivity.
Qed.

Lemma hostDisconnected_unfold c :
  hostDisconnected c =
  (tt,
   mk (host c) (context c) (callback c) (subscribe c) (provided c) (value c)
      None (_callback c),
   match unsubscribe c with Some held => [CallUnsubscribe held] | None => [] end).
Proof. destruct c as [h ctx f s pr val [held|] cb]; reflexivity. Qed.

Lemma dispatchRequest_unfold c :
  dispatchRequest c =
  (tt, c,
   match host c with
   | Some el =>
       [DispatchEvent el
          (ContextRequestEvent.mk (context c) (_callback c) (subscribe c))]
   | None => []
   end).
Proof. destruct c as [[el|] ctx f s pr val held cb]; reflexivity. Qed.

Lemma bind_unfold source c :
  bind source c =
  (tt,
   mk (Some source) (context c) (callback c) (subscribe c) (provided c)
      (value c) (unsubscribe c) (_callback c),
   [DispatchEvent source
      (ContextRequestEvent.mk (context c) (_callback c) (subscribe c))]).
Proof. destruct c; reflexivity. Qed.

Lemma user_calls_app (l1 l2 : list (Call V)) :
  user_calls (l1 ++ l2) = user_calls l1 ++ user_calls l2.
Proof. apply filter_app. Qed.

Lemma dispatched_app (l1 l2 : list (Call V)) :
  dispatched (l1 ++ l2) = dispatched l1 ++ dispatched l2.
Proof.
  induction l1 as [|[]]; cbn; [done|done|done|]. by rewrite IHl1.
Qed.

Lemma unsubscribed_app (l1 l2 : list (Call V)) :
  unsubscribed (l1 ++ l2) = unsubscribed l1 ++ unsubscribed l2.
Proof.
  induction l1 as [|[]]; cbn; [done| |done|done]. by rewrite IHl1.
Qed.

(** One step of a lifetime keeps what the constructor fixed. *)
Lemma do_op_keeps op c :
  let c' := (do_op op c).1.2 in
  _callback c' = _callback c ∧ context c' = context c
  ∧ subscribe c' = subscribe c ∧ callback c' = callback c.
Proof.
  destruct op; cbn [do_op].
  - rewrite bind_unfold. done.
  - unfold unbind. rewrite hostDisconnected_unfold. done.
  - unfold hostConnected. rewrite dispatchRequest_unfold. done.
  - rewrite hostDisconnected_unfold. done.
  - rewrite _callback_body_unfold. done.
Qed.

(** Every request event of one step carries the consumer's [_callback],
    context and subscribe flag. *)
Lemma do_op_dispatched op c :
  Forall (λ ev, ev = ContextRequestEvent.mk (context c) (_callback c) (subscribe c))
    (dispatched (do_op op c).2).
Proof.
  destruct op; cbn [do_op].
  - rewrite bind_unfold. cbn. by repeat constructor.
  - unfold unbind. rewrite hostDisconnected_unfold. cbn.
    destruct (unsubscribe c); constructor.
  - unfold hostConnected. rewrite dispatchRequest_unfold. cbn.
    destruct (host c); by repeat constructor.
  - rewrite hostDisconnected_unfold. cbn. destruct (unsubscribe c); constructor.
  - rewrite _callback_body_unfold. cbn. rewrite dispatched_app.
    apply Forall_app. split.
    + destruct (unsubscribe c); [|constructor].
      destruct (bool_decide _), (subscribe c); cbn; constructor.
    + destruct (_ || _); [|constructor]. destruct (callback c); constructor.
Qed.

Lemma run_cons op ops c :
  run (op :: ops) c =
  let r := do_op op c in
  let r' := run ops r.1.2 in
  (tt, r'.1.2, r.2 ++ r'.2).
Proof.
  cbn [run]. unfold bindM.
  destruct (do_op op c) as [[[] c1] calls1]. cbn.
  destruct (run ops c1) as [[[] c2] calls2]. reflexivity.
Qed.

Lemma run_app ops1 ops2 c :
  run (ops1 ++ ops2) c =
  let r := run ops1 c in
  let r' := run ops2 r.1.2 in
  (tt, r'.1.2, r.2 ++ r'.2).
Proof.
  revert c. induction ops1 as [|op ops1 IH]; intros c.
  - cbn. destruct (run ops2 c) as [[[] c2] calls2]. reflexivity.
  - rewrite <-app_comm_cons, !run_cons. cbn zeta. rewrite IH. cbn.
    by rewrite app_assoc.
Qed.

Lemma run_keeps ops c :
  let c' := state_after ops c in
  _callback c' = _callback c ∧ context c' = context c
  ∧ subscribe c' = subscribe c ∧ callback c' = callback c.
Proof.
  unfold state_after. revert c. induction ops as [|op ops IH]; intros c; [done|].
  rewrite run_cons. cbn.
  destruct (do_op_keeps op c) as (? & ? & ? & ?).
  destruct (IH (do_op op c).1.2) as (? & ? & ? & ?).
  repeat split; congruence.
Qed.

End Facts.
End ConsumerFacts.

(** ** The map *)

Module JsMapFacts.
Section Facts.
Context {K A : Type} `{EqDecision K}.
Implicit Types (m : JsMap.t K A) (k : K) (a : A).

Lemma has_true k m : JsMap.has k m = true ↔ is_Some (JsMap.get k m).
Proof.
  unfold JsMap.has. destruct (JsMap.get k m); split; try done; eauto.
Qed.

Lemma has_false k m : JsMap.has k m = false ↔ JsMap.get k m = None.
Proof. unfold JsMap.has. by destruct (JsMap.get k m). Qed.

Lemma get_app k m1 m2 :
  JsMap.get k (m1 ++ m2) =
  match JsMap.get k m1 with Some a => Some a | None => JsMap.get k m2 end.
Proof.
  induction m1 as [|[[k' a']|] m1 IH]; cbn; [done| |done].
  by destruct (decide (k' = k)).
Qed.

Lemma get_set_new k a m :
  JsMap.has k m = false → JsMap.get k (JsMap.set k a m) = Some a.
Proof.
  intros Hh. unfold JsMap.set. rewrite Hh, get_app.
  apply has_false in Hh. rewrite Hh. cbn. by rewrite decide_True.
Qed.

Lemma get_delete_eq k m : JsMap.get k (JsMap.delete k m) = None.
Proof.
  induction m as [|[[k' a']|] m IH]; cbn; [done| |done].
  destruct (decide (k' = k)); cbn; [done|]. by rewrite decide_False.
Qed.

Lemma get_delete_ne k k' m :
  k ≠ k' → JsMap.get k' (JsMap.delete k m) = JsMap.get k' m.
Proof.
  intros Hne. induction m as [|[[k0 a0]|] m IH]; cbn; [done| |done].
  destruct (decide (k0 = k)) as [->|]; cbn.
  - by rewrite decide_False.
  - destruct (decide (k0 = k')); [done|]. apply IH.
Qed.

Lemma get_delete_None k k' m :
  JsMap.get k m = None → JsMap.get k (JsMap.delete k' m) = None.
Proof.
  destruct (decide (k' = k)) as [->|Hne].
  - intros _. apply get_delete_eq.
  - by rewrite get_delete_ne.
Qed.

Lemma has_delete_eq k m : JsMap.has k (JsMap.delete k m) = false.
Proof. apply has_false, get_delete_eq. Qed.

Lemma delete_length k m : length (JsMap.delete k m) = length m.
Proof.
  induction m as [|[[k' a']|] m IH]; cbn; [done| |by rewrite IH].
  destruct (decide (k' = k)); cbn; by rewrite IH.
Qed.

Lemma delete_app k m1 m2 :
  JsMap.delete k (m1 ++ m2) = JsMap.delete k m1 ++ JsMap.delete k m2.
Proof.
  induction m1 as [|[[k' a']|] m1 IH]; cbn; [done| |by rewrite IH].
  destruct (decide (k' = k)); cbn; by rewrite IH.
Qed.

(** A slot of the map after [delete k]: emptied if it held [k]. *)
Lemma delete_lookup k m i :
  JsMap.delete k m !! i =
  match m !! i with
  | Some (Some (k', a)) => if decide (k' = k) then Some None else Some (Some (k', a))
  | o => o
  end.
Proof.
  revert i. induction m as [|[[k' a']|] m IH]; intros [|i]; cbn; try done.
  - by destruct (decide (k' = k)).
  - destruct (decide (k' = k)); cbn; apply IH.
Qed.

Lemma get_Some_entries k a m :
  JsMap.get k m = Some a → (k, a) ∈ JsMap.entries m.
Proof.
  unfold JsMap.entries.
  induction m as [|[[k' a']|] m IH]; cbn; [done| |done].
  destruct (decide (k' = k)) as [->|]; intros Hg.
  - injection Hg as ->. apply list_elem_of_here.
  - apply list_elem_of_further, IH, Hg.
Qed.

Lemma get_None_keys k m : JsMap.get k m = None → k ∉ JsMap.keys m.
Proof.
  unfold JsMap.keys, JsMap.entries.
  induction m as [|[[k' a']|] m IH]; cbn; [by intros _ ?%elem_of_nil| |done].
  destruct (decide (k' = k)) as [->|]; [done|]. intros Hg.
  rewrite not_elem_of_cons. split; [done|]. by apply IH.
Qed.

End Facts.
End JsMapFacts.

(** ** The document: what the notifier and the handlers leave alone *)

Section WorldFacts.
Context {V : Type}.
Implicit Types (w : World V) (p : ProviderId) (cb : Callback).

Lemma invocations_app (l1 l2 : list (LogEntry V)) :
  invocations (l1 ++ l2) = invocations l1 ++ invocations l2.
Proof.
  induction l1 as [|[] l1 IH]; cbn; try done. by rewrite IH.
Qed.

Lemma requests_app (l1 l2 : list (LogEntry V)) :
  requests (l1 ++ l2) = requests l1 ++ requests l2.
Proof.
  induction l1 as [|[] l1 IH]; cbn; try done. by rewrite IH.
Qed.

Lemma user_called_app (l1 l2 : list (LogEntry V)) :
  user_called (l1 ++ l2) = user_called l1 ++ user_called l2.
Proof.
  induction l1 as [|[] l1 IH]; cbn; try done. by rewrite IH.
Qed.

Lemma same_frame_refl w : same_frame w w.
Proof. done. Qed.

Lemma same_frame_trans w1 w2 w3 :
  same_frame w1 w2 → same_frame w2 w3 → same_frame w1 w3.
Proof. intros (?&?&?) (?&?&?). repeat split; congruence. Qed.

Lemma frames_insert_same w p P P' :
  providers w !! p = Some P → frame P' = frame P →
  frames (set_providers (<[p := P']> (providers w)) w) = frames w.
Proof.
  intros Hp HF. unfold frames. cbn. rewrite fmap_insert, HF.
  apply insert_id. by rewrite lookup_fmap, Hp.
Qed.

Lemma frames_lookup w w' p :
  frames w' = frames w →
  frame <$> providers w' !! p = frame <$> providers w !! p.
Proof. intros H. by rewrite <-!lookup_fmap; fold (frames w') (frames w); rewrite H. Qed.

Lemma same_frame_listeners_of w w' e :
  same_frame w w' → listeners_of w' e = listeners_of w e.
Proof. intros (_ & H & _). unfold listeners_of. by rewrite H. Qed.

Lemma same_frame_ancestors_of w w' e :
  same_frame w w' → ancestors_of w' e = ancestors_of w e.
Proof. intros (H & _ & _). unfold ancestors_of. by rewrite H. Qed.

Lemma same_frame_value_of w w' p :
  same_frame w w' → value_of w' p = value_of w p.
Proof.
  intros (_ & _ & H). apply (frames_lookup _ _ p) in H. unfold value_of.
  destruct (providers w' !! p), (providers w !! p); cbn in *; try done.
  unfold frame in H. injection H as H1 H2 H3. by rewrite H3.
Qed.

Lemma same_frame_claimants w w' ev e :
  same_frame w w' → claimants w' ev e = claimants w ev e.
Proof.
  intros HF. unfold claimants. rewrite (same_frame_listeners_of w w' e HF).
  apply list_omap_ext, Forall_Forall2_diag, Forall_true.
  intros [p|p]; cbn; [|done].
  destruct HF as (_ & _ & HF). apply (frames_lookup _ _ p) in HF.
  destruct (providers w' !! p) as [P'|], (providers w !! p) as [P|];
    cbn in *; try done.
  unfold answers. unfold frame in HF. injection HF as H1 H2 H3.
  by rewrite H1, H2.
Qed.

(** *** Unsubscribe functions *)

Lemma run_unsubscribe_same_frame h w : same_frame w (run_unsubscribe h w).
Proof.
  unfold run_unsubscribe. cbn.
  destruct (providers w !! hprovider h) as [P|] eqn:HP; [|done].
  repeat split. cbn.
  by apply (frames_insert_same (add_log (Unsubscribed h) w) _ P).
Qed.

Lemma run_unsubscribe_consumers h w :
  consumers (run_unsubscribe h w) = consumers w.
Proof.
  unfold run_unsubscribe. cbn. by destruct (providers w !! hprovider h).
Qed.

Lemma run_unsubscribe_log h w :
  log (run_unsubscribe h w) = log w ++ [Unsubscribed h].
Proof.
  unfold run_unsubscribe. cbn. by destruct (providers w !! hprovider h).
Qed.

Lemma run_unsubscribe_subscriptions h w p :
  subscriptions_of (run_unsubscribe h w) p =
  if decide (p = hprovider h)
  then JsMap.delete (hcallback h) (subscriptions_of w p)
  else subscriptions_of w p.
Proof.
  unfold run_unsubscribe, subscriptions_of. cbn.
  destruct (providers w !! hprovider h) as [P|] eqn:HP; cbn.
  - destruct (decide (p = hprovider h)) as [->|Hne].
    + by rewrite lookup_insert_eq, HP.
    + by rewrite lookup_insert_ne.
  - destruct (decide (p = hprovider h)) as [->|Hne]; [|done].
    by rewrite HP.
Qed.

(** *** Calls of a consumer that dispatch nothing *)

Lemma perform_same_frame cb c w : same_frame w (perform no_dispatch cb c w).
Proof. destruct c; cbn; [apply run_unsubscribe_same_frame|done..]. Qed.

Lemma perform_consumers cb c w :
  consumers (perform no_dispatch cb c w) = consumers w.
Proof. destruct c; cbn; [apply run_unsubscribe_consumers|done..]. Qed.

Lemma perform_invocations cb c w :
  invocations (log (perform no_dispatch cb c w)) = invocations (log w).
Proof.
  destruct c; cbn; [|by rewrite invocations_app, app_nil_r|done].
  by rewrite run_unsubscribe_log, invocations_app, app_nil_r.
Qed.

Lemma perform_requests cb c w :
  requests (log (perform no_dispatch cb c w)) = requests (log w).
Proof.
  destruct c; cbn; [|by rewrite requests_app, app_nil_r|done].
  by rewrite run_unsubscribe_log, requests_app, app_nil_r.
Qed.

Lemma perform_all_same_frame cb calls w :
  same_frame w (foldl (λ w c, perform no_dispatch cb c w) w calls).
Proof.
  revert w. induction calls as [|c calls IH]; intros w; [done|]. cbn.
  eapply same_frame_trans; [apply (perform_same_frame cb c)|apply IH].
Qed.

Lemma perform_all_consumers cb calls w :
  consumers (foldl (λ w c, perform no_dispatch cb c w) w calls) = consumers w.
Proof.
  revert w. induction calls as [|c calls IH]; intros w; [done|]. cbn.
  by rewrite IH, perform_consumers.
Qed.

Lemma perform_all_invocations cb calls w :
  invocations (log (foldl (λ w c, perform no_dispatch cb c w) w calls))
  = invocations (log w).
Proof.
  revert w. induction calls as [|c calls IH]; intros w; [done|]. cbn.
  by rewrite IH, perform_invocations.
Qed.

Lemma perform_all_requests cb calls w :
  requests (log (foldl (λ w c, perform no_dispatch cb c w) w calls))
  = requests (log w).
Proof.
  revert w. induction calls as [|c calls IH]; intros w; [done|]. cbn.
  by rewrite IH, perform_requests.
Qed.

(** *** A method of a consumer that dispatches nothing *)

Lemma run_method_same_frame cb m w : same_frame w (run_method no_dispatch cb m w).
Proof.
  unfold run_method. destruct (consumers w !! cb) as [c|]; [|done].
  destruct (m c) as [[[] c'] calls].
  eapply same_frame_trans; [|apply perform_all_same_frame]. done.
Qed.

Lemma run_method_invocations cb m w :
  invocations (log (run_method no_dispatch cb m w)) = invocations (log w).
Proof.
  unfold run_method. destruct (consumers w !! cb) as [c|]; [|done].
  destruct (m c) as [[[] c'] calls]. by rewrite perform_all_invocations.
Qed.

Lemma run_method_requests cb m w :
  requests (log (run_method no_dispatch cb m w)) = requests (log w).
Proof.
  unfold run_method. destruct (consumers w !! cb) as [c|]; [|done].
  destruct (m c) as [[[] c'] calls]. by rewrite perform_all_requests.
Qed.

Lemma run_method_consumers cb m w :
  consumers (run_method no_dispatch cb m w) =
  match consumers w !! cb with
  | Some c => <[cb := (m c).1.2]> (consumers w)
  | None => consumers w
  end.
Proof.
  unfold run_method. destruct (consumers w !! cb) as [c|]; [|done].
  destruct (m c) as [[[] c'] calls]. by rewrite perform_all_consumers.
Qed.

(** *** A provider calls a callback *)

Lemma invoke_same_frame p cb v u w : same_frame w (invoke p cb v u w).
Proof.
  unfold invoke. eapply same_frame_trans; [|apply run_method_same_frame]. done.
Qed.

Lemma invoke_invocations p cb v u w :
  invocations (log (invoke p cb v u w)) = invocations (log w) ++ [(p, cb, v)].
Proof.
  unfold invoke. rewrite run_method_invocations. cbn [log add_log].
  by rewrite invocations_app.
Qed.

Lemma invoke_requests p cb v u w :
  requests (log (invoke p cb v u w)) = requests (log w).
Proof.
  unfold invoke. rewrite run_method_requests. cbn [log add_log].
  by rewrite requests_app, app_nil_r.
Qed.

Lemma invoke_consumers p cb v u w :
  consumers (invoke p cb v u w) =
  match consumers w !! cb with
  | Some c =>
      <[cb := (ContextConsumer._callback_body v u c).1.2]> (consumers w)
  | None => consumers w
  end.
Proof. unfold invoke. by rewrite run_method_consumers. Qed.

Lemma invoke_consumer_value p cb v u w c :
  consumers w !! cb = Some c →
  consumer_value (invoke p cb v u w) cb = v.
Proof.
  intros Hc. unfold consumer_value. rewrite invoke_consumers, Hc.
  rewrite lookup_insert_eq. cbn [mbind option_bind].
  by rewrite ConsumerFacts._callback_body_unfold.
Qed.

Lemma invoke_consumer_is_Some p cb cb' v u w :
  is_Some (consumers w !! cb') → is_Some (consumers (invoke p cb v u w) !! cb').
Proof.
  intros Hc. rewrite invoke_consumers.
  destruct (consumers w !! cb) as [c|]; [|done].
  destruct (decide (cb = cb')) as [->|Hne].
  - rewrite lookup_insert_eq. eauto.
  - by rewrite lookup_insert_ne.
Qed.

End WorldFacts.

Section NotifierFacts.
Context {V : Type}.
Implicit Types (w : World V) (p : ProviderId) (cb : Callback).

(** *** Registration *)

Lemma register_same_frame p cb host w : same_frame w (register p cb host w).
Proof.
  unfold register. destruct (providers w !! p) as [P|] eqn:HP; [|done].
  destruct (JsMap.has _ _); [done|].
  repeat split. by apply (frames_insert_same w p P).
Qed.

Lemma register_consumers p cb host w :
  consumers (register p cb host w) = consumers w.
Proof.
  unfold register. destruct (providers w !! p) as [P|]; [|done].
  by destruct (JsMap.has _ _).
Qed.

Lemma register_log p cb host w : log (register p cb host w) = log w.
Proof.
  unfold register. destruct (providers w !! p) as [P|]; [|done].
  by destruct (JsMap.has _ _).
Qed.

(** After the registration step the callback has an entry: the one it had,
    or a new one for the requesting element with a new unsubscribe function
    of this provider for this callback. *)
Lemma register_get p P cb host w :
  providers w !! p = Some P →
  JsMap.get cb (subscriptions_of (register p cb host w) p) =
  match JsMap.get cb (ContextProvider.subscriptions P) with
  | Some info => Some info
  | None =>
      Some (ValueNotifier.mkInfo
              (mkHandle p cb (ValueNotifier.stamp (ContextProvider.notifier P)))
              host)
  end.
Proof.
  intros HP. unfold register, subscriptions_of. rewrite HP.
  unfold ContextProvider.subscriptions.
  destruct (JsMap.has cb _) eqn:Hh.
  - rewrite HP. apply JsMapFacts.has_true in Hh as [info Hi].
    unfold ContextProvider.subscriptions. by rewrite Hi.
  - cbn. rewrite lookup_insert_eq. cbn.
    rewrite JsMapFacts.get_set_new by done.
    apply JsMapFacts.has_false in Hh. by rewrite Hh.
Qed.

(** *** addCallback *)

Lemma addCallback_same_frame p cb host sub w :
  same_frame w (addCallback p cb host sub w).
Proof.
  unfold addCallback. destruct (providers w !! p) as [P|]; [|done].
  destruct sub; cbn.
  - destruct (JsMap.get _ _).
    + eapply same_frame_trans; [apply register_same_frame|apply invoke_same_frame].
    + apply register_same_frame.
  - apply invoke_same_frame.
Qed.

(** The callback is invoked once, at once, with the current value. *)
Lemma addCallback_invocations p P cb host sub w :
  providers w !! p = Some P →
  invocations (log (addCallback p cb host sub w)) =
  invocations (log w) ++ [(p, cb, ContextProvider.value P)].
Proof.
  intros HP. unfold addCallback. rewrite HP. destruct sub; cbn.
  - rewrite (register_get p P) by done.
    destruct (JsMap.get cb _);
      by rewrite invoke_invocations, register_log.
  - apply invoke_invocations.
Qed.

Lemma addCallback_requests p cb host sub w :
  requests (log (addCallback p cb host sub w)) = requests (log w).
Proof.
  unfold addCallback. destruct (providers w !! p) as [P|]; [|done].
  destruct sub; cbn.
  - destruct (JsMap.get _ _).
    + by rewrite invoke_requests, register_log.
    + by rewrite register_log.
  - apply invoke_requests.
Qed.

Lemma addCallback_consumer_value p P cb host sub w :
  providers w !! p = Some P →
  is_Some (consumers w !! cb) →
  consumer_value (addCallback p cb host sub w) cb = ContextProvider.value P.
Proof.
  intros HP [c Hc]. unfold addCallback. rewrite HP. destruct sub; cbn.
  - rewrite (register_get p P) by done.
    destruct (JsMap.get cb _);
      (eapply invoke_consumer_value; by rewrite register_consumers).
  - by eapply invoke_consumer_value.
Qed.

Lemma addCallback_consumer_is_Some p cb cb' host sub w :
  is_Some (consumers w !! cb') →
  is_Some (consumers (addCallback p cb host sub w) !! cb').
Proof.
  intros Hc. unfold addCallback. destruct (providers w !! p) as [P|]; [|done].
  destruct sub; cbn.
  - destruct (JsMap.get _ _).
    + apply invoke_consumer_is_Some. by rewrite register_consumers.
    + by rewrite register_consumers.
  - by apply invoke_consumer_is_Some.
Qed.

(** *** onContextRequest *)

Lemma answers_spec {D} (ctx : D → Context) (P : ContextProvider.t V) (ev : Event D) :
  bool_decide (ctx (detail ev) ≠ ContextProvider.context P)
  || bool_decide (Some (origin ev) = ContextProvider.host P)
  = negb (answers ctx P ev).
Proof.
  unfold answers.
  destruct (decide (ctx (detail ev) = ContextProvider.context P)) as [Hc|Hc].
  - rewrite (bool_decide_eq_false_2 (_ ≠ _)) by (intros ?; done).
    rewrite (bool_decide_eq_true_2 (_ = _) Hc). cbn.
    rewrite negb_involutive. apply bool_decide_ext. split; congruence.
  - rewrite (bool_decide_eq_true_2 (_ ≠ _) Hc).
    by rewrite (bool_decide_eq_false_2 (_ = _) Hc).
Qed.

Lemma onContextRequest_unfold p P ev w :
  providers w !! p = Some P →
  onContextRequest p ev w =
  if answers ContextRequestEvent.context P ev
  then (stopPropagation ev,
        addCallback p (ContextRequestEvent.callback (detail ev)) (origin ev)
          (ContextRequestEvent.subscribe (detail ev)) w)
  else (ev, w).
Proof.
  intros HP. unfold onContextRequest. rewrite HP, answers_spec.
  by destruct (answers _ _ _).
Qed.

End NotifierFacts.

(** ** A request event on its way up *)

Section DispatchFacts.
Context {V : Type}.
Implicit Types (w : World V) (p : ProviderId) (cb : Callback)
  (ev : Event ContextRequestEvent.t).

Lemma serve_cons ev w p ps :
  serve ev w (p :: ps) =
  serve ev
    (addCallback p (ContextRequestEvent.callback (detail ev)) (origin ev)
       (ContextRequestEvent.subscribe (detail ev)) w) ps.
Proof. done. Qed.

Lemma claimant_stopPropagation w ev l :
  claimant w (stopPropagation ev) l = claimant w ev l.
Proof. done. Qed.

Lemma claimant_same_frame w w' ev l :
  same_frame w w' → claimant w' ev l = claimant w ev l.
Proof.
  intros (_ & _ & HF). destruct l as [p|p]; cbn; [|done].
  apply (frames_lookup _ _ p) in HF.
  destruct (providers w' !! p) as [P'|], (providers w !! p) as [P|];
    cbn in *; try done.
  unfold answers. unfold frame in HF. injection HF as H1 H2 H3.
  by rewrite H1, H2.
Qed.

(** The listeners of one element: the claimants among them are served in
    order, and the event is stopped if there is one. *)
Lemma listeners_fold ev w (ls : list Listener) :
  foldl (λ st l, request_listener l st) (ev, w) ls =
  (if omap (claimant w ev) ls is [] then ev else stopPropagation ev,
   serve ev w (omap (claimant w ev) ls)).
Proof.
  revert ev w. induction ls as [|l ls IH]; intros ev w; [done|].
  cbn [foldl]. destruct l as [p|p]; cbn [request_listener fst snd].
  - destruct (providers w !! p) as [P|] eqn:HP.
    + rewrite (onContextRequest_unfold p P) by done.
      cbn [omap list_omap claimant]. rewrite HP.
      destruct (answers _ P ev) eqn:Ha.
      * rewrite IH.
        assert (omap (claimant (addCallback p
                   (ContextRequestEvent.callback (detail ev)) (origin ev)
                   (ContextRequestEvent.subscribe (detail ev)) w)
                   (stopPropagation ev)) ls
                = omap (claimant w ev) ls) as ->.
        { apply list_omap_ext, Forall_Forall2_diag, Forall_true. intros l.
          rewrite claimant_stopPropagation.
          apply claimant_same_frame, addCallback_same_frame. }
        cbn. by destruct (omap _ ls).
      * apply IH.
    + unfold onContextRequest. rewrite HP. cbn [omap list_omap claimant].
      rewrite HP. apply IH.
  - apply IH.
Qed.

Lemma bubble_request_skip pre rest ev w :
  Forall (λ e, claimants w ev e = []) pre →
  propagationStopped ev = false →
  bubble_request (pre ++ rest) (ev, w) = bubble_request rest (ev, w).
Proof.
  induction 1 as [|e pre He _ IH]; intros Hs; [done|].
  cbn [app bubble_request fst snd]. rewrite listeners_fold.
  fold (claimants w ev e). rewrite He. cbn. rewrite Hs. by apply IH.
Qed.

Lemma bubble_request_claim e rest ev w :
  claimants w ev e ≠ [] →
  bubble_request (e :: rest) (ev, w) =
  (stopPropagation ev, serve ev w (claimants w ev e)).
Proof.
  intros Hc. cbn [bubble_request fst snd]. rewrite listeners_fold.
  fold (claimants w ev e). by destruct (claimants w ev e).
Qed.

Lemma bubble_request_unclaimed path ev w :
  Forall (λ e, claimants w ev e = []) path →
  propagationStopped ev = false →
  bubble_request path (ev, w) = (ev, w).
Proof.
  intros. rewrite <-(app_nil_r path). by rewrite bubble_request_skip.
Qed.

(** *** What serving the claimants does *)

Lemma serve_same_frame ev w ps : same_frame w (serve ev w ps).
Proof.
  revert w. induction ps as [|p ps IH]; intros w; [done|].
  rewrite serve_cons.
  eapply same_frame_trans; [apply addCallback_same_frame|apply IH].
Qed.

Lemma serve_snoc ev w ps p :
  serve ev w (ps ++ [p]) =
  addCallback p (ContextRequestEvent.callback (detail ev)) (origin ev)
    (ContextRequestEvent.subscribe (detail ev)) (serve ev w ps).
Proof. unfold serve. by rewrite foldl_app. Qed.

Lemma serve_consumer_is_Some ev w ps cb :
  is_Some (consumers w !! cb) → is_Some (consumers (serve ev w ps) !! cb).
Proof.
  revert w. induction ps as [|p ps IH]; intros w Hc; [done|].
  rewrite serve_cons. by apply IH, addCallback_consumer_is_Some.
Qed.

Lemma serve_requests ev w ps :
  requests (log (serve ev w ps)) = requests (log w).
Proof.
  revert w. induction ps as [|p ps IH]; intros w; [done|].
  by rewrite serve_cons, IH, addCallback_requests.
Qed.

Lemma value_of_Some w p P :
  providers w !! p = Some P → value_of w p = ContextProvider.value P.
Proof. intros HP. unfold value_of. by rewrite HP. Qed.

Lemma same_frame_provider_is_Some w w' p :
  same_frame w w' → is_Some (providers w !! p) → is_Some (providers w' !! p).
Proof.
  intros (_ & _ & HF) [P HP]. apply (frames_lookup _ _ p) in HF.
  rewrite HP in HF. destruct (providers w' !! p); [eauto|done].
Qed.

(** Every claimant invokes the callback once, with its current value, in
    the order of the listeners. *)
Lemma serve_invocations ev w ps :
  Forall (λ p, is_Some (providers w !! p)) ps →
  invocations (log (serve ev w ps)) =
  invocations (log w)
  ++ ((λ p, (p, ContextRequestEvent.callback (detail ev), value_of w p)) <$> ps).
Proof.
  revert w. induction ps as [|p ps IH]; intros w Hps.
  - cbn. by rewrite app_nil_r.
  - apply Forall_cons in Hps as [[P HP] Hps]. rewrite serve_cons, fmap_cons.
    pose proof (addCallback_same_frame p
      (ContextRequestEvent.callback (detail ev)) (origin ev)
      (ContextRequestEvent.subscribe (detail ev)) w) as HF.
    rewrite IH.
    + rewrite (addCallback_invocations p P) by done.
      rewrite <-app_assoc. cbn. f_equal. f_equal.
      * by rewrite (value_of_Some w p P).
      * apply list_fmap_ext. intros _ q _. cbn.
        by rewrite (same_frame_value_of _ _ q HF).
    + eapply Forall_impl; [exact Hps|]. intros q.
      by apply same_frame_provider_is_Some.
Qed.

(** The consumer keeps the value of the last claimant. *)
Lemma serve_consumer_value ev w ps p :
  Forall (λ p, is_Some (providers w !! p)) (ps ++ [p]) →
  is_Some (consumers w !! ContextRequestEvent.callback (detail ev)) →
  consumer_value (serve ev w (ps ++ [p]))
    (ContextRequestEvent.callback (detail ev)) = value_of w p.
Proof.
  intros Hps Hc. rewrite serve_snoc.
  apply Forall_app in Hps as [_ [[P HP] _]%Forall_cons].
  pose proof (serve_same_frame ev w ps) as HF.
  destruct (same_frame_provider_is_Some w _ p HF) as [P' HP']; [eauto|].
  rewrite (addCallback_consumer_value p P') by
    (try done; by apply serve_consumer_is_Some).
  by rewrite <-(value_of_Some _ p P' HP'), (same_frame_value_of _ _ p HF).
Qed.

Lemma claimants_provider_is_Some w ev e :
  Forall (λ p, is_Some (providers w !! p)) (claimants w ev e).
Proof.
  apply Forall_forall. intros p [l [_ Hl]]%list_elem_of_omap.
  destruct l as [q|q]; cbn in Hl; [|done].
  destruct (providers w !! q) as [P|] eqn:HP; [|done].
  destruct (answers _ _ _); [|done]. injection Hl as <-. eauto.
Qed.

Lemma add_log_same_frame e w : same_frame w (add_log e w).
Proof. done. Qed.

(** The dispatch of a request event whose nearest claimants are on [e]. *)
Lemma dispatchRequestEvent_nearest target detail pre e post w :
  let ev := mkEvent detail target (ancestors_of w target) false in
  target :: ancestors_of w target = pre ++ e :: post →
  Forall (λ e', claimants w ev e' = []) pre →
  claimants w ev e ≠ [] →
  dispatchRequestEvent target detail w =
  serve ev (add_log (Dispatched target detail) w) (claimants w ev e).
Proof.
  intros ev Hpath Hpre He. unfold dispatchRequestEvent.
  change (ancestors_of (add_log _ w) target) with (ancestors_of w target).
  fold ev. unfold composedPath. cbn [origin ancestors ev]. rewrite Hpath.
  rewrite bubble_request_skip; [|by eapply Forall_impl; [exact Hpre|]|done].
  rewrite bubble_request_claim by done. done.
Qed.

(** The dispatch of a request event that nobody claims. *)
Lemma dispatchRequestEvent_unclaimed target detail w :
  let ev := mkEvent detail target (ancestors_of w target) false in
  Forall (λ e', claimants w ev e' = []) (target :: ancestors_of w target) →
  dispatchRequestEvent target detail w = add_log (Dispatched target detail) w.
Proof.
  intros ev Hpath. unfold dispatchRequestEvent.
  change (ancestors_of (add_log _ w) target) with (ancestors_of w target).
  fold ev. unfold composedPath. cbn [origin ancestors ev].
  by rewrite bubble_request_unclaimed.
Qed.

Lemma bubble_request_same_frame path ev w :
  same_frame w (bubble_request path (ev, w)).2.
Proof.
  revert ev w. induction path as [|e path IH]; intros ev w; [done|].
  cbn [bubble_request fst snd]. rewrite listeners_fold. cbn [fst snd].
  destruct (propagationStopped _).
  - apply serve_same_frame.
  - eapply same_frame_trans; [apply serve_same_frame|apply IH].
Qed.

Lemma dispatchRequestEvent_same_frame target detail w :
  same_frame w (dispatchRequestEvent target detail w).
Proof.
  unfold dispatchRequestEvent.
  eapply same_frame_trans; [|apply bubble_request_same_frame].
  apply add_log_same_frame.
Qed.

(** [bind] in the document: the host is stored and the request dispatched. *)
Lemma consumer_bind_unfold cb (c : ContextConsumer.t V) (h : Element) w :
  consumers w !! cb = Some c →
  ContextConsumer._callback c = cb →
  Consumer.bind cb h w =
  dispatchRequestEvent h
    (ContextRequestEvent.mk (ContextConsumer.context c) cb
       (ContextConsumer.subscribe c))
    (set_consumers
       (<[cb := (ContextConsumer.set_host (Some h) c).1.2]> (consumers w)) w).
Proof.
  intros Hc <-. unfold Consumer.bind, run_method. rewrite Hc.
  rewrite ConsumerFacts.bind_unfold. reflexivity.
Qed.

Lemma consumer_hostDisconnected_unfold cb (c : ContextConsumer.t V) w :
  consumers w !! cb = Some c →
  Consumer.hostDisconnected cb w =
  let w1 :=
    set_consumers
      (<[cb := (ContextConsumer.set_unsubscribe None c).1.2]> (consumers w)) w in
  match ContextConsumer.unsubscribe c with
  | Some held => run_unsubscribe held w1
  | None => w1
  end.
Proof.
  intros Hc. unfold Consumer.hostDisconnected, run_method. rewrite Hc.
  rewrite ConsumerFacts.hostDisconnected_unfold.
  by destruct (ContextConsumer.unsubscribe c).
Qed.

Lemma consumer_hostConnected_unfold cb (c : ContextConsumer.t V) (h : Element) w :
  consumers w !! cb = Some c →
  ContextConsumer._callback c = cb →
  ContextConsumer.host c = Some h →
  Consumer.hostConnected cb w =
  dispatchRequestEvent h
    (ContextRequestEvent.mk (ContextConsumer.context c) cb
       (ContextConsumer.subscribe c)) w.
Proof.
  intros Hc <- Hh. unfold Consumer.hostConnected, run_method. rewrite Hc.
  unfold ContextConsumer.hostConnected.
  rewrite ConsumerFacts.dispatchRequest_unfold, Hh. cbn [foldl perform].
  rewrite insert_id by done. by destruct w.
Qed.

Lemma consumer_hostDisconnected_same_frame cb w :
  same_frame w (Consumer.hostDisconnected cb w).
Proof.
  destruct (consumers w !! cb) as [c|] eqn:Hc.
  - rewrite (consumer_hostDisconnected_unfold cb c) by done. cbn zeta.
    destruct (ContextConsumer.unsubscribe c); [|done].
    eapply same_frame_trans; [|apply run_unsubscribe_same_frame]. done.
  - unfold Consumer.hostDisconnected, run_method. by rewrite Hc.
Qed.

End DispatchFacts.

(** ** Provider announcements and listeners *)

Section ProviderFacts.
Context {V : Type}.
Implicit Types (w : World V) (p : ProviderId) (cb : Callback).

Lemma listeners_of_addEventListener e l e' w :
  listeners_of (addEventListener e l w) e' =
  if decide (e = e')
  then (if bool_decide (l ∈ listeners_of w e) then listeners_of w e
        else listeners_of w e ++ [l])
  else listeners_of w e'.
Proof.
  unfold addEventListener. destruct (bool_decide (l ∈ listeners_of w e)) eqn:Hl.
  - by destruct (decide (e = e')) as [->|].
  - unfold listeners_of at 1. cbn. destruct (decide (e = e')) as [->|Hne].
    + by rewrite lookup_insert_eq.
    + by rewrite lookup_insert_ne.
Qed.

Lemma addEventListener_elem e l w : l ∈ listeners_of (addEventListener e l w) e.
Proof.
  rewrite listeners_of_addEventListener, decide_True by done.
  destruct (bool_decide (l ∈ listeners_of w e)) eqn:Hl.
  - by apply bool_decide_eq_true in Hl.
  - apply elem_of_app. right. apply list_elem_of_here.
Qed.

Lemma addEventListener_mono e l e' l' w :
  l' ∈ listeners_of w e' → l' ∈ listeners_of (addEventListener e l w) e'.
Proof.
  intros Hl'. rewrite listeners_of_addEventListener.
  destruct (decide (e = e')) as [->|]; [|done].
  destruct (bool_decide _); [done|]. apply elem_of_app. by left.
Qed.

Lemma addEventListener_providers e l w :
  providers (addEventListener e l w) = providers w.
Proof. unfold addEventListener. by destruct (bool_decide _). Qed.

Section Reparent.
Variable dispatchEvent : Element → ContextRequestEvent.t → World V → World V.
Hypothesis dispatchEvent_same_frame :
  ∀ target ev w, same_frame w (dispatchEvent target ev w).

Lemma reparent_same_frame fuel p ctx i seen w w' out :
  reparent dispatchEvent fuel p ctx i seen w = Some (w', out) →
  same_frame w w'.
Proof.
  revert i seen w w' out.
  induction fuel as [|fuel IH]; intros i seen w w' out; [done|].
  cbn [reparent]. destruct (subscriptions_of w p !! i) as [[[cb info]|]|].
  - destruct (bool_decide (cb ∈ seen)); [apply IH|].
    destruct (reparent _ _ _ _ _ _ _) as [[w'' out']|] eqn:Hr; [|done].
    intros [= <- <-]. apply IH in Hr.
    eapply same_frame_trans; [apply dispatchEvent_same_frame|apply Hr].
  - apply IH.
  - by intros [= <- <-].
Qed.

Lemma onProviderRequest_same_frame fuel p ev w ev' w' out :
  onProviderRequest dispatchEvent fuel p ev w = Some (ev', w', out) →
  same_frame w w'.
Proof.
  unfold onProviderRequest. destruct (providers w !! p) as [P|].
  - destruct (_ || _); [by intros [= <- <- <-]|].
    destruct (reparent _ _ _ _ _ _ _) as [[w'' out']|] eqn:Hr; [|done].
    intros [= <- <- <-]. by eapply reparent_same_frame.
  - by intros [= <- <- <-].
Qed.

End Reparent.

Lemma provider_listeners_same_frame fuel (ls : list Listener)
    (st : option (Event ContextProviderEvent.t * World V))
    (st' : Event ContextProviderEvent.t * World V) :
  foldl (λ st l, provider_listener fuel l st) st ls = Some st' →
  ∃ st0, st = Some st0 ∧ same_frame st0.2 st'.2.
Proof.
  revert st. induction ls as [|l ls IH]; intros st.
  - cbn. intros ->. by eexists.
  - cbn [foldl]. intros Hf. apply IH in Hf as (st1 & Hst1 & HF).
    destruct st as [[ev w]|]; [|by destruct l].
    exists (ev, w). split; [done|].
    destruct l as [q|q]; cbn in Hst1.
    + injection Hst1 as <-. exact HF.
    + destruct (onProviderRequest _ _ _ _ _) as [[[ev1 w1] out]|] eqn:Ho; [|done].
      injection Hst1 as <-.
      eapply same_frame_trans; [|exact HF].
      eapply (onProviderRequest_same_frame dispatchRequestEvent); [|exact Ho].
      apply dispatchRequestEvent_same_frame.
Qed.

Lemma bubble_provider_same_frame fuel path
    (st st' : Event ContextProviderEvent.t * World V) :
  bubble_provider fuel path st = Some st' → same_frame st.2 st'.2.
Proof.
  revert st. induction path as [|e path IH]; intros st.
  - cbn. by intros [= <-].
  - cbn [bubble_provider].
    destruct (foldl _ _ _) as [st1|] eqn:Hf; [|done].
    apply provider_listeners_same_frame in Hf as (st0 & [= <-] & HF).
    destruct (propagationStopped st1.1).
    + by intros [= <-].
    + intros Hb. eapply same_frame_trans; [exact HF|by apply IH].
Qed.

Lemma dispatchProviderEvent_same_frame fuel target detail w w' :
  dispatchProviderEvent fuel target detail w = Some w' → same_frame w w'.
Proof.
  unfold dispatchProviderEvent.
  destruct (bubble_provider _ _ _) as [st'|] eqn:Hb; [|done].
  intros [= <-]. apply bubble_provider_same_frame in Hb. exact Hb.
Qed.

(** After [bind] the two listeners of the behaviour are on its host. *)
Lemma behavior_bind_listeners fuel p (P : ContextProvider.t V)
    (source : Element) w w1 :
  providers w !! p = Some P →
  ContextProviderBehavior.bind fuel p source w = Some w1 →
  OnContextRequest p ∈ listeners_of w1 source
  ∧ OnProviderRequest p ∈ listeners_of w1 source.
Proof.
  intros HP. unfold ContextProviderBehavior.bind. rewrite HP.
  set (wh := set_providers _ w).
  unfold ContextProviderBehavior.attachListeners.
  assert (providers wh !! p = Some (ContextProvider.set_host (Some source) P))
    as Hwh by apply lookup_insert_eq.
  rewrite Hwh. cbn [ContextProvider.host ContextProvider.set_host].
  set (wa := addEventListener _ _ _).
  unfold ContextProviderBehavior.hostConnected.
  assert (providers wa !! p = Some (ContextProvider.set_host (Some source) P))
    as -> by (subst wa; by rewrite !addEventListener_providers).
  cbn [ContextProvider.host ContextProvider.set_host].
  intros Hd%dispatchProviderEvent_same_frame.
  rewrite (same_frame_listeners_of wa w1 source Hd). split.
  - apply addEventListener_mono, addEventListener_elem.
  - apply addEventListener_elem.
Qed.

End ProviderFacts.

(** ** The re-parenting loop *)

Section ReparentFacts.
Context {V : Type}.
Implicit Types (w : World V) (p : ProviderId) (cb : Callback)
  (seen : gset Callback) (m : JsMap.t Callback ValueNotifier.CallbackInfo).
Variable dispatchEvent : Element → ContextRequestEvent.t → World V → World V.


(** From slot [i] on there are only slots to pass over: the loop ends
    without a dispatch. *)
Lemma reparent_passes fuel p ctx i seen w :
  length (subscriptions_of w p) - i < fuel →
  (∀ j s, i ≤ j → subscriptions_of w p !! j = Some s → passed_over seen s) →
  reparent dispatchEvent fuel p ctx i seen w = Some (w, []).
Proof.
  revert i. induction fuel as [|fuel IH]; intros i Hfuel Hpass; [lia|].
  cbn [reparent].
  destruct (subscriptions_of w p !! i) as [[[cb info]|]|] eqn:Hi; [| |done].
  - pose proof (Hpass i _ (le_n i) Hi) as Hcb. cbn in Hcb.
    rewrite bool_decide_eq_true_2 by done.
    apply lookup_lt_Some in Hi.
    apply IH; [lia|]. intros j s Hj. apply Hpass. lia.
  - apply lookup_lt_Some in Hi.
    apply IH; [lia|]. intros j s Hj. apply Hpass. lia.
Qed.

Lemma passed_over_mono seen seen' s :
  seen ⊆ seen' → passed_over seen s → passed_over seen' s.
Proof. destruct s as [[k a]|]; cbn; [|done]. intros Hsub. apply Hsub. Qed.

Lemma passed_over_delete seen k (added : JsMap.t Callback ValueNotifier.CallbackInfo) :
  Forall (passed_over seen) added →
  Forall (passed_over seen) (JsMap.delete k added).
Proof.
  induction 1 as [|[[k' a']|] added Hs _ IH]; cbn; [done| |by constructor].
  destruct (decide (k' = k)); by constructor.
Qed.

Lemma delete_not_in k m : k ∉ JsMap.keys m → JsMap.delete k m = m.
Proof.
  unfold JsMap.keys, JsMap.entries.
  induction m as [|[[k' a']|] m IH]; cbn; [done| |].
  - rewrite not_elem_of_cons. intros [Hne Hin].
    rewrite decide_False by done. by rewrite IH.
  - intros Hin. by rewrite IH.
Qed.

Section Exact.
Variable Inv : World V → Prop.
Variable served : Callback → Prop.
Variable p : ProviderId.
Variable ctx : Context.
Hypothesis dispatchEvent_Inv :
  ∀ target k w, served k → Inv w →
    Inv (dispatchEvent target (ContextRequestEvent.mk ctx k true) w).
Hypothesis dispatchEvent_touched :
  ∀ target k w, served k → Inv w →
    touched k (subscriptions_of w p)
      (subscriptions_of
         (dispatchEvent target (ContextRequestEvent.mk ctx k true) w) p).

(** The loop at slot [i], with the entries [todo] ahead, none of them seen
    and no two for the same callback, and behind them only slots to pass
    over: with enough fuel the loop ends, having re-dispatched each entry of
    [todo] once, in order. *)
Lemma reparent_exact todo :
  ∀ i seen w behind added,
    Inv w →
    (∀ k, k ∈ JsMap.keys todo → served k) →
    subscriptions_of w p = behind ++ todo ++ added →
    length behind = i →
    Forall (passed_over seen) added →
    (∀ k, k ∈ JsMap.keys todo → k ∉ seen) →
    NoDup (JsMap.keys todo) →
    ∃ fuel0 w',
      Inv w'
      ∧ ∀ fuel, fuel0 ≤ fuel →
          reparent dispatchEvent fuel p ctx i seen w
          = Some (w', redispatched ctx (JsMap.entries todo)).
Proof.
  induction todo as [|[[k a]|] todo IH];
    intros i seen w behind added HI Hserved Hm Hi Hadded Hnew Hnd.
  - exists (S (length added)), w. split; [done|]. intros fuel Hfuel.
    apply reparent_passes.
    + rewrite Hm, !length_app. cbn. lia.
    + intros j s Hj. rewrite Hm. cbn [app].
      rewrite lookup_app_r by lia. intros Hs.
      rewrite Forall_forall in Hadded. apply Hadded.
      by eapply list_elem_of_lookup_2.
  - assert (subscriptions_of w p !! i = Some (Some (k, a))) as Hslot.
    { rewrite Hm, lookup_app_r by lia.
      by replace (i - length behind) with 0 by lia. }
    assert (k ∉ seen) as Hk by (apply Hnew; apply list_elem_of_here).
    assert (served k) as Hsk by (apply Hserved; apply list_elem_of_here).
    assert (∀ k', k' ∈ JsMap.keys todo → served k') as Hserved'.
    { intros k' Hk'. apply Hserved. by apply list_elem_of_further. }
    assert ((k ∉ JsMap.keys todo) ∧ NoDup (JsMap.keys todo)) as [Hkt Hnd'].
    { unfold JsMap.keys, JsMap.entries in Hnd. cbn in Hnd.
      by apply NoDup_cons in Hnd. }
    set (r := ContextRequestEvent.mk ctx k true).
    set (w2 := dispatchEvent (ValueNotifier.consumerHost a) r w).
    destruct (dispatchEvent_touched (ValueNotifier.consumerHost a) k w Hsk HI)
      as (added2 & Hm2 & Hadded2).
    fold r w2 in Hm2.
    assert (∃ behind' added',
              subscriptions_of w2 p = behind' ++ todo ++ added'
              ∧ length behind' = S i
              ∧ Forall (passed_over ({[k]} ∪ seen)) added')
      as (behind' & added' & Hm' & Hi' & Hadded').
    { assert (Forall (passed_over ({[k]} ∪ seen)) added2) as Ha2.
      { eapply Forall_impl; [exact Hadded2|]. intros s.
        apply passed_over_mono, union_subseteq_l. }
      assert (Forall (passed_over ({[k]} ∪ seen)) added) as Ha.
      { eapply Forall_impl; [exact Hadded|]. intros s.
        apply passed_over_mono, union_subseteq_r. }
      destruct Hm2 as [Hm2|Hm2]; rewrite Hm in Hm2.
      - exists (behind ++ [Some (k, a)]), (added ++ added2). split; [|split].
        + rewrite Hm2. by repeat (rewrite <-app_assoc || cbn [app]).
        + rewrite length_app. cbn. lia.
        + by apply Forall_app.
      - exists (JsMap.delete k behind ++ [None]),
          (JsMap.delete k added ++ added2).
        split; [|split].
        + rewrite Hm2, !JsMapFacts.delete_app. cbn [JsMap.delete app].
          rewrite decide_True by done. rewrite (delete_not_in k todo) by done.
          by repeat (rewrite <-app_assoc || cbn [app]).
        + rewrite length_app, JsMapFacts.delete_length. cbn. lia.
        + apply Forall_app. split; [|done]. by apply passed_over_delete. }
    destruct (IH (S i) ({[k]} ∪ seen) w2 behind' added')
      as (fuel0 & w' & HI' & Hfuel0); try done.
    { by apply dispatchEvent_Inv. }
    { intros k' Hk'. unfold JsMap.keys, JsMap.entries in Hnew. cbn in Hnew.
      specialize (Hnew k' ltac:(by apply list_elem_of_further)).
      intros [->%elem_of_singleton|?]%elem_of_union; done. }
    exists (S fuel0), w'. split; [done|]. intros [|fuel] Hfuel; [lia|].
    cbn [reparent]. rewrite Hslot.
    rewrite bool_decide_eq_false_2 by done. fold r w2.
    by rewrite (Hfuel0 fuel) by lia.
  - assert (subscriptions_of w p !! i = Some None) as Hslot.
    { rewrite Hm, lookup_app_r by lia.
      by replace (i - length behind) with 0 by lia. }
    destruct (IH (S i) seen w (behind ++ [None]) added)
      as (fuel0 & w' & HI' & Hfuel0); try done.
    { rewrite Hm. by repeat (rewrite <-app_assoc || cbn [app]). }
    { rewrite length_app. cbn. lia. }
    exists (S fuel0), w'. split; [done|]. intros [|fuel] Hfuel; [lia|].
    cbn [reparent]. rewrite Hslot. apply Hfuel0. lia.
Qed.

End Exact.
End ReparentFacts.

(** ** A request event in the document touches one callback *)

Section DocumentLocal.
Context {V : Type}.
Implicit Types (w : World V) (p : ProviderId) (cb : Callback)
  (m : JsMap.t Callback ValueNotifier.CallbackInfo).

Lemma touched_refl cb m : touched cb m m.
Proof. exists []. split; [left; by rewrite app_nil_r|constructor]. Qed.

Lemma delete_delete cb m : JsMap.delete cb (JsMap.delete cb m) = JsMap.delete cb m.
Proof.
  induction m as [|[[k a]|] m IH]; cbn; [done| |by rewrite IH].
  destruct (decide (k = cb)); cbn; [by rewrite IH|].
  rewrite decide_False by done. by rewrite IH.
Qed.

Lemma touched_trans cb m1 m2 m3 :
  touched cb m1 m2 → touched cb m2 m3 → touched cb m1 m3.
Proof.
  intros (a1 & H1 & Ha1) (a2 & H2 & Ha2).
  destruct H2 as [->| ->].
  - exists (a1 ++ a2). split; [|by apply Forall_app].
    destruct H1 as [->| ->]; [left|right]; by rewrite app_assoc.
  - exists (JsMap.delete cb a1 ++ a2). split.
    + right. destruct H1 as [->| ->];
        by rewrite JsMapFacts.delete_app, ?delete_delete, app_assoc.
    + apply Forall_app. split; [|done]. by apply passed_over_delete.
Qed.

Lemma touched_delete cb m : touched cb m (JsMap.delete cb m).
Proof. exists []. split; [right; by rewrite app_nil_r|constructor]. Qed.

Lemma touched_append cb m info : touched cb m (m ++ [Some (cb, info)]).
Proof.
  exists [Some (cb, info)]. split; [by left|].
  apply Forall_singleton. cbn. by apply elem_of_singleton.
Qed.

Lemma get_delete_Some k k' m (info : ValueNotifier.CallbackInfo) :
  JsMap.get k (JsMap.delete k' m) = Some info → JsMap.get k m = Some info.
Proof.
  destruct (decide (k' = k)) as [->|Hne].
  - by rewrite JsMapFacts.get_delete_eq.
  - by rewrite JsMapFacts.get_delete_ne.
Qed.

(** *** Unsubscribe functions *)

Lemma run_unsubscribe_wf h w : handles_wf w → handles_wf (run_unsubscribe h w).
Proof.
  intros [Hc Hm]. split.
  - intros cb c h'. rewrite run_unsubscribe_consumers. apply Hc.
  - intros p cb info. rewrite run_unsubscribe_subscriptions.
    case_decide; [|apply Hm]. intros Hg%get_delete_Some. by eapply Hm.
Qed.

Lemma run_unsubscribe_touched h w p :
  touched (hcallback h) (subscriptions_of w p)
    (subscriptions_of (run_unsubscribe h w) p).
Proof.
  rewrite run_unsubscribe_subscriptions.
  case_decide; [apply touched_delete|apply touched_refl].
Qed.

(** *** Deliveries *)

Lemma perform_all_local cb calls w :
  calls_local cb calls →
  handles_wf w →
  handles_wf (foldl (λ w c, perform no_dispatch cb c w) w calls)
  ∧ ∀ p, touched cb (subscriptions_of w p)
           (subscriptions_of (foldl (λ w c, perform no_dispatch cb c w) w calls) p).
Proof.
  intros Hcalls. revert w.
  induction Hcalls as [|c calls Hc _ IH]; intros w Hwf.
  - split; [done|]. intros p. apply touched_refl.
  - cbn [foldl]. destruct c as [h|f v u|]; [| |done].
    + cbn [perform]. subst cb.
      destruct (IH (run_unsubscribe h w)) as [Hwf' Ht];
        [by apply run_unsubscribe_wf|].
      split; [done|]. intros p. eapply touched_trans; [|apply Ht].
      apply run_unsubscribe_touched.
    + cbn [perform]. apply (IH (add_log (UserCalled cb f v u) w)). exact Hwf.
Qed.

Lemma _callback_body_calls_local (c : ContextConsumer.t V) cb v u :
  (∀ h, ContextConsumer.unsubscribe c = Some h → hcallback h = cb) →
  calls_local cb (ContextConsumer._callback_body v u c).2.
Proof.
  intros Hc. rewrite ConsumerFacts._callback_body_unfold. cbn [snd].
  apply Forall_app. split.
  - destruct (ContextConsumer.unsubscribe c) as [held|]; [|constructor].
    specialize (Hc held eq_refl).
    destruct (bool_decide _), (ContextConsumer.subscribe c); by repeat constructor.
  - destruct (_ || _); [|constructor].
    destruct (ContextConsumer.callback c); by repeat constructor.
Qed.

Lemma invoke_local p' cb v u w :
  handles_wf w →
  (∀ h, u = Some h → hcallback h = cb) →
  handles_wf (invoke p' cb v u w)
  ∧ ∀ p, touched cb (subscriptions_of w p) (subscriptions_of (invoke p' cb v u w) p).
Proof.
  intros Hwf Hu. unfold invoke, run_method. cbn [consumers add_log].
  destruct (consumers w !! cb) as [c|] eqn:Hc.
  - pose proof (_callback_body_calls_local c cb v u) as Hcalls.
    pose proof (ConsumerFacts._callback_body_unfold c v u) as Hbody.
    destruct (ContextConsumer._callback_body v u c) as [[[] c'] calls].
    injection Hbody as Hc' _. cbn [snd] in Hcalls.
    set (w1 := set_consumers _ _).
    destruct (perform_all_local cb calls w1) as [Hwf' Ht].
    + apply Hcalls. intros h Hh. by apply (proj1 Hwf cb c h).
    + destruct Hwf as [Hcs Hm]. split; [|exact Hm].
      intros cb' c'' h. cbn [consumers set_consumers w1].
      destruct (decide (cb = cb')) as [<-|Hne].
      * rewrite lookup_insert_eq. intros [= <-]. rewrite Hc'. cbn. apply Hu.
      * rewrite lookup_insert_ne by done. apply Hcs.
    + split; [done|]. intros p. apply (Ht p).
  - split; [exact Hwf|]. intros p. apply touched_refl.
Qed.

(** *** Registration and addCallback *)

Lemma subscriptions_of_register q cb host w p :
  subscriptions_of (register q cb host w) p =
  if decide (p = q)
  then (if JsMap.has cb (subscriptions_of w q) then subscriptions_of w q
        else match providers w !! q with
             | Some P =>
                 subscriptions_of w q
                 ++ [Some (cb, ValueNotifier.mkInfo
                                 (mkHandle q cb
                                    (ValueNotifier.stamp (ContextProvider.notifier P)))
                                 host)]
             | None => subscriptions_of w q
             end)
  else subscriptions_of w p.
Proof.
  unfold register, subscriptions_of.
  destruct (providers w !! q) as [P|] eqn:HP.
  - unfold ContextProvider.subscriptions.
    destruct (JsMap.has cb _) eqn:Hh.
    + destruct (decide (p = q)) as [->|]; [by rewrite HP|done].
    + cbn [providers set_providers]. destruct (decide (p = q)) as [->|Hne].
      * rewrite lookup_insert_eq. cbn. unfold JsMap.set. by rewrite Hh.
      * by rewrite lookup_insert_ne.
  - destruct (decide (p = q)) as [->|]; [|done]. rewrite HP. done.
Qed.

Lemma register_local q cb host w :
  handles_wf w →
  handles_wf (register q cb host w)
  ∧ ∀ p, touched cb (subscriptions_of w p) (subscriptions_of (register q cb host w) p).
Proof.
  intros [Hcs Hm]. split; [split|].
  - intros cb' c h. rewrite register_consumers. apply Hcs.
  - intros p cb' info. rewrite subscriptions_of_register.
    destruct (decide (p = q)) as [->|]; [|apply Hm].
    destruct (JsMap.has cb (subscriptions_of w q)) eqn:Hh; [apply Hm|].
    destruct (providers w !! q) as [P|]; [|apply Hm].
    rewrite JsMapFacts.get_app.
    destruct (JsMap.get cb' (subscriptions_of w q)) as [info'|] eqn:Hg.
    + intros [= <-]. by eapply Hm.
    + cbn. case_decide; [|done]. by intros [= <-].
  - intros p. rewrite subscriptions_of_register.
    destruct (decide (p = q)) as [->|]; [|apply touched_refl].
    destruct (JsMap.has cb (subscriptions_of w q)); [apply touched_refl|].
    destruct (providers w !! q) as [P|]; [|apply touched_refl].
    apply touched_append.
Qed.

Lemma addCallback_local q cb host sub w :
  handles_wf w →
  handles_wf (addCallback q cb host sub w)
  ∧ ∀ p, touched cb (subscriptions_of w p)
           (subscriptions_of (addCallback q cb host sub w) p).
Proof.
  intros Hwf. unfold addCallback. destruct (providers w !! q) as [P|].
  - destruct sub; cbn [negb].
    + destruct (register_local q cb host w Hwf) as [Hwf1 Ht1].
      destruct (JsMap.get cb (subscriptions_of (register q cb host w) q))
        as [info|] eqn:Hg; [|done].
      destruct (invoke_local q cb (ContextProvider.value P)
                  (Some (ValueNotifier.unsubscribe info)) (register q cb host w))
        as [Hwf2 Ht2]; [done| |].
      { intros h [= <-]. by eapply (proj2 Hwf1). }
      split; [done|]. intros p. eapply touched_trans; [apply Ht1|apply Ht2].
    + by apply invoke_local.
  - split; [done|]. intros p. apply touched_refl.
Qed.

(** *** The dispatch *)

Lemma serve_local ev w ps :
  handles_wf w →
  handles_wf (serve ev w ps)
  ∧ ∀ p, touched (ContextRequestEvent.callback (detail ev))
           (subscriptions_of w p) (subscriptions_of (serve ev w ps) p).
Proof.
  revert w. induction ps as [|q ps IH]; intros w Hwf.
  - split; [done|]. intros p. apply touched_refl.
  - rewrite serve_cons.
    destruct (addCallback_local q (ContextRequestEvent.callback (detail ev))
                (origin ev) (ContextRequestEvent.subscribe (detail ev)) w Hwf)
      as [Hwf1 Ht1].
    destruct (IH _ Hwf1) as [Hwf2 Ht2]. split; [done|].
    intros p. eapply touched_trans; [apply Ht1|apply Ht2].
Qed.

Lemma bubble_request_local path ev w :
  handles_wf w →
  handles_wf (bubble_request path (ev, w)).2
  ∧ ∀ p, touched (ContextRequestEvent.callback (detail ev))
           (subscriptions_of w p)
           (subscriptions_of (bubble_request path (ev, w)).2 p).
Proof.
  revert ev w. induction path as [|e path IH]; intros ev w Hwf.
  - split; [done|]. intros p. apply touched_refl.
  - cbn [bubble_request fst snd]. rewrite listeners_fold. cbn [fst snd].
    destruct (serve_local ev w (omap (claimant w ev) (listeners_of w e)) Hwf)
      as [Hwf1 Ht1].
    destruct (propagationStopped _); [done|].
    set (ev' := if omap _ _ is [] then ev else stopPropagation ev).
    destruct (IH ev' _ Hwf1) as [Hwf2 Ht2]. split; [done|].
    intros p. eapply touched_trans; [apply Ht1|].
    assert (detail ev' = detail ev) as <- by (subst ev'; by destruct (omap _ _)).
    apply Ht2.
Qed.

(** A request event for a callback leaves the unsubscribe functions of the
    document well filed, and of each subscription map it touches the
    callback's entry only. *)
Lemma dispatchRequestEvent_local target r w :
  handles_wf w →
  handles_wf (dispatchRequestEvent target r w)
  ∧ ∀ p, touched (ContextRequestEvent.callback r) (subscriptions_of w p)
           (subscriptions_of (dispatchRequestEvent target r w) p).
Proof.
  intros Hwf. unfold dispatchRequestEvent.
  apply (bubble_request_local _
           (mkEvent r target (ancestors_of (add_log (Dispatched target r) w) target) false)
           (add_log (Dispatched target r) w)).
  exact Hwf.
Qed.

End DocumentLocal.

(** ** Documents in order *)

Section DocumentOk.
Context {V : Type}.
Implicit Types (w : World V) (p q : ProviderId) (cb k : Callback)
  (m : JsMap.t Callback ValueNotifier.CallbackInfo).

Lemma touched_get_ne cb k m m' :
  touched cb m m' → k ≠ cb → JsMap.get k m' = JsMap.get k m.
Proof.
  intros (added & Hm' & Hadded) Hne.
  assert (JsMap.get k added = None) as Hk.
  { clear Hm'. induction Hadded as [|[[k' a']|] added Hs _ IH]; cbn; [done| |done].
    cbn in Hs. apply elem_of_singleton in Hs as ->.
    by rewrite decide_False. }
  destruct Hm' as [->| ->]; rewrite JsMapFacts.get_app, Hk.
  - by destruct (JsMap.get k m).
  - rewrite JsMapFacts.get_delete_ne by done. by destruct (JsMap.get k m).
Qed.

Lemma keys_app m1 m2 : JsMap.keys (m1 ++ m2) = JsMap.keys m1 ++ JsMap.keys m2.
Proof. unfold JsMap.keys, JsMap.entries. by rewrite omap_app, fmap_app. Qed.

Lemma keys_get k m : k ∈ JsMap.keys m ↔ is_Some (JsMap.get k m).
Proof.
  unfold JsMap.keys, JsMap.entries.
  induction m as [|[[k' a']|] m IH]; cbn.
  - split; [by intros ?%elem_of_nil|by intros [? ?]].
  - rewrite elem_of_cons. destruct (decide (k' = k)) as [->|Hne].
    + split; eauto.
    + rewrite <-IH. split; [intros [?|?]; [congruence|done]|by right].
  - exact IH.
Qed.

Lemma keys_delete_sublist k m : JsMap.keys (JsMap.delete k m) `sublist_of` JsMap.keys m.
Proof.
  unfold JsMap.keys, JsMap.entries.
  induction m as [|[[k' a']|] m IH]; cbn; [done| |done].
  destruct (decide (k' = k)); cbn.
  - by apply sublist_cons.
  - by apply sublist_skip.
Qed.

Lemma NoDup_keys_delete k m :
  NoDup (JsMap.keys m) → NoDup (JsMap.keys (JsMap.delete k m)).
Proof. intros Hnd. eapply sublist_NoDup; [done|apply keys_delete_sublist]. Qed.

Lemma NoDup_keys_append k info m :
  JsMap.get k m = None → NoDup (JsMap.keys m) →
  NoDup (JsMap.keys (m ++ [Some (k, info)])).
Proof.
  intros Hg Hnd. rewrite keys_app. apply NoDup_app. split; [done|]. split.
  - intros k' Hk' Hin. change (k' ∈ [k]) in Hin.
    apply list_elem_of_singleton in Hin. subst k'.
    apply keys_get in Hk' as [? Hk']. rewrite Hg in Hk'. discriminate.
  - apply NoDup_singleton.
Qed.

(** The subscription maps after a delivery: the consumer's old unsubscribe
    function has run if the delivery is a hand-off or the consumer is
    one-shot. *)
Lemma invoke_subscriptions p' cb v u w p :
  subscriptions_of (invoke p' cb v u w) p =
  match consumers w !! cb with
  | Some c =>
      match ContextConsumer.unsubscribe c with
      | Some held =>
          if bool_decide (Some held ≠ u) || negb (ContextConsumer.subscribe c)
          then (if decide (p = hprovider held)
                then JsMap.delete (hcallback held) (subscriptions_of w p)
                else subscriptions_of w p)
          else subscriptions_of w p
      | None => subscriptions_of w p
      end
  | None => subscriptions_of w p
  end.
Proof.
  unfold invoke, run_method. cbn [consumers add_log].
  destruct (consumers w !! cb) as [c|]; [|done].
  rewrite ConsumerFacts._callback_body_unfold.
  set (w1 := set_consumers _ _).
  change (subscriptions_of w p) with (subscriptions_of w1 p).
  generalize w1. clear w1. intros w1.
  assert (∀ w2 (calls : list (ContextConsumer.Call V)),
            ContextConsumer.user_calls calls = calls →
            subscriptions_of (foldl (λ w c, perform no_dispatch cb c w) w2 calls) p
            = subscriptions_of w2 p) as Huser.
  { intros w2 calls. revert w2.
    induction calls as [|[h|f v' u'|] calls IH]; intros w2 Hc; [done|..].
    - exfalso. revert Hc. unfold ContextConsumer.user_calls.
      rewrite filter_cons_False by done. intros Hc.
      pose proof (length_filter (λ c, ContextConsumer.is_user_call c = true) calls)
        as Hl. rewrite Hc in Hl. cbn in Hl. lia.
    - cbn [foldl perform]. unfold ContextConsumer.user_calls in Hc.
      rewrite filter_cons_True in Hc by done. injection Hc as Hc.
      by rewrite IH.
    - exfalso. revert Hc. unfold ContextConsumer.user_calls.
      rewrite filter_cons_False by done. intros Hc.
      pose proof (length_filter (λ c, ContextConsumer.is_user_call c = true) calls)
        as Hl. rewrite Hc in Hl. cbn in Hl. lia. }
  rewrite foldl_app, Huser.
  2:{ destruct (_ || _); [|done]. by destruct (ContextConsumer.callback c). }
  destruct (ContextConsumer.unsubscribe c) as [held|]; [|done].
  destruct (bool_decide (Some held ≠ u)), (ContextConsumer.subscribe c);
    cbn [foldl perform app orb negb];
    rewrite ?run_unsubscribe_subscriptions; try done.
  all: destruct (decide (p = hprovider held)); try done.
  by rewrite delete_delete.
Qed.

Lemma document_ok_handles_wf w : document_ok w → handles_wf w.
Proof.
  intros Hok. split.
  - intros cb c h Hc Hh.
    destruct (ok_held w Hok cb c h Hc Hh) as (_ & info & Hg & <-).
    by destruct (ok_entry w Hok _ _ _ Hg) as (_ & ? & _).
  - intros p cb info Hg. by destruct (ok_entry w Hok _ _ _ Hg) as (_ & ? & _).
Qed.

(** A document stays in order when one consumer and the entries of its
    callback change, and they fit together afterwards. *)
Lemma document_ok_update w w' cb (c' : ContextConsumer.t V) :
  document_ok w →
  consumers w' = <[cb := c']> (consumers w) →
  ContextConsumer._callback c' = cb →
  (∀ p k, k ≠ cb →
     JsMap.get k (subscriptions_of w' p) = JsMap.get k (subscriptions_of w p)) →
  (∀ p info, JsMap.get cb (subscriptions_of w' p) = Some info →
     hprovider (ValueNotifier.unsubscribe info) = p
     ∧ hcallback (ValueNotifier.unsubscribe info) = cb
     ∧ ContextConsumer.unsubscribe c' = Some (ValueNotifier.unsubscribe info)) →
  (∀ h, ContextConsumer.unsubscribe c' = Some h →
     ContextConsumer.subscribe c' = true
     ∧ ∃ info, JsMap.get cb (subscriptions_of w' (hprovider h)) = Some info
               ∧ ValueNotifier.unsubscribe info = h) →
  (∀ p, NoDup (JsMap.keys (subscriptions_of w' p))) →
  document_ok w'.
Proof.
  intros Hok Hcs Hcb Hother Hentry Hheld Hnd. split; [| | |done].
  - intros k c. rewrite Hcs. destruct (decide (cb = k)) as [<-|Hne].
    + rewrite lookup_insert_eq. by intros [= <-].
    + rewrite lookup_insert_ne by done. apply (ok_filed w Hok).
  - intros p k info. destruct (decide (k = cb)) as [->|Hne].
    + intros Hg. destruct (Hentry p info Hg) as (? & ? & ?).
      split; [done|]. split; [done|]. exists c'. split; [|done].
      rewrite Hcs. apply lookup_insert_eq.
    + rewrite Hother by done. intros Hg.
      destruct (ok_entry w Hok p k info Hg) as (? & ? & c & Hc & Hu).
      split; [done|]. split; [done|]. exists c. split; [|done].
      rewrite Hcs. by rewrite lookup_insert_ne.
  - intros k c h. rewrite Hcs. destruct (decide (cb = k)) as [<-|Hne].
    + rewrite lookup_insert_eq. intros [= <-]. apply Hheld.
    + rewrite lookup_insert_ne by done. intros Hc Hh.
      destruct (ok_held w Hok k c h Hc Hh) as (? & info & Hg & ?).
      split; [done|]. exists info. split; [|done]. by rewrite Hother.
Qed.

(** Where a callback is subscribed in a document in order. *)
Lemma ok_entry_held w p cb info (c : ContextConsumer.t V) :
  document_ok w →
  JsMap.get cb (subscriptions_of w p) = Some info →
  consumers w !! cb = Some c →
  ContextConsumer.unsubscribe c = Some (ValueNotifier.unsubscribe info)
  ∧ hprovider (ValueNotifier.unsubscribe info) = p.
Proof.
  intros Hok Hg Hc.
  destruct (ok_entry w Hok p cb info Hg) as (? & _ & c0 & Hc0 & ?).
  rewrite Hc in Hc0. injection Hc0 as <-. done.
Qed.

Lemma ok_one_shot w cb (c : ContextConsumer.t V) :
  document_ok w →
  consumers w !! cb = Some c →
  ContextConsumer.subscribe c = false →
  ContextConsumer.unsubscribe c = None.
Proof.
  intros Hok Hc Hs. destruct (ContextConsumer.unsubscribe c) as [h|] eqn:Hh; [|done].
  destruct (ok_held w Hok cb c h Hc Hh) as (? & _). congruence.
Qed.

Lemma ok_not_held_not_subscribed w p cb (c : ContextConsumer.t V) :
  document_ok w →
  consumers w !! cb = Some c →
  ContextConsumer.unsubscribe c = None →
  JsMap.get cb (subscriptions_of w p) = None.
Proof.
  intros Hok Hc Hu. destruct (JsMap.get cb _) as [info|] eqn:Hg; [|done].
  destruct (ok_entry_held w p cb info c Hok Hg Hc) as [? _]. congruence.
Qed.

Lemma register_has q (P : ContextProvider.t V) cb host w :
  providers w !! q = Some P →
  is_Some (JsMap.get cb (ContextProvider.subscriptions P)) →
  register q cb host w = w.
Proof.
  intros HP Hg%JsMapFacts.has_true. unfold register. rewrite HP.
  unfold ContextProvider.subscriptions in Hg. by rewrite Hg.
Qed.

Lemma subscriptions_of_Some w q (P : ContextProvider.t V) :
  providers w !! q = Some P →
  subscriptions_of w q = ContextProvider.subscriptions P.
Proof. intros HP. unfold subscriptions_of. by rewrite HP. Qed.

(** A request of a consumer of the document with the consumer's own
    subscribe flag, answered by one provider. *)
Lemma addCallback_ok q cb host w (c : ContextConsumer.t V) :
  document_ok w →
  consumers w !! cb = Some c →
  document_ok (addCallback q cb host (ContextConsumer.subscribe c) w).
Proof.
  intros Hok Hc.
  pose proof (document_ok_handles_wf w Hok) as Hwf.
  pose proof (ok_filed w Hok cb c Hc) as Hfiled.
  destruct (addCallback_local q cb host (ContextConsumer.subscribe c) w Hwf)
    as [_ Ht].
  assert (∀ p k, k ≠ cb →
            JsMap.get k (subscriptions_of
                           (addCallback q cb host (ContextConsumer.subscribe c) w) p)
            = JsMap.get k (subscriptions_of w p)) as Hother.
  { intros p k Hne. by apply (touched_get_ne cb). }
  clear Ht. revert Hother. unfold addCallback.
  destruct (providers w !! q) as [P|] eqn:HP; [|done].
  pose proof (subscriptions_of_Some w q P HP) as HsP.
  destruct (ContextConsumer.subscribe c) eqn:Hs; cbn [negb].
  - rewrite (register_get q P) by done. rewrite <-HsP.
    destruct (JsMap.get cb (subscriptions_of w q)) as [info|] eqn:Hg.
    + (* already subscribed here: the same unsubscribe function again *)
      rewrite (register_has q P) by (rewrite <-?HsP; eauto).
      destruct (ok_entry_held w q cb info c Hok Hg Hc) as [Hheld Hprov].
      intros Hother.
      assert (∀ p, subscriptions_of
                     (invoke q cb (ContextProvider.value P)
                        (Some (ValueNotifier.unsubscribe info)) w) p
                   = subscriptions_of w p) as Hsubs.
      { intros p. rewrite invoke_subscriptions, Hc, Hheld, Hs.
        by rewrite bool_decide_eq_false_2 by (intros ?; done). }
      eapply (document_ok_update w _ cb); [done| | |done|..].
      * by rewrite invoke_consumers, Hc.
      * by rewrite ConsumerFacts._callback_body_unfold.
      * intros p info'. rewrite Hsubs. intros Hg'.
        destruct (ok_entry_held w p cb info' c Hok Hg' Hc) as [Hheld' Hprov'].
        destruct (ok_entry w Hok p cb info' Hg') as (_ & ? & _).
        rewrite ConsumerFacts._callback_body_unfold. cbn.
        split; [done|]. split; [done|]. congruence.
      * intros h. rewrite ConsumerFacts._callback_body_unfold. cbn.
        intros [= <-]. split; [done|]. exists info. rewrite Hprov, Hsubs. done.
      * intros p. rewrite Hsubs. apply (ok_nodup w Hok).
    + (* a new entry here *)
      set (d := mkHandle q cb (ValueNotifier.stamp (ContextProvider.notifier P))).
      set (info1 := ValueNotifier.mkInfo d host).
      set (w1 := register q cb host w).
      assert (∀ p, subscriptions_of w1 p =
                   if decide (p = q)
                   then subscriptions_of w q ++ [Some (cb, info1)]
                   else subscriptions_of w p) as Hw1.
      { intros p. subst w1. rewrite subscriptions_of_register.
        destruct (decide (p = q)) as [->|]; [|done].
        rewrite (proj2 (JsMapFacts.has_false cb _) Hg). by rewrite HP. }
      assert (consumers w1 !! cb = Some c) as Hc1
        by (subst w1; by rewrite register_consumers).
      cbn [ValueNotifier.unsubscribe]. intros Hother.
      destruct (ContextConsumer.unsubscribe c) as [h|] eqn:Hh.
      * (* hand-off from another provider *)
        destruct (ok_held w Hok cb c h Hc Hh) as (_ & infoh & Hgh & Hdh).
        assert (hcallback h = cb) as Hcbh by (by eapply (proj1 Hwf)).
        assert (hprovider h ≠ q) as Hneq by (intros Heq; congruence).
        assert (∀ p, subscriptions_of
                       (invoke q cb (ContextProvider.value P) (Some d) w1) p
                     = if decide (p = hprovider h)
                       then JsMap.delete cb (subscriptions_of w p)
                       else if decide (p = q)
                            then subscriptions_of w q ++ [Some (cb, info1)]
                            else subscriptions_of w p) as Hsubs.
        { intros p. rewrite invoke_subscriptions, Hc1, Hh, Hcbh.
          rewrite bool_decide_eq_true_2 by (intros [= ->]; by apply Hneq).
          cbn [orb]. rewrite Hw1.
          destruct (decide (p = hprovider h)) as [->|]; [|done].
          by rewrite decide_False. }
        eapply (document_ok_update w _ cb); [done| | |done|..].
        -- rewrite invoke_consumers, Hc1. unfold w1.
           by rewrite register_consumers.
        -- by rewrite ConsumerFacts._callback_body_unfold.
        -- intros p info'. rewrite Hsubs.
           rewrite ConsumerFacts._callback_body_unfold. cbn.
           destruct (decide (p = hprovider h)) as [->|Hnp].
           { by rewrite JsMapFacts.get_delete_eq. }
           destruct (decide (p = q)) as [->|Hnq].
           { rewrite JsMapFacts.get_app, Hg. cbn. rewrite decide_True by done.
             by intros [= <-]. }
           intros Hg'.
           destruct (ok_entry_held w p cb info' c Hok Hg' Hc) as [Hheld' Hprov'].
           exfalso. apply Hnp. congruence.
        -- intros h'. rewrite ConsumerFacts._callback_body_unfold. cbn.
           intros [= <-]. split; [done|]. exists info1. cbn. rewrite Hsubs.
           rewrite decide_False by done. rewrite decide_True by done.
           rewrite JsMapFacts.get_app, Hg. cbn. by rewrite decide_True.
        -- intros p. rewrite Hsubs.
           destruct (decide (p = hprovider h)) as [->|Hnp].
           { apply NoDup_keys_delete, (ok_nodup w Hok). }
           destruct (decide (p = q)) as [->|Hnq].
           { apply NoDup_keys_append; [done|apply (ok_nodup w Hok)]. }
           apply (ok_nodup w Hok).
      * (* first subscription *)
        assert (∀ p, subscriptions_of
                       (invoke q cb (ContextProvider.value P) (Some d) w1) p
                     = if decide (p = q)
                       then subscriptions_of w q ++ [Some (cb, info1)]
                       else subscriptions_of w p) as Hsubs.
        { intros p. by rewrite invoke_subscriptions, Hc1, Hh, Hw1. }
        eapply (document_ok_update w _ cb); [done| | |done|..].
        -- rewrite invoke_consumers, Hc1. unfold w1.
           by rewrite register_consumers.
        -- by rewrite ConsumerFacts._callback_body_unfold.
        -- intros p info'. rewrite Hsubs.
           rewrite ConsumerFacts._callback_body_unfold. cbn.
           destruct (decide (p = q)) as [->|Hnq].
           { rewrite JsMapFacts.get_app, Hg. cbn. rewrite decide_True by done.
             by intros [= <-]. }
           by rewrite (ok_not_held_not_subscribed w p cb c).
        -- intros h'. rewrite ConsumerFacts._callback_body_unfold. cbn.
           intros [= <-]. split; [done|]. exists info1. cbn. rewrite Hsubs.
           rewrite decide_True by done.
           rewrite JsMapFacts.get_app, Hg. cbn. by rewrite decide_True.
        -- intros p. rewrite Hsubs.
           destruct (decide (p = q)) as [->|Hnq].
           { apply NoDup_keys_append; [done|apply (ok_nodup w Hok)]. }
           apply (ok_nodup w Hok).
  - (* a one-shot request: nothing is retained *)
    pose proof (ok_one_shot w cb c Hok Hc Hs) as Hh. intros Hother.
    assert (∀ p, subscriptions_of
                   (invoke q cb (ContextProvider.value P) None w) p
                 = subscriptions_of w p) as Hsubs.
    { intros p. by rewrite invoke_subscriptions, Hc, Hh. }
    eapply (document_ok_update w _ cb); [done| | |done|..].
    + by rewrite invoke_consumers, Hc.
    + by rewrite ConsumerFacts._callback_body_unfold.
    + intros p info'. rewrite Hsubs.
      by rewrite (ok_not_held_not_subscribed w p cb c).
    + intros h'. by rewrite ConsumerFacts._callback_body_unfold.
    + intros p. rewrite Hsubs. apply (ok_nodup w Hok).
Qed.

(** Being in order is a matter of the consumers and the subscription
    maps. *)
Lemma document_ok_ext w w' :
  consumers w' = consumers w →
  (∀ p, subscriptions_of w' p = subscriptions_of w p) →
  document_ok w → document_ok w'.
Proof.
  intros Hc Hs Hok. split.
  - intros cb c. rewrite Hc. apply (ok_filed w Hok).
  - intros p cb info. rewrite Hs, Hc. apply (ok_entry w Hok).
  - intros cb c h. rewrite Hc. intros Hcb Hh.
    destruct (ok_held w Hok cb c h Hcb Hh) as (? & info & ? & ?).
    split; [done|]. exists info. by rewrite Hs.
  - intros p. rewrite Hs. apply (ok_nodup w Hok).
Qed.

(** A delivery with the unsubscribe function the consumer holds already
    (or with none, to a consumer that holds none). *)
Lemma invoke_same_ok q cb v w (c : ContextConsumer.t V) :
  document_ok w →
  consumers w !! cb = Some c →
  document_ok (invoke q cb v (ContextConsumer.unsubscribe c) w).
Proof.
  intros Hok Hc.
  assert (∀ p, subscriptions_of
                 (invoke q cb v (ContextConsumer.unsubscribe c) w) p
               = subscriptions_of w p) as Hsubs.
  { intros p. rewrite invoke_subscriptions, Hc.
    destruct (ContextConsumer.unsubscribe c) as [h|] eqn:Hh; [|done].
    destruct (ok_held w Hok cb c h Hc Hh) as (-> & _).
    by rewrite bool_decide_eq_false_2 by (intros ?; done). }
  eapply (document_ok_update w _ cb); [done|..].
  - by rewrite invoke_consumers, Hc.
  - rewrite ConsumerFacts._callback_body_unfold. cbn.
    apply (ok_filed w Hok cb c Hc).
  - intros p k _. by rewrite Hsubs.
  - intros p info. rewrite Hsubs. intros Hg.
    destruct (ok_entry_held w p cb info c Hok Hg Hc) as [Hheld Hprov].
    destruct (ok_entry w Hok p cb info Hg) as (_ & ? & _).
    by rewrite ConsumerFacts._callback_body_unfold.
  - intros h. rewrite ConsumerFacts._callback_body_unfold. cbn. intros Hh.
    destruct (ok_held w Hok cb c h Hc Hh) as (? & info & ? & ?).
    split; [done|]. exists info. by rewrite Hsubs.
  - intros p. rewrite Hsubs. apply (ok_nodup w Hok).
Qed.

Lemma invoke_requests_as q cb v u w cb' sub :
  requests_as w cb' sub → requests_as (invoke q cb v u w) cb' sub.
Proof.
  intros (c & Hc & Hs). unfold requests_as. rewrite invoke_consumers.
  destruct (consumers w !! cb) as [c0|] eqn:Hc0; [|eauto].
  destruct (decide (cb = cb')) as [<-|Hne].
  - rewrite lookup_insert_eq. eexists. split; [done|].
    rewrite ConsumerFacts._callback_body_unfold. cbn. congruence.
  - rewrite lookup_insert_ne by done. eauto.
Qed.

Lemma addCallback_requests_as q cb host sub' w cb' sub :
  requests_as w cb' sub → requests_as (addCallback q cb host sub' w) cb' sub.
Proof.
  intros Hr. unfold addCallback. destruct (providers w !! q) as [P|]; [|done].
  destruct sub'; cbn [negb].
  - assert (requests_as (register q cb host w) cb' sub) as Hr'.
    { destruct Hr as (c & Hc & Hs). exists c. by rewrite register_consumers. }
    destruct (JsMap.get cb _); [|done]. by apply invoke_requests_as.
  - by apply invoke_requests_as.
Qed.

(** *** Requests *)

Lemma serve_ok ev w ps :
  document_ok w →
  requests_as w (ContextRequestEvent.callback (detail ev))
    (ContextRequestEvent.subscribe (detail ev)) →
  document_ok (serve ev w ps)
  ∧ ∀ cb sub, requests_as w cb sub → requests_as (serve ev w ps) cb sub.
Proof.
  revert w. induction ps as [|q ps IH]; intros w Hok Hr; [done|].
  rewrite serve_cons.
  destruct Hr as (c & Hc & Hs).
  destruct (IH (addCallback q (ContextRequestEvent.callback (detail ev))
                  (origin ev) (ContextRequestEvent.subscribe (detail ev)) w))
    as [Hok' Hr'].
  - rewrite <-Hs. by apply addCallback_ok.
  - apply addCallback_requests_as. by exists c.
  - split; [done|]. intros cb sub Hcb. by apply Hr', addCallback_requests_as.
Qed.

Lemma bubble_request_ok path ev w :
  document_ok w →
  requests_as w (ContextRequestEvent.callback (detail ev))
    (ContextRequestEvent.subscribe (detail ev)) →
  document_ok (bubble_request path (ev, w)).2
  ∧ ∀ cb sub, requests_as w cb sub →
              requests_as (bubble_request path (ev, w)).2 cb sub.
Proof.
  revert ev w. induction path as [|e path IH]; intros ev w Hok Hr; [done|].
  cbn [bubble_request fst snd]. rewrite listeners_fold. cbn [fst snd].
  destruct (serve_ok ev w (omap (claimant w ev) (listeners_of w e)) Hok Hr)
    as [Hok1 Hr1].
  destruct (propagationStopped _); [done|].
  set (ev' := if omap _ _ is [] then ev else stopPropagation ev).
  assert (detail ev' = detail ev) as Hd by (subst ev'; by destruct (omap _ _)).
  destruct (IH ev' _ Hok1) as [Hok2 Hr2].
  - rewrite Hd. by apply Hr1.
  - split; [done|]. intros cb sub Hcb. by apply Hr2, Hr1.
Qed.

(** A request of a consumer of the document, with the consumer's subscribe
    flag, leaves the document in order. *)
Lemma dispatchRequestEvent_ok target r w :
  document_ok w →
  requests_as w (ContextRequestEvent.callback r) (ContextRequestEvent.subscribe r) →
  document_ok (dispatchRequestEvent target r w)
  ∧ ∀ cb sub, requests_as w cb sub →
              requests_as (dispatchRequestEvent target r w) cb sub.
Proof.
  intros Hok Hr. unfold dispatchRequestEvent.
  apply (bubble_request_ok _
           (mkEvent r target (ancestors_of (add_log (Dispatched target r) w) target) false)
           (add_log (Dispatched target r) w)); [|done].
  by apply (document_ok_ext w).
Qed.

(** *** The consumer's life cycle *)

Lemma consumer_update_ok w cb (c c' : ContextConsumer.t V) :
  document_ok w →
  consumers w !! cb = Some c →
  ContextConsumer._callback c' = ContextConsumer._callback c →
  ContextConsumer.subscribe c' = ContextConsumer.subscribe c →
  ContextConsumer.unsubscribe c' = ContextConsumer.unsubscribe c →
  document_ok (set_consumers (<[cb := c']> (consumers w)) w).
Proof.
  intros Hok Hc Hcb Hs Hu.
  eapply (document_ok_update w _ cb c'); [done|done| |done|..].
  - rewrite Hcb. apply (ok_filed w Hok cb c Hc).
  - intros p info Hg.
    destruct (ok_entry_held w p cb info c Hok Hg Hc) as [Hheld Hprov].
    destruct (ok_entry w Hok p cb info Hg) as (_ & ? & _).
    split; [done|]. split; [done|]. congruence.
  - intros h. rewrite Hu, Hs. apply (ok_held w Hok cb c h Hc).
  - apply (ok_nodup w Hok).
Qed.

Lemma consumer_bind_ok cb source w :
  document_ok w → document_ok (Consumer.bind cb source w).
Proof.
  intros Hok. destruct (consumers w !! cb) as [c|] eqn:Hc.
  - rewrite (consumer_bind_unfold cb c source w Hc (ok_filed w Hok cb c Hc)).
    apply dispatchRequestEvent_ok.
    + by apply (consumer_update_ok w cb c).
    + eexists. split; [apply lookup_insert_eq|done].
  - unfold Consumer.bind, run_method. by rewrite Hc.
Qed.

Lemma consumer_hostConnected_ok cb w :
  document_ok w → document_ok (Consumer.hostConnected cb w).
Proof.
  intros Hok. destruct (consumers w !! cb) as [c|] eqn:Hc.
  - destruct (ContextConsumer.host c) as [h|] eqn:Hh.
    + rewrite (consumer_hostConnected_unfold cb c h w Hc
                 (ok_filed w Hok cb c Hc) Hh).
      apply dispatchRequestEvent_ok; [done|]. by exists c.
    + unfold Consumer.hostConnected, run_method. rewrite Hc.
      unfold ContextConsumer.hostConnected.
      rewrite ConsumerFacts.dispatchRequest_unfold, Hh. cbn [foldl].
      rewrite insert_id by done. by destruct w.
  - unfold Consumer.hostConnected, run_method. by rewrite Hc.
Qed.

Lemma consumer_hostDisconnected_ok cb w :
  document_ok w → document_ok (Consumer.hostDisconnected cb w).
Proof.
  intros Hok. destruct (consumers w !! cb) as [c|] eqn:Hc.
  - rewrite (consumer_hostDisconnected_unfold cb c w Hc). cbn zeta.
    set (c' := (ContextConsumer.set_unsubscribe None c).1.2).
    destruct (ContextConsumer.unsubscribe c) as [h|] eqn:Hh.
    + destruct (ok_held w Hok cb c h Hc Hh) as (_ & infoh & Hgh & Hdh).
      assert (hcallback h = cb) as Hcbh.
      { by destruct (ok_entry w Hok _ _ _ Hgh) as (_ & <- & _); subst h. }
      eapply (document_ok_update w _ cb c'); [done|..].
      * by rewrite run_unsubscribe_consumers.
      * apply (ok_filed w Hok cb c Hc).
      * intros p k Hne. rewrite run_unsubscribe_subscriptions.
        case_decide; [|done]. rewrite JsMapFacts.get_delete_ne; [done|]. congruence.
      * intros p info. rewrite run_unsubscribe_subscriptions, Hcbh.
        destruct (decide (p = hprovider h)) as [->|Hnp].
        { by rewrite JsMapFacts.get_delete_eq. }
        intros Hg.
        destruct (ok_entry_held w p cb info c Hok Hg Hc) as [Hheld Hprov].
        exfalso. apply Hnp. congruence.
      * done.
      * intros p. rewrite run_unsubscribe_subscriptions.
        case_decide; [|apply (ok_nodup w Hok)].
        apply NoDup_keys_delete, (ok_nodup w Hok).
    + by apply (consumer_update_ok w cb c).
  - unfold Consumer.hostDisconnected, run_method. by rewrite Hc.
Qed.

Lemma consumer_new_ok cb options w :
  document_ok w →
  consumers w !! cb = None →
  document_ok (Consumer.new cb options w).
Proof.
  intros Hok Hc. split.
  - intros k c. cbn. destruct (decide (cb = k)) as [<-|Hne].
    + rewrite lookup_insert_eq. by intros [= <-].
    + rewrite lookup_insert_ne by done. apply (ok_filed w Hok).
  - intros p k info Hg.
    destruct (ok_entry w Hok p k info Hg) as (? & ? & c & Hk & ?).
    split; [done|]. split; [done|]. exists c. split; [|done]. cbn.
    rewrite lookup_insert_ne; [done|]. congruence.
  - intros k c h. cbn. destruct (decide (cb = k)) as [<-|Hne].
    + rewrite lookup_insert_eq. by intros [= <-].
    + rewrite lookup_insert_ne by done. apply (ok_held w Hok).
  - apply (ok_nodup w Hok).
Qed.

(** *** Value changes *)

Lemma broadcast_to_ok p cb w : document_ok w → document_ok (broadcast_to p cb w).
Proof.
  intros Hok. unfold broadcast_to. destruct (providers w !! p) as [P|] eqn:HP; [|done].
  rewrite <-(subscriptions_of_Some w p P HP).
  destruct (JsMap.get cb (subscriptions_of w p)) as [info|] eqn:Hg; [|done].
  destruct (ok_entry w Hok p cb info Hg) as (_ & _ & c & Hc & Hu).
  rewrite <-Hu. by apply invoke_same_ok.
Qed.

Lemma broadcast_ok p w : document_ok w → document_ok (broadcast p w).
Proof.
  unfold broadcast. generalize (JsMap.keys (subscriptions_of w p)).
  intros ks. revert w. induction ks as [|k ks IH]; intros w Hok; [done|].
  cbn [foldl]. by apply IH, broadcast_to_ok.
Qed.

Lemma setValue_ok p v w : document_ok w → document_ok (setValue p v w).
Proof.
  intros Hok. unfold setValue. destruct (providers w !! p) as [P|] eqn:HP; [|done].
  apply broadcast_ok. apply (document_ok_ext w); [done| |done].
  intros q. unfold subscriptions_of. cbn [providers set_providers].
  destruct (decide (p = q)) as [<-|Hne].
  - by rewrite lookup_insert_eq, HP.
  - by rewrite lookup_insert_ne.
Qed.

(** *** Announcements *)

Lemma slot_get m i k (a : ValueNotifier.CallbackInfo) :
  m !! i = Some (Some (k, a)) → is_Some (JsMap.get k m).
Proof.
  intros Hi. apply keys_get. unfold JsMap.keys, JsMap.entries.
  apply list_elem_of_fmap. exists (k, a). split; [done|].
  apply list_elem_of_omap. exists (Some (k, a)). split; [|done].
  by eapply list_elem_of_lookup_2.
Qed.

(** A callback with an entry belongs to a consumer that requested
    [subscribe]. *)
Lemma ok_subscribed_requests_as w p cb :
  document_ok w →
  is_Some (JsMap.get cb (subscriptions_of w p)) →
  requests_as w cb true.
Proof.
  intros Hok [info Hg].
  destruct (ok_entry w Hok p cb info Hg) as (_ & _ & c & Hc & Hu).
  destruct (ok_held w Hok cb c _ Hc Hu) as (? & _). by exists c.
Qed.

Lemma reparent_ok fuel p ctx i seen w w' out :
  document_ok w →
  reparent dispatchRequestEvent fuel p ctx i seen w = Some (w', out) →
  document_ok w'.
Proof.
  revert i seen w w' out.
  induction fuel as [|fuel IH]; intros i seen w w' out Hok; [done|].
  cbn [reparent].
  destruct (subscriptions_of w p !! i) as [[[cb info]|]|] eqn:Hi.
  - destruct (bool_decide (cb ∈ seen)); [by apply IH|].
    destruct (reparent _ _ _ _ _ _ _) as [[w'' out']|] eqn:Hr; [|done].
    intros [= <- <-]. eapply IH; [|exact Hr].
    apply dispatchRequestEvent_ok; [done|]. cbn.
    eapply ok_subscribed_requests_as; [done|]. by eapply slot_get.
  - by apply IH.
  - by intros [= <- <-].
Qed.

Lemma onProviderRequest_ok fuel p ev w ev' w' out :
  document_ok w →
  onProviderRequest dispatchRequestEvent fuel p ev w = Some (ev', w', out) →
  document_ok w'.
Proof.
  intros Hok. unfold onProviderRequest. destruct (providers w !! p) as [P|].
  - destruct (_ || _); [by intros [= <- <- <-]|].
    destruct (reparent _ _ _ _ _ _ _) as [[w'' out']|] eqn:Hr; [|done].
    intros [= <- <- <-]. by eapply reparent_ok.
  - by intros [= <- <- <-].
Qed.

Lemma provider_listeners_ok fuel (ls : list Listener)
    (st st' : Event ContextProviderEvent.t * World V) :
  document_ok st.2 →
  foldl (λ st l, provider_listener fuel l st) (Some st) ls = Some st' →
  document_ok st'.2.
Proof.
  revert st. induction ls as [|l ls IH]; intros [ev w] Hok.
  - cbn. by intros [= <-].
  - cbn [foldl]. destruct l as [q|q]; cbn [provider_listener].
    + by apply IH.
    + destruct (onProviderRequest _ _ _ _ _) as [[[ev1 w1] out]|] eqn:Ho.
      * apply IH. cbn. by eapply onProviderRequest_ok.
      * intros Hf. exfalso. clear -Hf.
        induction ls as [|l ls IH]; [done|]. cbn in Hf. apply IH.
        by destruct l.
Qed.

Lemma bubble_provider_ok fuel path
    (st st' : Event ContextProviderEvent.t * World V) :
  document_ok st.2 →
  bubble_provider fuel path st = Some st' →
  document_ok st'.2.
Proof.
  revert st. induction path as [|e path IH]; intros st Hok.
  - cbn. by intros [= <-].
  - cbn [bubble_provider].
    destruct (foldl _ _ _) as [st1|] eqn:Hf; [|done].
    apply provider_listeners_ok in Hf; [|done].
    destruct (propagationStopped st1.1); [by intros [= <-]|].
    by apply IH.
Qed.

Lemma dispatchProviderEvent_ok fuel target detail w w' :
  document_ok w →
  dispatchProviderEvent fuel target detail w = Some w' →
  document_ok w'.
Proof.
  intros Hok. unfold dispatchProviderEvent.
  destruct (bubble_provider _ _ _) as [st'|] eqn:Hb; [|done].
  intros [= <-]. eapply bubble_provider_ok; [|exact Hb].
  by apply (document_ok_ext w).
Qed.

(** *** The providers' life cycle *)

Lemma subscriptions_of_addEventListener e l w p :
  subscriptions_of (addEventListener e l w) p = subscriptions_of w p.
Proof. unfold subscriptions_of. by rewrite addEventListener_providers. Qed.

Lemma consumers_addEventListener e l w :
  consumers (addEventListener e l w) = consumers w.
Proof. unfold addEventListener. by destruct (bool_decide _). Qed.

Lemma addEventListener_ok e l w :
  document_ok w → document_ok (addEventListener e l w).
Proof.
  apply document_ok_ext; [apply consumers_addEventListener|].
  apply subscriptions_of_addEventListener.
Qed.

Lemma set_host_ok p (P : ContextProvider.t V) h w :
  providers w !! p = Some P →
  document_ok w →
  document_ok
    (set_providers (<[p := ContextProvider.set_host h P]> (providers w)) w).
Proof.
  intros HP. apply document_ok_ext; [done|].
  intros q. unfold subscriptions_of. cbn [providers set_providers].
  destruct (decide (p = q)) as [<-|Hne].
  - by rewrite lookup_insert_eq, HP.
  - by rewrite lookup_insert_ne.
Qed.

Lemma provider_new_ok p (P : ContextProvider.t V) w :
  providers w !! p = None →
  ContextProvider.subscriptions P = JsMap.empty →
  document_ok w →
  document_ok (set_providers (<[p := P]> (providers w)) w).
Proof.
  intros HP He. apply document_ok_ext; [done|].
  intros q. unfold subscriptions_of. cbn [providers set_providers].
  destruct (decide (p = q)) as [<-|Hne].
  - by rewrite lookup_insert_eq, HP.
  - by rewrite lookup_insert_ne.
Qed.

Lemma behavior_bind_ok fuel p source w w' :
  document_ok w →
  ContextProviderBehavior.bind fuel p source w = Some w' →
  document_ok w'.
Proof.
  intros Hok. unfold ContextProviderBehavior.bind.
  destruct (providers w !! p) as [P|] eqn:HP; [|by intros [= <-]].
  pose proof (set_host_ok p P (Some source) w HP Hok) as Hok1.
  set (wh := set_providers _ w) in *.
  assert (document_ok (ContextProviderBehavior.attachListeners p wh)) as Hok2.
  { unfold ContextProviderBehavior.attachListeners.
    destruct (providers wh !! p) as [P'|]; [|done].
    destruct (ContextProvider.host P'); [|done].
    by do 2 apply addEventListener_ok. }
  set (wa := ContextProviderBehavior.attachListeners p wh) in *.
  unfold ContextProviderBehavior.hostConnected.
  destruct (providers wa !! p) as [P'|]; [|by intros [= <-]].
  destruct (ContextProvider.host P'); [|by intros [= <-]].
  by apply dispatchProviderEvent_ok.
Qed.

Lemma element_bind_ok fuel p w w' :
  document_ok w →
  ContextProviderElement.bind fuel p w = Some w' →
  document_ok w'.
Proof.
  intros Hok. unfold ContextProviderElement.bind, ContextProviderElement.hostConnected.
  destruct (providers w !! p) as [P|]; [|by intros [= <-]].
  destruct (ContextProvider.host P); [|by intros [= <-]].
  apply dispatchProviderEvent_ok. by do 2 apply addEventListener_ok.
Qed.

Lemma element_unbind_ok p w :
  document_ok w → document_ok (ContextProviderElement.unbind p w).
Proof.
  intros Hok. unfold ContextProviderElement.unbind,
    ContextProviderElement.hostDisconnected.
  destruct (providers w !! p) as [P|]; [|done].
  destruct (ContextProvider.host P); [|done].
  by apply (document_ok_ext w).
Qed.

(** Every document that comes about is in order. *)
Lemma step_ok w w' : step w w' → document_ok w → document_ok w'.
Proof.
  intros Hstep Hok. destruct Hstep.
  - by apply consumer_new_ok.
  - by apply consumer_bind_ok.
  - by apply consumer_hostDisconnected_ok.
  - by apply consumer_hostConnected_ok.
  - by apply consumer_hostDisconnected_ok.
  - by apply provider_new_ok.
  - by eapply behavior_bind_ok.
  - done.
  - by apply provider_new_ok.
  - by eapply element_bind_ok.
  - by apply element_unbind_ok.
  - by apply setValue_ok.
  - by apply (document_ok_ext w).
Qed.

Lemma reachable_ok w : reachable w → document_ok w.
Proof.
  induction 1 as [tree|w w' _ IH Hstep].
  - split.
    + intros cb c. cbn. by rewrite lookup_empty.
    + intros p cb info. unfold subscriptions_of. cbn. by rewrite lookup_empty.
    + intros cb c h. cbn. by rewrite lookup_empty.
    + intros p. unfold subscriptions_of. cbn. rewrite lookup_empty. constructor.
  - by eapply step_ok.
Qed.

(** In a document in order, every subscription of a callback is the one
    whose unsubscribe function the consumer holds. *)
Lemma ok_holds_its_subscriptions w cb (c : ContextConsumer.t V) :
  document_ok w →
  consumers w !! cb = Some c →
  holds_its_subscriptions w cb c.
Proof.
  intros Hok Hc q Hq. apply JsMapFacts.has_true in Hq as [info Hg].
  destruct (ok_entry_held w q cb info c Hok Hg Hc) as [Hheld Hprov].
  destruct (ok_entry w Hok q cb info Hg) as (_ & ? & _).
  by exists (ValueNotifier.unsubscribe info).
Qed.

(** In a document in order no delivery to a one-shot consumer is a
    hand-off: it holds no unsubscribe function. *)
Lemma ok_one_shot_no_handoff w cb (c : ContextConsumer.t V) u :
  document_ok w →
  consumers w !! cb = Some c →
  ContextConsumer.subscribe c = false →
  ContextConsumer.is_handoff c u = false.
Proof.
  intros Hok Hc Hs. unfold ContextConsumer.is_handoff.
  by rewrite (ok_one_shot w cb c Hok Hc Hs).
Qed.

(** *** Announcements end *)

Lemma onProviderRequest_total p (ev : Event ContextProviderEvent.t) w :
  document_ok w →
  ∃ fuel0 r,
    document_ok r.1.2
    ∧ ∀ fuel, fuel0 ≤ fuel →
        onProviderRequest dispatchRequestEvent fuel p ev w = Some r.
Proof.
  intros Hok. unfold onProviderRequest.
  destruct (providers w !! p) as [P|] eqn:HP; [|by exists 0, (ev, w, [])].
  destruct (_ || _); [by exists 0, (ev, w, [])|].
  set (keys0 := JsMap.keys (ContextProvider.subscriptions P)).
  destruct (reparent_exact dispatchRequestEvent
              (λ w0, document_ok w0 ∧ ∀ k, k ∈ keys0 → requests_as w0 k true)
              (λ k, k ∈ keys0) p (ContextProvider.context P))
    with (todo := ContextProvider.subscriptions P) (i := 0)
         (seen := (∅ : gset Callback)) (w := w)
         (behind := @nil (option (Callback * ValueNotifier.CallbackInfo)))
         (added := @nil (option (Callback * ValueNotifier.CallbackInfo)))
    as (fuel0 & w' & [Hok' _] & Hfuel0).
  - intros target k w0 Hk [Hok0 Hr0].
    destruct (dispatchRequestEvent_ok target
                (ContextRequestEvent.mk (ContextProvider.context P) k true) w0 Hok0)
      as [Hok1 Hr1]; [by apply Hr0|].
    split; [done|]. intros k' Hk'. by apply Hr1, Hr0.
  - intros target k w0 Hk [Hok0 Hr0].
    apply (dispatchRequestEvent_local target
             (ContextRequestEvent.mk (ContextProvider.context P) k true) w0).
    by apply document_ok_handles_wf.
  - split; [done|]. intros k Hk.
    apply (ok_subscribed_requests_as w p); [done|].
    rewrite (subscriptions_of_Some w p P HP). by apply keys_get.
  - done.
  - rewrite (subscriptions_of_Some w p P HP). by rewrite app_nil_r.
  - done.
  - constructor.
  - intros k _. apply not_elem_of_empty.
  - rewrite <-(subscriptions_of_Some w p P HP). apply (ok_nodup w Hok).
  - exists fuel0, (stopPropagation ev, w',
                   redispatched (ContextProvider.context P)
                     (JsMap.entries (ContextProvider.subscriptions P))).
    split; [done|]. intros fuel Hfuel. by rewrite (Hfuel0 fuel Hfuel).
Qed.

Lemma provider_listeners_total (ls : list Listener)
    (st : Event ContextProviderEvent.t * World V) :
  document_ok st.2 →
  ∃ fuel0 st',
    document_ok st'.2
    ∧ ∀ fuel, fuel0 ≤ fuel →
        foldl (λ st l, provider_listener fuel l st) (Some st) ls = Some st'.
Proof.
  revert st. induction ls as [|l ls IH]; intros [ev w] Hok.
  - by exists 0, (ev, w).
  - destruct l as [q|q].
    + destruct (IH (ev, w) Hok) as (fuel0 & st' & Hok' & Hf).
      exists fuel0, st'. split; [done|]. intros fuel Hfuel. cbn [foldl].
      by apply Hf.
    + destruct (onProviderRequest_total q ev w Hok)
        as (fuel1 & [[ev1 w1] out] & Hok1 & Hf1).
      destruct (IH (ev1, w1) Hok1) as (fuel2 & st' & Hok' & Hf2).
      exists (fuel1 `max` fuel2), st'. split; [done|]. intros fuel Hfuel.
      cbn [foldl provider_listener]. rewrite (Hf1 fuel) by lia.
      apply Hf2. lia.
Qed.

Lemma bubble_provider_total path
    (st : Event ContextProviderEvent.t * World V) :
  document_ok st.2 →
  ∃ fuel0 st',
    document_ok st'.2
    ∧ ∀ fuel, fuel0 ≤ fuel → bubble_provider fuel path st = Some st'.
Proof.
  revert st. induction path as [|e path IH]; intros st Hok.
  - by exists 0, st.
  - destruct (provider_listeners_total (listeners_of st.2 e) st Hok)
      as (fuel1 & st1 & Hok1 & Hf1).
    destruct (propagationStopped st1.1) eqn:Hs.
    + exists fuel1, st1. split; [done|]. intros fuel Hfuel.
      cbn [bubble_provider]. by rewrite (Hf1 fuel Hfuel), Hs.
    + destruct (IH st1 Hok1) as (fuel2 & st' & Hok' & Hf2).
      exists (fuel1 `max` fuel2), st'. split; [done|]. intros fuel Hfuel.
      cbn [bubble_provider]. rewrite (Hf1 fuel) by lia. rewrite Hs.
      apply Hf2. lia.
Qed.

(** In a document in order an announcement comes to an end, whatever it
    makes the providers above re-dispatch. *)
Lemma dispatchProviderEvent_total target detail w :
  document_ok w →
  ∃ fuel0 w',
    document_ok w'
    ∧ ∀ fuel, fuel0 ≤ fuel →
        dispatchProviderEvent fuel target detail w = Some w'.
Proof.
  intros Hok. unfold dispatchProviderEvent.
  destruct (bubble_provider_total
              (composedPath (mkEvent detail target (ancestors_of w target) false))
              (mkEvent detail target (ancestors_of w target) false,
               add_log (Announced target detail) w))
    as (fuel0 & st' & Hok' & Hf).
  { by apply (document_ok_ext w). }
  exists fuel0, st'.2. split; [done|]. intros fuel Hfuel.
  by rewrite (Hf fuel Hfuel).
Qed.

(** So the behaviour can always be bound. *)
Lemma behavior_bind_total p source w :
  document_ok w →
  ∃ fuel0 w',
    document_ok w'
    ∧ ∀ fuel, fuel0 ≤ fuel →
        ContextProviderBehavior.bind fuel p source w = Some w'.
Proof.
  intros Hok. unfold ContextProviderBehavior.bind.
  destruct (providers w !! p) as [P|] eqn:HP; [|by exists 0, w].
  pose proof (set_host_ok p P (Some source) w HP Hok) as Hok1.
  set (wh := set_providers _ w) in *.
  assert (document_ok (ContextProviderBehavior.attachListeners p wh)) as Hok2.
  { unfold ContextProviderBehavior.attachListeners.
    destruct (providers wh !! p) as [P'|]; [|done].
    destruct (ContextProvider.host P'); [|done].
    by do 2 apply addEventListener_ok. }
  set (wa := ContextProviderBehavior.attachListeners p wh) in *.
  unfold ContextProviderBehavior.hostConnected.
  destruct (providers wa !! p) as [P'|]; [|by exists 0, wa].
  destruct (ContextProvider.host P'); [|by exists 0, wa].
  by apply dispatchProviderEvent_total.
Qed.

End DocumentOk.
Section ConsumerProperties.
Import ContextConsumer ConsumerFacts.
Context {V : Type}.
Implicit Types (c : t V) (v : option V) (u : option Handle).

Lemma user_calls_unsubscribe_part c u :
  user_calls
    (match unsubscribe c with
     | Some held =>
         (if bool_decide (Some held ≠ u) then [CallUnsubscribe held] else [])
         ++ (if subscribe c then [] else [CallUnsubscribe (V:=V) held])
     | None => []
     end) = [].
Proof.
  destruct (unsubscribe c); [|done].
  by destruct (bool_decide _), (subscribe c).
Qed.

Lemma user_calls_callback_part c v u (b : bool) :
  user_calls
    (if b
     then match callback c with
          | Some f => [CallUser f v u]
          | None => []
          end
     else []) =
  if b
  then match callback c with
       | Some f => [CallUser f v u]
       | None => []
       end
  else [].
Proof. destruct b; [|done]. by destruct (callback c). Qed.

Lemma do_op_user_calls op c :
  length (user_calls (do_op op c).2) ≤
  match op with
  | OpDeliver _ u =>
      if negb (provided c) || is_handoff c u || subscribe c then 1 else 0
  | _ => 0
  end.
Proof.
  destruct op; cbn [do_op].
  - by rewrite bind_unfold.
  - unfold unbind. rewrite hostDisconnected_unfold. cbn.
    by destruct (unsubscribe c).
  - unfold hostConnected. rewrite dispatchRequest_unfold. cbn.
    by destruct (host c).
  - rewrite hostDisconnected_unfold. cbn. by destruct (unsubscribe c).
  - rewrite _callback_body_unfold. cbn [snd].
    rewrite user_calls_app, user_calls_unsubscribe_part,
      user_calls_callback_part. cbn.
    destruct (_ || _); [|done]. destruct (callback c); cbn; lia.
Qed.

Lemma do_op_provided op c :
  provided c = true → provided (do_op op c).1.2 = true.
Proof.
  intros Hp. destruct op; cbn [do_op].
  - by rewrite bind_unfold.
  - unfold unbind. by rewrite hostDisconnected_unfold.
  - unfold hostConnected. by rewrite dispatchRequest_unfold.
  - by rewrite hostDisconnected_unfold.
  - by rewrite _callback_body_unfold.
Qed.

Lemma do_op_deliver_provided v u c :
  provided (do_op (OpDeliver v u) c).1.2 = true.
Proof. cbn [do_op]. by rewrite _callback_body_unfold. Qed.

Lemma run_provided ops c :
  provided c = true → provided (state_after ops c) = true.
Proof.
  unfold state_after. revert c.
  induction ops as [|op ops IH]; intros c Hp; [done|].
  rewrite run_cons. cbn. by apply IH, do_op_provided.
Qed.

Lemma run_user_calls_bound ops c :
  subscribe c = false →
  length (user_calls (calls_of ops c)) ≤
  (if provided c then 0 else 1) + handoffs ops c.
Proof.
  unfold calls_of. revert c.
  induction ops as [|op ops IH]; intros c Hs.
  - cbn. lia.
  - rewrite run_cons. cbn [snd handoffs]. cbn zeta.
    rewrite user_calls_app, length_app.
    pose proof (do_op_user_calls op c) as Hstep.
    destruct (do_op_keeps op c) as (_ & _ & Hs' & _). cbn zeta in Hs'.
    specialize (IH (do_op op c).1.2 ltac:(congruence)).
    assert (Hmono : provided c = true → provided (do_op op c).1.2 = true)
      by apply do_op_provided.
    destruct op as [src| | | |v u].
    1-4: destruct (provided c);
         [rewrite Hmono in IH by done|destruct (provided _)]; lia.
    rewrite (do_op_deliver_provided v u c) in IH.
    rewrite Hs, orb_false_r in Hstep.
    destruct (provided c), (is_handoff c u);
      cbn [negb orb] in Hstep; lia.
Qed.

(** C3: the code at a first delivery to a one-shot consumer.  A provider
    passes value 1000 and the unsubscribe function [u] to a consumer that did
    not request [subscribe] and holds no unsubscribe function yet: the
    callback invokes no unsubscribe function at all and leaves [u] stored, so
    the subscription outlives the delivery; only the next delivery from the
    same provider invokes [u].  At a hand-off from [u] to [u'] the old
    function is invoked twice and the new one not at all. *)
Example C3_one_shot_keeps_received_handle :
  let c : t Z :=
    new 0 (mkOptions "simple-context" (Some 1) None) in
  let u := mkHandle 7 0 0 in
  let u' := mkHandle 8 0 0 in
  let first := _callback_body (Some 1000%Z) (Some u) c in
  let again := _callback_body (Some 500%Z) (Some u) first.1.2 in
  let handoff := _callback_body (Some 500%Z) (Some u') first.1.2 in
  subscribe c = false
  ∧ unsubscribed first.2 = []
  ∧ unsubscribe first.1.2 = Some u
  ∧ unsubscribed again.2 = [u]
  ∧ unsubscribed handoff.2 = [u; u]
  ∧ unsubscribe handoff.1.2 = Some u'.
Proof. cbn. repeat split; reflexivity. Qed.

(** C6, as stated, fails: a consumer that did not request [subscribe] has
    had its first delivery (with the unsubscribe function of provider 7);
    the second delivery, from provider 8, is neither the first ever nor to a
    subscribed consumer, and the user callback is invoked all the same. *)
Lemma C6_counterexample :
  let c : t Z :=
    new 0 (mkOptions "simple-context" (Some 1) None) in
  let history := [OpDeliver (Some 1000%Z) (Some (mkHandle 7 0 0))] in
  let c1 := state_after history c in
  ¬ (user_calls (_callback_body (Some 500%Z) (Some (mkHandle 8 0 0)) c1).2 ≠ []
     ↔ (history = [] ∨ subscribe c1 = true)).
Proof.
  cbn zeta. intros [H _]. destruct H as [H|H].
  - vm_compute. discriminate.
  - discriminate H.
  - vm_compute in H. discriminate H.
Qed.

(** C6, amended: a delivery invokes the user callback (when one was
    supplied), with the delivered value and unsubscribe function, if and only
    if the consumer has not been provided yet, or the delivery is a hand-off
    (an unsubscribe function is held and the one received differs), or the
    consumer requested [subscribe]; so a repeat delivery from the same
    provider reaches the user callback only when subscribed.  Every delivery
    stores the delivered value. *)
Theorem C6_user_callback_condition c v u :
  let r := _callback_body v u c in
  user_calls r.2 =
    (if negb (provided c) || is_handoff c u || subscribe c
     then match callback c with
          | Some f => [CallUser f v u]
          | None => []
          end
     else [])
  ∧ value r.1.2 = v.
Proof.
  cbn zeta. rewrite _callback_body_unfold. cbn [fst snd value]. split; [|done].
  by rewrite user_calls_app, user_calls_unsubscribe_part,
    user_calls_callback_part.
Qed.

(** C8: over any lifetime of a consumer (binds, unbinds, connects,
    disconnects and deliveries in any order), every request event it
    dispatches carries the [_callback] the constructor created; and a bind
    after any such lifetime dispatches one more event, with that callback. *)
Theorem C8_callback_identity_stable c (ops : list Op) :
  Forall (λ ev, ContextRequestEvent.callback ev = _callback c)
    (dispatched (calls_of ops c))
  ∧ ∀ source,
      dispatched (calls_of (ops ++ [OpBind source]) c) =
      dispatched (calls_of ops c)
      ++ [ContextRequestEvent.mk (context c) (_callback c) (subscribe c)].
Proof.
  split.
  - unfold calls_of. revert c. induction ops as [|op ops IH]; intros c.
    + constructor.
    + rewrite run_cons. cbn [snd]. cbn zeta. rewrite dispatched_app.
      apply Forall_app. split.
      * eapply Forall_impl; [apply do_op_dispatched|].
        by intros ev ->.
      * destruct (do_op_keeps op c) as (<- & _). apply IH.
  - intros source. unfold calls_of. rewrite run_app. cbn [snd]. cbn zeta.
    rewrite dispatched_app. f_equal.
    rewrite run_cons. cbn [do_op run snd fst]. cbn zeta. rewrite bind_unfold. cbn.
    destruct (run_keeps ops c) as (? & ? & ? & _). unfold state_after in *.
    congruence.
Qed.

(** C9, as stated, fails: a consumer that did not request [subscribe] gets
    a delivery from provider 7 and then one from provider 8, each with the
    provider's unsubscribe function; the second is a hand-off, which clears
    [provided], and the user callback is invoked a second time. *)
Lemma C9_counterexample :
  let c : t Z :=
    new 0 (mkOptions "simple-context" (Some 1) None) in
  let ops := [OpDeliver (Some 1000%Z) (Some (mkHandle 7 0 0));
              OpDeliver (Some 500%Z) (Some (mkHandle 8 0 0))] in
  subscribe c = false ∧ ¬ (length (user_calls (calls_of ops c)) ≤ 1).
Proof. cbn zeta. split; [reflexivity|]. vm_compute. lia. Qed.

(** C9, amended: for a consumer that did not request [subscribe], over any
    lifetime (binds, unbinds, connects, disconnects, deliveries): once
    [provided] is set it is set after every later operation, disconnects and
    reconnects included; the user callback is invoked at most once for the
    first delivery plus once for each hand-off delivery (a delivery whose
    unsubscribe function differs from the one held), hence at most once when
    no delivery is a hand-off; and a delivery always overwrites [value]. *)
Theorem C9_one_shot_user_callback_bound c (ops : list Op) :
  subscribe c = false →
  (provided c = true → provided (state_after ops c) = true)
  ∧ length (user_calls (calls_of ops c))
    ≤ (if provided c then 0 else 1) + handoffs ops c
  ∧ ∀ v u, value (state_after (ops ++ [OpDeliver v u]) c) = v.
Proof.
  intros Hs. split; [apply run_provided|]. split; [by apply run_user_calls_bound|].
  intros v u. unfold state_after. rewrite run_app. cbn [fst snd]. cbn zeta.
  rewrite run_cons. cbn [do_op run snd fst]. cbn zeta.
  by rewrite _callback_body_unfold.
Qed.

End ConsumerProperties.

(** A one-shot consumer is delivered to, unbound, bound again and delivered
    to again by a provider that passes no unsubscribe function: no hand-off,
    one call of the user callback. *)
Lemma C9_one_shot_user_callback_bound_witness :
  let c : ContextConsumer.t Z :=
    ContextConsumer.new 0
      (ContextConsumer.mkOptions "simple-context" (Some 1) None) in
  let ops := [ContextConsumer.OpBind 3;
              ContextConsumer.OpDeliver (Some 1000%Z) None;
              ContextConsumer.OpUnbind;
              ContextConsumer.OpBind 3;
              ContextConsumer.OpDeliver (Some 500%Z) None] in
  ContextConsumer.handoffs ops c = 0
  ∧ length (ContextConsumer.user_calls (ContextConsumer.calls_of ops c)) ≤ 1.
Proof.
  cbn zeta. split; [reflexivity|].
  pose proof (C9_one_shot_user_callback_bound
    (ContextConsumer.new 0
       (ContextConsumer.mkOptions "simple-context" (Some 1) None) : ContextConsumer.t Z)
    [ContextConsumer.OpBind 3;
     ContextConsumer.OpDeliver (Some 1000%Z) None;
     ContextConsumer.OpUnbind;
     ContextConsumer.OpBind 3;
     ContextConsumer.OpDeliver (Some 500%Z) None] eq_refl) as (_ & H & _).
  exact H.
Defined.

(** ** The provider's request handler and the nearest provider *)

Section RequestProperties.
Context {V : Type}.
Implicit Types (w : World V) (p : ProviderId) (cb : Callback).



End RequestProperties.



(** ** Detaching and re-attaching a consumer *)

Section LifecycleProperties.
Context {V : Type}.
Implicit Types (w : World V) (p : ProviderId) (cb : Callback).

(** C7: a connected consumer, every subscription of whose callback is the
    one whose unsubscribe function it holds, is detached and re-attached on
    its element [h], whose nearest answering providers are on [e].  On
    disconnect the unsubscribe function held, if any, is invoked and then
    cleared, and no provider is left with a subscription of the callback; on
    reconnect one request event is dispatched from [h], with the consumer's
    context, callback and subscribe flag, the nearest providers deliver to
    it, and the consumer has the value of the last of them. *)
Theorem C7_detach_reattach cb (c : ContextConsumer.t V) (h : Element)
    (pre : list Element) (e : Element) (post : list Element) w :
  consumers w !! cb = Some c →
  ContextConsumer._callback c = cb →
  ContextConsumer.host c = Some h →
  holds_its_subscriptions w cb c →
  h :: ancestors_of w h = pre ++ e :: post →
  let request :=
    ContextRequestEvent.mk (ContextConsumer.context c) cb
      (ContextConsumer.subscribe c) in
  let ev := mkEvent request h (ancestors_of w h) false in
  Forall (λ e', claimants w ev e' = []) pre →
  claimants w ev e ≠ [] →
  let w1 := Consumer.hostDisconnected cb w in
  let w2 := Consumer.hostConnected cb w1 in
  log w1 = log w ++ match ContextConsumer.unsubscribe c with
                    | Some held => [Unsubscribed held]
                    | None => []
                    end
  ∧ ContextConsumer.unsubscribe <$> consumers w1 !! cb = Some None
  ∧ (∀ q, subscribed w1 q cb = false)
  ∧ requests (log w2) = requests (log w1) ++ [(h, request)]
  ∧ invocations (log w2) =
    invocations (log w1) ++ ((λ p, (p, cb, value_of w p)) <$> claimants w ev e)
  ∧ (∀ p, last (claimants w ev e) = Some p →
          consumer_value w2 cb = value_of w p).
Proof.
  intros Hc Hcb Hh Hheld Hpath request ev Hpre He w1 w2.
  pose proof (consumer_hostDisconnected_same_frame cb w) as HF. fold w1 in HF.
  pose proof (consumer_hostDisconnected_unfold cb c w Hc) as Hw1.
  fold w1 in Hw1. cbn zeta in Hw1.
  set (c' := (ContextConsumer.set_unsubscribe None c).1.2) in Hw1.
  assert (consumers w1 !! cb = Some c') as Hc'.
  { rewrite Hw1. destruct (ContextConsumer.unsubscribe c).
    - rewrite run_unsubscribe_consumers. cbn. apply lookup_insert_eq.
    - cbn. apply lookup_insert_eq. }
  assert (log w1 = log w ++ match ContextConsumer.unsubscribe c with
                            | Some held => [Unsubscribed held]
                            | None => []
                            end) as Hlog.
  { rewrite Hw1. destruct (ContextConsumer.unsubscribe c).
    - by rewrite run_unsubscribe_log.
    - cbn. by rewrite app_nil_r. }
  split; [done|]. split; [by rewrite Hc'|]. split.
  { intros q. unfold subscribed. rewrite Hw1.
    destruct (JsMap.has cb (subscriptions_of w q)) eqn:Hq.
    - destruct (Hheld q Hq) as (held & Hu & <- & <-). rewrite Hu.
      rewrite run_unsubscribe_subscriptions, decide_True by done.
      apply JsMapFacts.has_delete_eq.
    - destruct (ContextConsumer.unsubscribe c) as [held|]; [|done].
      rewrite run_unsubscribe_subscriptions. case_decide; [|done].
      apply JsMapFacts.has_false, JsMapFacts.get_delete_None.
      by apply JsMapFacts.has_false. }
  assert (Consumer.hostConnected cb w1 =
          serve ev (add_log (Dispatched h request) w1) (claimants w ev e))
    as Hw2.
  { rewrite (consumer_hostConnected_unfold cb c' h) by done.
    change (ContextRequestEvent.mk _ cb _) with request.
    pose proof (dispatchRequestEvent_nearest h request pre e post w1) as Hn.
    cbn zeta in Hn. rewrite (same_frame_ancestors_of w w1 h HF) in Hn.
    fold ev in Hn. rewrite (same_frame_claimants w w1 ev e HF) in Hn.
    apply Hn; [done| |done].
    eapply Forall_impl; [exact Hpre|]. intros e' He'. cbn beta.
    by rewrite (same_frame_claimants w w1 ev e' HF). }
  fold w2 in Hw2. rewrite Hw2.
  assert (Forall (λ p, is_Some (providers (add_log (Dispatched h request) w1) !! p))
            (claimants w ev e)) as Hps.
  { eapply Forall_impl; [apply (claimants_provider_is_Some w ev e)|].
    intros p. apply (same_frame_provider_is_Some w). exact HF. }
  split; [|split].
  - rewrite serve_requests. cbn [log add_log]. by rewrite requests_app.
  - rewrite serve_invocations by done. cbn [log add_log].
    rewrite invocations_app. cbn. rewrite app_nil_r. f_equal.
    apply list_fmap_ext. intros _ p _. cbn.
    change (value_of (add_log (Dispatched h request) w1) p) with (value_of w1 p).
    by rewrite (same_frame_value_of w w1 p HF).
  - intros p Hlast. apply last_Some in Hlast as [ps Hps'].
    rewrite Hps' in Hps |- *.
    etrans; [apply (serve_consumer_value ev _ ps p Hps)|].
    + cbn. rewrite Hc'. eauto.
    + change (value_of (add_log (Dispatched h request) w1) p) with (value_of w1 p).
      by rewrite (same_frame_value_of w w1 p HF).
Qed.

End LifecycleProperties.

(** ** provider-consumer_test.ts *)

Section ScenarioProperties.
Import Scenario.

(** The provider's bind in the scenario does not run out of fuel. *)
Lemma provider_mounted_bound :
  ContextProviderElement.bind 0 P
    (ContextProviderElement.new P 1
       (ContextProvider.mkOptions simpleContext (Some 1000%Z))
       (document [(1, 0); (2, 1); (3, 1)]))
  = Some provider_mounted.
Proof. vm_compute. reflexivity. Qed.

Lemma mounted_shape :
  mounted =
  mounted_with (Some 1000%Z)
    [Announced 1 (ContextProviderEvent.mk simpleContext);
     Dispatched 2 (ContextRequestEvent.mk simpleContext Cs true);
     Invoked P Cs (Some 1000%Z) (Some (mkHandle P Cs 0));
     UserCalled Cs 1 (Some 1000%Z) (Some (mkHandle P Cs 0));
     Dispatched 3 (ContextRequestEvent.mk simpleContext Co false);
     Invoked P Co (Some 1000%Z) None;
     UserCalled Co 2 (Some 1000%Z) None].
Proof. vm_compute. reflexivity. Qed.

(** A value change reaches the subscribed consumer and nothing else. *)
Lemma setValue_mounted_with (v v' : option Z) (l : list (LogEntry Z)) :
  setValue P v' (mounted_with v l) =
  mounted_with v'
    ((l ++ [Invoked P Cs v' (Some (mkHandle P Cs 0))])
     ++ [UserCalled Cs 1 v' (Some (mkHandle P Cs 0))]).
Proof. vm_compute. reflexivity. Qed.

Lemma deliveries_to_app (cb : Callback) (l1 l2 : list (LogEntry Z)) :
  deliveries_to cb (l1 ++ l2) = deliveries_to cb l1 ++ deliveries_to cb l2.
Proof. unfold deliveries_to. by rewrite invocations_app, filter_app. Qed.

(** Any number of value changes: the document keeps its shape, the
    subscribed consumer follows, the one-shot consumer is not called. *)
Lemma setValues_mounted_with (vs : list (option Z)) (v : option Z)
    (l : list (LogEntry Z)) :
  ∃ l',
    foldl (λ w v, setValue P v w) (mounted_with v l) vs
    = mounted_with (default v (last vs)) l'
    ∧ deliveries_to Co l' = deliveries_to Co l.
Proof.
  revert v l. induction vs as [|v' vs IH]; intros v l.
  - by exists l.
  - cbn [foldl]. rewrite setValue_mounted_with.
    destruct (IH v' ((l ++ [Invoked P Cs v' (Some (mkHandle P Cs 0))])
                     ++ [UserCalled Cs 1 v' (Some (mkHandle P Cs 0))]))
      as (l' & Hw & Hl).
    exists l'. split.
    + rewrite Hw. f_equal. rewrite last_cons. by destruct (last vs).
    + rewrite Hl, !deliveries_to_app. cbn. by rewrite !app_nil_r.
Qed.

(** C4: the provider holds 1000 and the subscribed consumer [Cs] and the
    one-shot consumer [Co] are mounted below it: both have the value 1000
    and both user callbacks were called with it.  After [setValue(500)],
    [Cs] has 500 and its user callback was called with it, [Co] still has
    1000.  And after any number of value changes the one-shot consumer still
    has 1000 and its callback was invoked by the provider exactly once, with
    1000, while the subscribed consumer has the last value set. *)
Theorem C4_one_shot_scenario :
  consumer_value mounted Cs = Some 1000%Z
  ∧ consumer_value mounted Co = Some 1000%Z
  ∧ user_called (log mounted) = [(Cs, Some 1000%Z); (Co, Some 1000%Z)]
  ∧ (let w' := setValue P (Some 500%Z) mounted in
     consumer_value w' Cs = Some 500%Z
     ∧ consumer_value w' Co = Some 1000%Z
     ∧ user_called (log w')
       = [(Cs, Some 1000%Z); (Co, Some 1000%Z); (Cs, Some 500%Z)])
  ∧ ∀ vs : list (option Z),
      let w' := foldl (λ w v, setValue P v w) mounted vs in
      consumer_value w' Co = Some 1000%Z
      ∧ deliveries_to Co (log w') = [(P, Co, Some 1000%Z)]
      ∧ consumer_value w' Cs = default (Some 1000%Z) (last vs).
Proof.
  split; [by vm_compute|]. split; [by vm_compute|]. split; [by vm_compute|].
  split; [by vm_compute|].
  intros vs w'. subst w'. rewrite mounted_shape.
  destruct (setValues_mounted_with vs (Some 1000%Z)
    [Announced 1 (ContextProviderEvent.mk simpleContext);
     Dispatched 2 (ContextRequestEvent.mk simpleContext Cs true);
     Invoked P Cs (Some 1000%Z) (Some (mkHandle P Cs 0));
     UserCalled Cs 1 (Some 1000%Z) (Some (mkHandle P Cs 0));
     Dispatched 3 (ContextRequestEvent.mk simpleContext Co false);
     Invoked P Co (Some 1000%Z) None;
     UserCalled Co 2 (Some 1000%Z) None]) as (l' & -> & Hl).
  split; [by vm_compute|]. split.
  - cbn [log mounted_with]. rewrite Hl. by vm_compute.
  - unfold consumer_value, mounted_with. cbn [consumers].
    rewrite lookup_insert_eq. done.
Qed.

End ScenarioProperties.

(** The subscribed consumer of provider-consumer_test.ts is detached and
    re-attached: its subscription is removed, nothing stays subscribed, and
    the new request is answered by the provider with 1000. *)
Lemma C7_detach_reattach_witness :
  let w1 := Consumer.hostDisconnected Scenario.Cs Scenario.mounted in
  let w2 := Consumer.hostConnected Scenario.Cs w1 in
  log w1 = log Scenario.mounted ++ [Unsubscribed (mkHandle Scenario.P Scenario.Cs 0)]
  ∧ (∀ q, subscribed w1 q Scenario.Cs = false)
  ∧ requests (log w2) =
    requests (log w1)
    ++ [(2, ContextRequestEvent.mk Scenario.simpleContext Scenario.Cs true)]
  ∧ consumer_value w2 Scenario.Cs = Some 1000%Z.
Proof.
  cbn zeta.
  pose proof (C7_detach_reattach Scenario.Cs
    (ContextConsumer.mk (Some 2) Scenario.simpleContext (Some 1) true true
       (Some 1000%Z) (Some (mkHandle Scenario.P Scenario.Cs 0)) Scenario.Cs)
    2 [2] 1 [0] Scenario.mounted) as H.
  destruct H as (H1 & _ & H3 & H4 & _ & H6).
  - vm_compute; reflexivity.
  - reflexivity.
  - reflexivity.
  - intros q Hq. exists (mkHandle Scenario.P Scenario.Cs 0).
    split; [reflexivity|]. split; [|reflexivity].
    destruct (decide (q = Scenario.P)) as [->|Hne]; [reflexivity|].
    revert Hq. rewrite mounted_shape. unfold subscribed, subscriptions_of.
    cbn [providers Scenario.mounted_with].
    rewrite lookup_singleton_ne by done. discriminate.
  - vm_compute; reflexivity.
  - repeat constructor.
  - vm_compute; discriminate.
  - split; [exact H1|]. split; [exact H3|]. split; [exact H4|].
    apply (H6 Scenario.P). vm_compute; reflexivity.
Defined.

(** ** The provider as a behaviour: unbind *)

Section BehaviorProperties.
Context {V : Type}.
Implicit Types (w : World V) (p : ProviderId) (cb : Callback).

(** C10: [unbind] of the FASTElement behaviour leaves the document as it
    is.  So after [bind] and [unbind] both listeners of the provider are
    still on its host, its subscription map is the one it had, and it
    answers any request event, and the document dispatches any request
    event, exactly as before [unbind]. *)
Theorem C10_unbind_changes_nothing p w :
  ContextProviderBehavior.unbind p w = w
  ∧ ∀ (fuel : nat) (source : Element) (P : ContextProvider.t V) (w1 : World V),
      providers w !! p = Some P →
      ContextProviderBehavior.bind fuel p source w = Some w1 →
      let w2 := ContextProviderBehavior.unbind p w1 in
      OnContextRequest p ∈ listeners_of w2 source
      ∧ OnProviderRequest p ∈ listeners_of w2 source
      ∧ subscriptions_of w2 p = subscriptions_of w1 p
      ∧ (∀ ev, onContextRequest p ev w2 = onContextRequest p ev w1)
      ∧ (∀ target detail,
           dispatchRequestEvent target detail w2
           = dispatchRequestEvent target detail w1).
Proof.
  split; [done|]. intros fuel source P w1 HP Hb. cbn zeta.
  unfold ContextProviderBehavior.unbind.
  destruct (behavior_bind_listeners fuel p P source w w1 HP Hb) as [Hr Hp].
  done.
Qed.

End BehaviorProperties.

(** The plain-element provider differs: its [unbind] removes both
    listeners, and a consumer bound afterwards is not answered. *)
Example element_unbind_detaches :
  let w := ContextProviderElement.unbind Scenario.P Scenario.provider_mounted in
  listeners_of w 1 = []
  ∧ consumer_value
      (Consumer.bind Scenario.Cs 2
         (Consumer.new Scenario.Cs
            (ContextConsumer.mkOptions Scenario.simpleContext (Some 1) (Some true))
            w)) Scenario.Cs = None.
Proof. by vm_compute. Qed.

(** The behaviour, bound and unbound in the same document, still answers. *)
Example behavior_unbind_still_answers :
  let w :=
    ContextProviderBehavior.new Scenario.P
      (ContextProvider.mkOptions Scenario.simpleContext (Some 1000%Z))
      (Scenario.document [(1, 0); (2, 1); (3, 1)]) in
  let w := default w (ContextProviderBehavior.bind 0 Scenario.P 1 w) in
  let w := ContextProviderBehavior.unbind Scenario.P w in
  listeners_of w 1 = [OnContextRequest Scenario.P; OnProviderRequest Scenario.P]
  ∧ consumer_value
      (Consumer.bind Scenario.Cs 2
         (Consumer.new Scenario.Cs
            (ContextConsumer.mkOptions Scenario.simpleContext (Some 1) (Some true))
            w)) Scenario.Cs = Some 1000%Z.
Proof. by vm_compute. Qed.

(** ** Re-parenting on a provider announcement *)

Section ReparentProperties.
Context {V : Type}.
Implicit Types (w : World V) (p : ProviderId) (cb : Callback).

Lemma onProviderRequest_unfold
    (dispatchEvent : Element → ContextRequestEvent.t → World V → World V)
    fuel p (P : ContextProvider.t V) (ev : Event ContextProviderEvent.t) w :
  providers w !! p = Some P →
  ContextProviderEvent.context (detail ev) = ContextProvider.context P →
  ContextProvider.host P ≠ Some (origin ev) →
  onProviderRequest dispatchEvent fuel p ev w =
  match reparent dispatchEvent fuel p (ContextProvider.context P) 0 ∅ w with
  | Some (w', out) => Some (stopPropagation ev, w', out)
  | None => None
  end.
Proof.
  intros HP Hc Hh. unfold onProviderRequest. rewrite HP.
  rewrite (bool_decide_eq_false_2 (_ ≠ _)) by (intros ?; done).
  rewrite (bool_decide_eq_false_2 (Some _ = _)) by (intros ?; done).
  done.
Qed.

(** With dispatches that touch only the entry of the callback they are for,
    one pass re-dispatches every entry of the map once, in insertion order,
    and then stops the announcement. *)
Lemma onProviderRequest_exact
    (dispatchEvent : Element → ContextRequestEvent.t → World V → World V)
    (Inv : World V → Prop) p (P : ContextProvider.t V)
    (ev : Event ContextProviderEvent.t) w :
  providers w !! p = Some P →
  ContextProviderEvent.context (detail ev) = ContextProvider.context P →
  ContextProvider.host P ≠ Some (origin ev) →
  Inv w →
  (∀ target r w0, Inv w0 →
     Inv (dispatchEvent target r w0)
     ∧ touched (ContextRequestEvent.callback r) (subscriptions_of w0 p)
         (subscriptions_of (dispatchEvent target r w0) p)) →
  NoDup (JsMap.keys (ContextProvider.subscriptions P)) →
  ∃ fuel0 w',
    Inv w'
    ∧ ∀ fuel, fuel0 ≤ fuel →
        onProviderRequest dispatchEvent fuel p ev w
        = Some (stopPropagation ev, w',
                redispatched (ContextProvider.context P)
                  (JsMap.entries (ContextProvider.subscriptions P))).
Proof.
  intros HP Hc Hh HI Hd Hnd.
  destruct (reparent_exact dispatchEvent Inv (λ _, True) p
              (ContextProvider.context P)
              (λ target k w0 _ H, proj1 (Hd target _ w0 H))
              (λ target k w0 _ H, proj2 (Hd target _ w0 H))
              (ContextProvider.subscriptions P)
              0 ∅ w [] []) as (fuel0 & w' & HI' & Hfuel0); try done.
  { unfold subscriptions_of. rewrite HP. by rewrite app_nil_r. }
  exists fuel0, w'. split; [done|]. intros fuel Hfuel.
  rewrite (onProviderRequest_unfold _ fuel p P) by done.
  by rewrite (Hfuel0 fuel Hfuel).
Qed.


(** In the document: the pass of a provider over its subscriptions ends and
    re-dispatches each of them once. *)
Lemma onProviderRequest_in_document p (P : ContextProvider.t V)
    (ev : Event ContextProviderEvent.t) w :
  providers w !! p = Some P →
  ContextProviderEvent.context (detail ev) = ContextProvider.context P →
  ContextProvider.host P ≠ Some (origin ev) →
  handles_wf w →
  NoDup (JsMap.keys (ContextProvider.subscriptions P)) →
  ∃ fuel0 w',
    handles_wf w'
    ∧ ∀ fuel, fuel0 ≤ fuel →
        onProviderRequest dispatchRequestEvent fuel p ev w
        = Some (stopPropagation ev, w',
                redispatched (ContextProvider.context P)
                  (JsMap.entries (ContextProvider.subscriptions P))).
Proof.
  intros HP Hc Hh Hwf Hnd.
  apply (onProviderRequest_exact dispatchRequestEvent handles_wf p P ev w);
    try done.
  intros target r w0 Hw0.
  destruct (dispatchRequestEvent_local target r w0 Hw0) as [? Ht]. split; [done|].
  apply Ht.
Qed.

End ReparentProperties.


(** * Further properties of the consumer (context-consumer.ts) *)

Module LifetimeFacts.
Import ContextConsumer ConsumerFacts Lifetime.
Section Facts.
Context {V : Type}.
Implicit Types (c : t V) (v : option V) (u : option Handle)
  (ops : list (Op (V:=V))).

Lemma calls_of_cons op ops c :
  calls_of (op :: ops) c = (do_op op c).2 ++ calls_of ops (do_op op c).1.2.
Proof. unfold calls_of. by rewrite run_cons. Qed.

Lemma state_after_cons op ops c :
  state_after (op :: ops) c = state_after ops (do_op op c).1.2.
Proof. unfold state_after. by rewrite run_cons. Qed.

Lemma calls_of_app ops1 ops2 c :
  calls_of (ops1 ++ ops2) c =
  calls_of ops1 c ++ calls_of ops2 (state_after ops1 c).
Proof. unfold calls_of, state_after. by rewrite run_app. Qed.

Lemma state_after_app ops1 ops2 c :
  state_after (ops1 ++ ops2) c = state_after ops2 (state_after ops1 c).
Proof. unfold state_after. by rewrite run_app. Qed.

Lemma dispatch_targets_app (l1 l2 : list (Call V)) :
  dispatch_targets (l1 ++ l2) = dispatch_targets l1 ++ dispatch_targets l2.
Proof.
  induction l1 as [|[]]; cbn; [done|done|done|]. by rewrite IHl1.
Qed.

Lemma user_args_app (l1 l2 : list (Call V)) :
  user_args (l1 ++ l2) = user_args l1 ++ user_args l2.
Proof.
  induction l1 as [|[]]; cbn; [done|done| |done]. by rewrite IHl1.
Qed.

Lemma delivered_app ops1 ops2 :
  delivered (ops1 ++ ops2) = delivered ops1 ++ delivered ops2.
Proof.
  induction ops1 as [|[| | | |v [h|]] ops1 IH]; cbn; try done.
  by rewrite IH.
Qed.

(** What one operation does to the fields and which calls it makes. *)
Lemma do_op_unfold op c :
  do_op op c =
  match op with
  | OpBind source => bind source c
  | OpUnbind | OpHostDisconnected => hostDisconnected c
  | OpHostConnected => dispatchRequest c
  | OpDeliver v u => _callback_body v u c
  end.
Proof. by destruct op. Qed.

(** Without a bind the host stays, and each [hostConnected] dispatches from
    it, if there is one. *)
Lemma no_bind_targets ops c :
  Forall (λ op, is_bind op = false) ops →
  dispatch_targets (calls_of ops c) =
  match host c with
  | Some el =>
      replicate (length (filter (λ op, is_hostConnected op = true) ops)) el
  | None => []
  end.
Proof.
  intros Hall. revert c. induction Hall as [|op ops Hop _ IH]; intros c.
  - cbn. by destruct (host c).
  - rewrite calls_of_cons, dispatch_targets_app, IH.
    destruct op as [s| | | |v u]; [done| | | |]; cbn [do_op].
    + unfold unbind. rewrite hostDisconnected_unfold. cbn [fst snd host].
      rewrite filter_cons_False by done.
      by destruct (unsubscribe c).
    + unfold hostConnected. rewrite dispatchRequest_unfold. cbn [fst snd].
      rewrite filter_cons_True by done. by destruct (host c).
    + rewrite hostDisconnected_unfold. cbn [fst snd host].
      rewrite filter_cons_False by done.
      by destruct (unsubscribe c).
    + rewrite _callback_body_unfold. cbn [fst snd host].
      rewrite filter_cons_False by done.
      rewrite dispatch_targets_app.
      assert (∀ l1 l2 : list (Call V),
                dispatch_targets l1 = [] → dispatch_targets l2 = [] →
                dispatch_targets l1 ++ dispatch_targets l2 = []) as Hnil
        by (by intros ?? -> ->).
      rewrite Hnil; [done| |].
      * destruct (unsubscribe c); [|done].
        by destruct (bool_decide _), (subscribe c).
      * destruct (_ || _); [|done]. by destruct (callback c).
Qed.

(** What is held or has been released is what was held or has been
    received. *)
Lemma do_op_held_or_released op c (h : Handle) :
  h ∈ unsubscribed (do_op op c).2 ∨ unsubscribe (do_op op c).1.2 = Some h
  ↔ h ∈ delivered [op] ∨ unsubscribe c = Some h.
Proof.
  assert (∀ P : Prop, h ∈ @nil Handle ∨ P ↔ P) as Hnil.
  { intros P. split; [|by right]. intros [Hn|?]; [|done].
    by apply elem_of_nil in Hn. }
  destruct op as [s| | | |v u]; cbn [do_op delivered].
  - rewrite bind_unfold. cbn. by rewrite !Hnil.
  - unfold unbind. rewrite hostDisconnected_unfold. cbn [fst snd unsubscribe].
    rewrite Hnil. destruct (unsubscribe c) as [held|]; cbn.
    + rewrite list_elem_of_singleton. clear Hnil. intuition congruence.
    + rewrite Hnil. clear Hnil. intuition congruence.
  - unfold hostConnected. rewrite dispatchRequest_unfold. cbn [fst snd].
    destruct (host c); cbn; by rewrite !Hnil.
  - rewrite hostDisconnected_unfold. cbn [fst snd unsubscribe].
    rewrite Hnil. destruct (unsubscribe c) as [held|]; cbn.
    + rewrite list_elem_of_singleton. clear Hnil. intuition congruence.
    + rewrite Hnil. clear Hnil. intuition congruence.
  - rewrite _callback_body_unfold. cbn [fst snd unsubscribe].
    rewrite unsubscribed_app.
    assert (unsubscribed
              (if negb (provided c) || is_handoff c u || subscribe c
               then match callback c with
                    | Some f => [CallUser f v u]
                    | None => []
                    end
               else []) = []) as ->.
    { destruct (_ || _); [|done]. by destruct (callback c). }
    rewrite app_nil_r.
    assert (h ∈ (match u with Some h' => [h'] | None => [] end) ↔ u = Some h)
      as Hu.
    { destruct u as [h'|]; [|split; [by intros ?%elem_of_nil|done]].
      rewrite list_elem_of_singleton. split; [by intros ->|by intros [= ->]]. }
    rewrite Hu. clear Hu.
    destruct (unsubscribe c) as [held|]; [|cbn; rewrite Hnil; clear Hnil; intuition congruence].
    destruct (decide (Some held = u)) as [<-|Hne].
    + rewrite bool_decide_eq_false_2 by (by intros ?).
      destruct (subscribe c); cbn.
      * rewrite Hnil. clear Hnil. intuition congruence.
      * rewrite list_elem_of_singleton. clear Hnil. intuition congruence.
    + rewrite bool_decide_eq_true_2 by done.
      destruct (subscribe c); cbn.
      * rewrite list_elem_of_singleton. clear Hnil. intuition congruence.
      * rewrite !elem_of_cons. pose proof (elem_of_nil h) as Hn. clear Hnil.
        intuition congruence.
Qed.

Lemma held_or_released ops c (h : Handle) :
  h ∈ unsubscribed (calls_of ops c) ∨ unsubscribe (state_after ops c) = Some h
  ↔ h ∈ delivered ops ∨ unsubscribe c = Some h.
Proof.
  revert c. induction ops as [|op ops IH]; intros c.
  - cbn. split; intros [Hn|?]; try (by right); by apply elem_of_nil in Hn.
  - rewrite calls_of_cons, state_after_cons, unsubscribed_app, elem_of_app.
    change (op :: ops) with ([op] ++ ops).
    rewrite delivered_app, elem_of_app.
    pose proof (IH (do_op op c).1.2) as IH'.
    pose proof (do_op_held_or_released op c h) as Hop.
    tauto.
Qed.


(** Only a delivery writes [value] and [provided]. *)
Lemma no_delivery_keeps ops c :
  Forall (λ op, is_delivery op = false) ops →
  value (state_after ops c) = value c
  ∧ provided (state_after ops c) = provided c.
Proof.
  intros Hall. revert c. induction Hall as [|op ops Hop _ IH]; intros c; [done|].
  rewrite state_after_cons. destruct (IH (do_op op c).1.2) as [-> ->].
  destruct op; [| | | |done]; cbn [do_op].
  - by rewrite bind_unfold.
  - unfold unbind. by rewrite hostDisconnected_unfold.
  - unfold hostConnected. by rewrite dispatchRequest_unfold.
  - by rewrite hostDisconnected_unfold.
Qed.

End Facts.
End LifetimeFacts.

Section ConsumerLifetimes.
Import ContextConsumer ConsumerFacts Lifetime LifetimeFacts.
Context {V : Type}.
Implicit Types (c : t V) (v : option V) (u : option Handle)
  (ops : list (Op (V:=V))).

(** X1: however often a consumer is disconnected or unbound in a row, the
    unsubscribe function it holds is invoked exactly once, by the first of
    these calls, and nothing else is called; afterwards the consumer holds
    none, and its host, value and [provided] flag are as before. *)
Theorem X1_disconnect_releases_once c ops :
  ops ≠ [] →
  Forall (λ op, is_disconnect op = true) ops →
  calls_of ops c =
    match unsubscribe c with
    | Some held => [CallUnsubscribe held]
    | None => []
    end
  ∧ state_after ops c =
    mk (host c) (context c) (callback c) (subscribe c) (provided c) (value c)
       None (_callback c).
Proof.
  intros Hne Hall. destruct ops as [|op ops]; [done|clear Hne].
  apply Forall_cons in Hall as [Hop Hall].
  rewrite calls_of_cons, state_after_cons.
  assert (do_op op c = hostDisconnected c) as ->.
  { rewrite do_op_unfold. by destruct op. }
  rewrite hostDisconnected_unfold. cbn [fst snd].
  set (c1 := mk _ _ _ _ _ _ None _).
  assert (calls_of ops c1 = [] ∧ state_after ops c1 = c1) as [-> ->].
  { induction Hall as [|op' ops' Hop' _ IH]; [done|].
    rewrite calls_of_cons, state_after_cons.
    assert (do_op op' c1 = hostDisconnected c1) as ->.
    { rewrite do_op_unfold. by destruct op'. }
    rewrite hostDisconnected_unfold. cbn [fst snd]. exact IH. }
  by rewrite app_nil_r.
Qed.

(** X2: a consumer that was never bound dispatches no request, whatever is
    called on it ([hostConnected] before [bind] does nothing); and after
    [bind(source)] every request up to the next [bind] is dispatched from
    [source]: one by the [bind] itself and one by each [hostConnected]. *)
Theorem X2_requests_come_from_the_bound_host c ops :
  (host c = None →
   Forall (λ op, is_bind op = false) ops →
   dispatch_targets (calls_of ops c) = [])
  ∧ (∀ ops1 source ops2,
       ops = ops1 ++ OpBind source :: ops2 →
       Forall (λ op, is_bind op = false) ops2 →
       dispatch_targets (calls_of ops c) =
         dispatch_targets (calls_of ops1 c)
         ++ source
            :: replicate
                 (length (filter (λ op, is_hostConnected op = true) ops2))
                 source).
Proof.
  split.
  - intros Hh Hall. by rewrite (no_bind_targets ops c Hall), Hh.
  - intros ops1 source ops2 -> Hall.
    rewrite calls_of_app, dispatch_targets_app. f_equal.
    rewrite calls_of_cons, dispatch_targets_app. cbn [do_op].
    rewrite bind_unfold. cbn [fst snd dispatch_targets app]. f_equal.
    by rewrite (no_bind_targets ops2 _ Hall).
Qed.

(** X3: a consumer invokes no unsubscribe function but those it holds or
    is passed in a delivery; and once it has been disconnected it has invoked
    every one of them: none is left behind. *)
Theorem X3_releases_what_it_received c ops (h : Handle) :
  (h ∈ unsubscribed (calls_of ops c) →
   h ∈ delivered ops ∨ unsubscribe c = Some h)
  ∧ (h ∈ unsubscribed (calls_of (ops ++ [OpHostDisconnected]) c)
     ↔ h ∈ delivered ops ∨ unsubscribe c = Some h)
  ∧ unsubscribe (state_after (ops ++ [OpHostDisconnected]) c) = None.
Proof.
  split; [|split].
  - intros Hin. apply (held_or_released ops c h). by left.
  - rewrite <-(held_or_released ops c h).
    rewrite calls_of_app, unsubscribed_app, elem_of_app.
    rewrite calls_of_cons. cbn [do_op]. rewrite hostDisconnected_unfold.
    cbn [fst snd]. unfold calls_of at 2. cbn [run retM snd].
    rewrite app_nil_r.
    destruct (unsubscribe (state_after ops c)) as [held|]; cbn.
    + rewrite list_elem_of_singleton. intuition congruence.
    + pose proof (elem_of_nil h) as Hn. intuition congruence.
  - rewrite state_after_app, state_after_cons. cbn [do_op].
    by rewrite hostDisconnected_unfold.
Qed.

(** X4: a consumer that requested [subscribe] and is called again and
    again by one provider, each time with the same unsubscribe function,
    invokes no unsubscribe function, passes every value on to the user
    callback, in order, keeps the function and has the last value. *)
Theorem X4_subscribed_gets_every_update c (h : Handle) (vs : list (option V)) :
  subscribe c = true →
  unsubscribe c = None ∨ unsubscribe c = Some h →
  let ops := (λ v, OpDeliver v (Some h)) <$> vs in
  unsubscribed (calls_of ops c) = []
  ∧ user_args (calls_of ops c) =
    match callback c with
    | Some _ => (λ v, (v, Some h)) <$> vs
    | None => []
    end
  ∧ (vs ≠ [] → unsubscribe (state_after ops c) = Some h)
  ∧ value (state_after ops c) = default (value c) (last vs).
Proof.
  intros Hs Hheld ops. subst ops.
  revert c Hs Hheld. induction vs as [|v vs IH]; intros c Hs Hheld.
  - cbn. by destruct (callback c).
  - rewrite fmap_cons, calls_of_cons, state_after_cons. cbn [do_op].
    rewrite _callback_body_unfold. cbn [fst snd].
    set (c1 := mk _ _ _ _ true v (Some h) _).
    destruct (IH c1 Hs (or_intror eq_refl)) as (IH1 & IH2 & IH3 & IH4).
    rewrite !unsubscribed_app, !user_args_app, IH1, IH2, IH4. rewrite Hs.
    rewrite orb_true_r. cbn [callback c1 value].
    assert (unsubscribed
              match unsubscribe c with
              | Some held =>
                  (if bool_decide (Some held ≠ Some h)
                   then [CallUnsubscribe (V:=V) held] else []) ++ []
              | None => []
              end = []
            ∧ user_args
                match unsubscribe c with
                | Some held =>
                    (if bool_decide (Some held ≠ Some h)
                     then [CallUnsubscribe (V:=V) held] else []) ++ []
                | None => []
                end = []) as [-> ->].
    { destruct Hheld as [->| ->]; [done|].
      by rewrite bool_decide_eq_false_2 by (intros ?; done). }
    split; [by destruct (callback c)|]. split; [|split].
    + by destruct (callback c).
    + intros _. destruct vs as [|v' vs]; [done|]. by apply IH3.
    + rewrite last_cons. by destruct (last vs).
Qed.


(** X6: the [value] of a consumer is the value of the last delivery,
    whatever binds, unbinds, connects and disconnects came after it, and
    [provided] stays set; without a delivery both are left as they were. *)
Theorem X6_value_is_the_last_delivered c ops :
  (Forall (λ op, is_delivery op = false) ops →
   value (state_after ops c) = value c
   ∧ provided (state_after ops c) = provided c)
  ∧ (∀ ops1 v u ops2,
       ops = ops1 ++ OpDeliver v u :: ops2 →
       Forall (λ op, is_delivery op = false) ops2 →
       value (state_after ops c) = v
       ∧ provided (state_after ops c) = true).
Proof.
  split.
  - apply no_delivery_keeps.
  - intros ops1 v u ops2 -> Hall.
    rewrite state_after_app, state_after_cons. cbn [do_op].
    destruct (no_delivery_keeps ops2
                (_callback_body v u (state_after ops1 c)).1.2 Hall)
      as [-> ->].
    by rewrite _callback_body_unfold.
Qed.

End ConsumerLifetimes.

(** A consumer holding the unsubscribe function of provider 7 is unbound
    and then disconnected: the function is invoked once. *)
Lemma X1_disconnect_releases_once_witness :
  ContextConsumer.calls_of
    [ContextConsumer.OpUnbind; ContextConsumer.OpHostDisconnected]
    (ContextConsumer.mk (Some 3) "simple-context" (Some 1) true true
       (Some 1000%Z) (Some (mkHandle 7 0 0)) 0)
  = [ContextConsumer.CallUnsubscribe (mkHandle 7 0 0)].
Proof.
  apply (X1_disconnect_releases_once
           (ContextConsumer.mk (Some 3) "simple-context" (Some 1) true true
              (Some 1000%Z) (Some (mkHandle 7 0 0)) 0)
           [ContextConsumer.OpUnbind; ContextConsumer.OpHostDisconnected]).
  - discriminate.
  - repeat constructor.
Defined.

(** A consumer is connected before it is bound, bound to element 3,
    delivered to and connected again: two requests, both from element 3. *)
Lemma X2_requests_come_from_the_bound_host_witness :
  let c : ContextConsumer.t Z :=
    ContextConsumer.new 0
      (ContextConsumer.mkOptions "simple-context" (Some 1) None) in
  Lifetime.dispatch_targets
    (ContextConsumer.calls_of [ContextConsumer.OpHostConnected] c) = []
  ∧ Lifetime.dispatch_targets
      (ContextConsumer.calls_of
         ([ContextConsumer.OpHostConnected]
          ++ ContextConsumer.OpBind 3
             :: [ContextConsumer.OpDeliver (Some 1000%Z) None;
                 ContextConsumer.OpHostConnected]) c)
    = [3; 3].
Proof.
  cbn zeta.
  destruct (X2_requests_come_from_the_bound_host
              (ContextConsumer.new 0
                 (ContextConsumer.mkOptions "simple-context" (Some 1) None)
               : ContextConsumer.t Z)
              [ContextConsumer.OpHostConnected]) as [H1 _].
  destruct (X2_requests_come_from_the_bound_host
              (ContextConsumer.new 0
                 (ContextConsumer.mkOptions "simple-context" (Some 1) None)
               : ContextConsumer.t Z)
              ([ContextConsumer.OpHostConnected]
               ++ ContextConsumer.OpBind 3
                  :: [ContextConsumer.OpDeliver (Some 1000%Z) None;
                      ContextConsumer.OpHostConnected])) as [_ H2].
  split.
  - apply H1; [reflexivity|repeat constructor].
  - rewrite (H2 [ContextConsumer.OpHostConnected] 3
               [ContextConsumer.OpDeliver (Some 1000%Z) None;
                ContextConsumer.OpHostConnected] eq_refl);
      [reflexivity|repeat constructor].
Defined.

(** A subscribed consumer is handed from provider 7 to provider 8 and then
    disconnected: both unsubscribe functions have been invoked. *)
Lemma X3_releases_what_it_received_witness :
  let c : ContextConsumer.t Z :=
    ContextConsumer.new 0
      (ContextConsumer.mkOptions "simple-context" (Some 1) (Some true)) in
  let ops := [ContextConsumer.OpDeliver (Some 1000%Z) (Some (mkHandle 7 0 0));
              ContextConsumer.OpDeliver (Some 500%Z) (Some (mkHandle 8 0 0))] in
  mkHandle 8 0 0
    ∈ ContextConsumer.unsubscribed
        (ContextConsumer.calls_of
           (ops ++ [ContextConsumer.OpHostDisconnected]) c).
Proof.
  cbn zeta.
  apply (X3_releases_what_it_received
           (ContextConsumer.new 0
              (ContextConsumer.mkOptions "simple-context" (Some 1) (Some true))
            : ContextConsumer.t Z)
           [ContextConsumer.OpDeliver (Some 1000%Z) (Some (mkHandle 7 0 0));
            ContextConsumer.OpDeliver (Some 500%Z) (Some (mkHandle 8 0 0))]
           (mkHandle 8 0 0)).
  left. cbn. apply list_elem_of_further, list_elem_of_here.
Defined.

(** The subscribed consumer of provider-consumer_test.ts gets 1000 and then
    500 from its provider. *)
Lemma X4_subscribed_gets_every_update_witness :
  let c : ContextConsumer.t Z :=
    ContextConsumer.new 0
      (ContextConsumer.mkOptions "simple-context" (Some 1) (Some true)) in
  let ops := (λ v, ContextConsumer.OpDeliver v (Some (mkHandle 10 0 0)))
               <$> [Some 1000%Z; Some 500%Z] in
  ContextConsumer.unsubscribed (ContextConsumer.calls_of ops c) = []
  ∧ ContextConsumer.value (ContextConsumer.state_after ops c) = Some 500%Z.
Proof.
  cbn zeta.
  destruct (X4_subscribed_gets_every_update
              (ContextConsumer.new 0
                 (ContextConsumer.mkOptions "simple-context" (Some 1) (Some true))
               : ContextConsumer.t Z)
              (mkHandle 10 0 0) [Some 1000%Z; Some 500%Z] eq_refl
              (or_introl eq_refl)) as (H1 & _ & _ & H4).
  split; [exact H1|exact H4].
Defined.


(** A consumer is delivered 1000, unbound and bound again: it still has
    1000. *)
Lemma X6_value_is_the_last_delivered_witness :
  let c : ContextConsumer.t Z :=
    ContextConsumer.new 0
      (ContextConsumer.mkOptions "simple-context" (Some 1) None) in
  ContextConsumer.value
    (ContextConsumer.state_after
       ([ContextConsumer.OpBind 3]
        ++ ContextConsumer.OpDeliver (Some 1000%Z) None
           :: [ContextConsumer.OpUnbind; ContextConsumer.OpBind 3]) c)
  = Some 1000%Z.
Proof.
  cbn zeta.
  destruct (X6_value_is_the_last_delivered
              (ContextConsumer.new 0
                 (ContextConsumer.mkOptions "simple-context" (Some 1) None)
               : ContextConsumer.t Z)
              ([ContextConsumer.OpBind 3]
               ++ ContextConsumer.OpDeliver (Some 1000%Z) None
                  :: [ContextConsumer.OpUnbind; ContextConsumer.OpBind 3]))
    as [_ H].
  destruct (H [ContextConsumer.OpBind 3] (Some 1000%Z) None
              [ContextConsumer.OpUnbind; ContextConsumer.OpBind 3] eq_refl)
    as [Hv _]; [repeat constructor|exact Hv].
Defined.

(** * Further properties of requests in the document *)

Section RequestFacts.
Context {V : Type}.
Implicit Types (w : World V) (p : ProviderId) (cb : Callback)
  (ev : Event ContextRequestEvent.t).

(** A claimant listens on the element, has the context of the event and is
    not hosted on the element the event comes from. *)
Lemma claimants_elem w ev e p :
  p ∈ claimants w ev e →
  OnContextRequest p ∈ listeners_of w e
  ∧ ∃ P, providers w !! p = Some P
         ∧ ContextProvider.context P = ContextRequestEvent.context (detail ev)
         ∧ ContextProvider.host P ≠ Some (origin ev).
Proof.
  intros [l [Hl Hc]]%list_elem_of_omap.
  destruct l as [q|q]; cbn in Hc; [|done].
  destruct (providers w !! q) as [P|] eqn:HP; [|done].
  destruct (answers _ P ev) eqn:Ha; [|done]. injection Hc as <-.
  split; [done|]. exists P. split; [done|].
  unfold answers in Ha. apply andb_true_iff in Ha as [Hctx Hhost].
  apply bool_decide_eq_true in Hctx. apply negb_true_iff in Hhost.
  apply bool_decide_eq_false in Hhost. done.
Qed.

(** The callbacks a request makes the providers invoke: those of the
    claimants of one element of the path, or none. *)
Lemma bubble_request_invocations path ev w :
  propagationStopped ev = false →
  ∃ ps,
    invocations (log (bubble_request path (ev, w)).2) =
    invocations (log w)
    ++ ((λ p, (p, ContextRequestEvent.callback (detail ev), value_of w p)) <$> ps)
    ∧ (ps = [] ∨ ∃ e, e ∈ path ∧ ps = claimants w ev e).
Proof.
  intros Hs. induction path as [|e path IH].
  - exists []. cbn. rewrite app_nil_r. split; [done|by left].
  - cbn [bubble_request fst snd]. rewrite listeners_fold.
    fold (claimants w ev e). cbn [fst snd].
    destruct (claimants w ev e) as [|p ps] eqn:Hcl.
    + cbn [serve foldl]. rewrite Hs.
      destruct IH as (ps & Hinv & Hps). exists ps. split; [done|].
      destruct Hps as [->|(e' & He' & ->)]; [by left|].
      right. exists e'. split; [by apply list_elem_of_further|done].
    + cbn [propagationStopped stopPropagation]. exists (p :: ps).
      split.
      * rewrite <-Hcl. apply serve_invocations.
        apply (claimants_provider_is_Some w ev e).
      * right. exists e. split; [apply list_elem_of_here|done].
Qed.

Lemma perform_all_log cb (calls : list (ContextConsumer.Call V)) w :
  log (foldl (λ w c, perform no_dispatch cb c w) w calls)
  = log w ++ logged cb calls.
Proof.
  revert w. induction calls as [|c calls IH]; intros w.
  - cbn. by rewrite app_nil_r.
  - cbn [foldl]. rewrite IH. destruct c as [h|f v u|t r]; cbn.
    + rewrite run_unsubscribe_log. by rewrite <-app_assoc.
    + by rewrite <-app_assoc.
    + done.
Qed.

(** The log of a delivery: the call of the callback, then what the
    callback calls. *)
Lemma invoke_log p cb v u w (c : ContextConsumer.t V) :
  consumers w !! cb = Some c →
  log (invoke p cb v u w) =
  log w ++ Invoked p cb v u :: logged cb (ContextConsumer._callback_body v u c).2.
Proof.
  intros Hc. unfold invoke, run_method. cbn [consumers add_log]. rewrite Hc.
  destruct (ContextConsumer._callback_body v u c) as [[[] c'] calls].
  rewrite perform_all_log. cbn. by rewrite <-app_assoc.
Qed.

(** One provider answers a request with [subscribe]. *)
Lemma addCallback_subscribe q (Q : ContextProvider.t V) cb host w :
  providers w !! q = Some Q →
  ∃ info,
    JsMap.get cb (subscriptions_of (register q cb host w) q) = Some info
    ∧ addCallback q cb host true w =
      invoke q cb (ContextProvider.value Q)
        (Some (ValueNotifier.unsubscribe info)) (register q cb host w)
    ∧ info =
      match JsMap.get cb (ContextProvider.subscriptions Q) with
      | Some info => info
      | None =>
          ValueNotifier.mkInfo
            (mkHandle q cb (ValueNotifier.stamp (ContextProvider.notifier Q)))
            host
      end.
Proof.
  intros HQ. unfold addCallback. rewrite HQ. cbn [negb].
  rewrite (register_get q Q) by done.
  destruct (JsMap.get cb (ContextProvider.subscriptions Q)) as [info|];
    eexists; (split; [done|]); split; done.
Qed.

(** A provider answers a request with [subscribe] for the callback of a
    consumer that holds the unsubscribe function of another provider. *)
Lemma addCallback_handover q (Q : ContextProvider.t V) cb
    (c : ContextConsumer.t V) (held : Handle) (target : Element) w :
  document_ok w →
  consumers w !! cb = Some c →
  ContextConsumer.unsubscribe c = Some held →
  providers w !! q = Some Q →
  hprovider held ≠ q →
  let w' := addCallback q cb target true w in
  let new :=
    mkHandle q cb (ValueNotifier.stamp (ContextProvider.notifier Q)) in
  log w' =
    log w
    ++ [Invoked q cb (ContextProvider.value Q) (Some new); Unsubscribed held]
    ++ match ContextConsumer.callback c with
       | Some f => [UserCalled cb f (ContextProvider.value Q) (Some new)]
       | None => []
       end
  ∧ subscribed w (hprovider held) cb = true
  ∧ subscribed w' (hprovider held) cb = false
  ∧ subscriptions_of w' q =
    subscriptions_of w q ++ [Some (cb, ValueNotifier.mkInfo new target)]
  ∧ (∀ p, p ≠ q →
          subscriptions_of w' p =
          if decide (p = hprovider held)
          then JsMap.delete cb (subscriptions_of w p)
          else subscriptions_of w p)
  ∧ consumers w' =
    <[cb := ContextConsumer.mk (ContextConsumer.host c)
              (ContextConsumer.context c) (ContextConsumer.callback c)
              true true (ContextProvider.value Q) (Some new) cb]>
      (consumers w).
Proof.
  intros Hok Hc Hheld HQ Hne w' new. subst w'.
  destruct (ok_held w Hok cb c held Hc Hheld) as (Hs & info & Hg & Hinfo).
  pose proof (ok_filed w Hok cb c Hc) as Hfiled.
  assert (hcallback held = cb) as Hhcb.
  { destruct (ok_entry w Hok _ _ _ Hg) as (_ & ? & _). by subst held. }
  assert (JsMap.get cb (ContextProvider.subscriptions Q) = None) as HnoQ.
  { rewrite <-(subscriptions_of_Some w q Q HQ).
    destruct (JsMap.get cb (subscriptions_of w q)) as [info'|] eqn:Hg'; [|done].
    destruct (ok_entry_held w q cb info' c Hok Hg' Hc) as [Hu Hp].
    rewrite Hheld in Hu. injection Hu as ->. done. }
  destruct (addCallback_subscribe q Q cb target w HQ)
    as (info' & _ & -> & ->).
  rewrite HnoQ. cbn [ValueNotifier.unsubscribe]. fold new.
  set (w2 := register q cb target w).
  assert (consumers w2 !! cb = Some c) as Hc2.
  { unfold w2. by rewrite register_consumers. }
  assert (∀ p, subscriptions_of w2 p =
               if decide (p = q)
               then subscriptions_of w q
                    ++ [Some (cb, ValueNotifier.mkInfo new target)]
               else subscriptions_of w p) as Hsubs2.
  { intros p. unfold w2. rewrite subscriptions_of_register.
    destruct (decide (p = q)) as [->|]; [|done]. rewrite HQ.
    rewrite (subscriptions_of_Some w q Q HQ).
    apply JsMapFacts.has_false in HnoQ. by rewrite HnoQ. }
  assert (Some held ≠ Some new) as Hdiff.
  { intros [= ->]. by apply Hne. }
  split; [|split; [|split; [|split; [|split]]]].
  - rewrite (invoke_log q cb _ _ w2 c Hc2).
    rewrite ConsumerFacts._callback_body_unfold. cbn [snd].
    rewrite Hheld, Hs. unfold ContextConsumer.is_handoff. rewrite Hheld.
    rewrite (bool_decide_eq_true_2 _ Hdiff), orb_true_r. cbn [orb app].
    unfold w2. rewrite register_log.
    cbn. by destruct (ContextConsumer.callback c).
  - apply JsMapFacts.has_true. by exists info.
  - unfold subscribed. rewrite invoke_subscriptions, Hc2, Hheld.
    rewrite (bool_decide_eq_true_2 _ Hdiff). cbn [orb].
    rewrite decide_True by done. rewrite Hhcb. apply JsMapFacts.has_delete_eq.
  - rewrite invoke_subscriptions, Hc2, Hheld.
    rewrite (bool_decide_eq_true_2 _ Hdiff). cbn [orb].
    destruct (decide (q = hprovider held)) as [Heq|_]; [by rewrite Heq in Hne|].
    rewrite Hsubs2. by rewrite decide_True.
  - intros p Hp. rewrite invoke_subscriptions, Hc2, Hheld.
    rewrite (bool_decide_eq_true_2 _ Hdiff). cbn [orb].
    rewrite !Hsubs2. destruct (decide (p = q)); [done|]. by rewrite Hhcb.
  - rewrite invoke_consumers, Hc2. unfold w2. rewrite register_consumers.
    rewrite ConsumerFacts._callback_body_unfold.
    cbn [fst snd]. by rewrite Hs, Hfiled.
Qed.

(** A provider answers a request with [subscribe] for the callback of a
    consumer that holds no unsubscribe function. *)
Lemma addCallback_first q (Q : ContextProvider.t V) cb
    (c : ContextConsumer.t V) (target : Element) w :
  document_ok w →
  consumers w !! cb = Some c →
  ContextConsumer.unsubscribe c = None →
  ContextConsumer.subscribe c = true →
  providers w !! q = Some Q →
  let new :=
    mkHandle q cb (ValueNotifier.stamp (ContextProvider.notifier Q)) in
  addCallback q cb target true w =
  mkWorld (parent w) (listeners w)
    (<[q := ContextProvider.set_notifier
              (ValueNotifier.mk (ContextProvider.value Q)
                 (ContextProvider.subscriptions Q
                  ++ [Some (cb, ValueNotifier.mkInfo new target)])
                 (S (ValueNotifier.stamp (ContextProvider.notifier Q)))) Q]>
       (providers w))
    (<[cb := ContextConsumer.mk (ContextConsumer.host c)
              (ContextConsumer.context c) (ContextConsumer.callback c)
              true true (ContextProvider.value Q) (Some new) cb]>
       (consumers w))
    (log w
     ++ Invoked q cb (ContextProvider.value Q) (Some new)
        :: match ContextConsumer.callback c with
           | Some f => [UserCalled cb f (ContextProvider.value Q) (Some new)]
           | None => []
           end).
Proof.
  intros Hok Hc Hheld Hs HQ new.
  pose proof (ok_filed w Hok cb c Hc) as Hfiled.
  pose proof (ok_not_held_not_subscribed w q cb c Hok Hc Hheld) as HnoQ.
  rewrite (subscriptions_of_Some w q Q HQ) in HnoQ.
  destruct (addCallback_subscribe q Q cb target w HQ)
    as (info' & _ & -> & ->).
  rewrite HnoQ. cbn [ValueNotifier.unsubscribe]. fold new.
  unfold register. rewrite HQ.
  apply JsMapFacts.has_false in HnoQ.
  unfold ContextProvider.subscriptions in HnoQ. rewrite HnoQ.
  unfold JsMap.set. rewrite HnoQ.
  unfold invoke, run_method. cbn [consumers add_log set_providers]. rewrite Hc.
  rewrite ConsumerFacts._callback_body_unfold. rewrite Hheld, Hs, Hfiled.
  rewrite orb_true_r. cbn [app].
  destruct (ContextConsumer.callback c); cbn [foldl perform];
    unfold add_log, set_consumers, set_providers;
    cbn [parent listeners providers consumers log]; [|done].
  by rewrite <-app_assoc.
Qed.

End RequestFacts.

Section RequestsInTheDocument.
Context {V : Type}.
Implicit Types (w : World V) (p : ProviderId) (cb : Callback)
  (ev : Event ContextRequestEvent.t).

(** X7: a consumer is bound to an element from which no provider answers
    its request (none listens on the path, or those that do provide another
    context or are hosted on that very element).  Then the request is
    dispatched and nothing else happens: no callback is invoked, the
    providers are as before, and the consumer has only its host set; its
    value and [provided] flag are left as they were. *)
Theorem X7_unanswered_request cb (c : ContextConsumer.t V) (h : Element) w :
  consumers w !! cb = Some c →
  ContextConsumer._callback c = cb →
  let request :=
    ContextRequestEvent.mk (ContextConsumer.context c) cb
      (ContextConsumer.subscribe c) in
  let ev := mkEvent request h (ancestors_of w h) false in
  Forall (λ e, claimants w ev e = []) (h :: ancestors_of w h) →
  let w' := Consumer.bind cb h w in
  log w' = log w ++ [Dispatched h request]
  ∧ providers w' = providers w
  ∧ consumers w' =
    <[cb := ContextConsumer.mk (Some h) (ContextConsumer.context c)
              (ContextConsumer.callback c) (ContextConsumer.subscribe c)
              (ContextConsumer.provided c) (ContextConsumer.value c)
              (ContextConsumer.unsubscribe c) cb]> (consumers w).
Proof.
  intros Hc Hcb request ev Hpath w'. subst w'.
  rewrite (consumer_bind_unfold cb c h w) by done. fold request.
  set (w1 := set_consumers _ w).
  rewrite (dispatchRequestEvent_unclaimed h request w1) by done.
  cbn. by rewrite Hcb.
Qed.

(** X8: whatever the document, the callbacks that a request event makes
    providers invoke are invocations of the event's callback, each with the
    provider's current value, by providers that all listen on one element of
    the event's path, have the context of the event, and are not hosted on
    the element the event was dispatched from. *)
Theorem X8_only_matching_providers_answer (target : Element)
    (request : ContextRequestEvent.t) w :
  ∃ ps,
    invocations (log (dispatchRequestEvent target request w)) =
    invocations (log w)
    ++ ((λ p, (p, ContextRequestEvent.callback request, value_of w p)) <$> ps)
    ∧ (ps = [] ∨ ∃ e, e ∈ target :: ancestors_of w target
                      ∧ ∀ p, p ∈ ps → OnContextRequest p ∈ listeners_of w e)
    ∧ ∀ p, p ∈ ps →
        ∃ P, providers w !! p = Some P
             ∧ ContextProvider.context P = ContextRequestEvent.context request
             ∧ ContextProvider.host P ≠ Some target.
Proof.
  unfold dispatchRequestEvent.
  set (ev := mkEvent request target (ancestors_of w target) false).
  destruct (bubble_request_invocations (composedPath ev) ev
              (add_log (Dispatched target request) w) eq_refl)
    as (ps & Hinv & Hps).
  exists ps. split; [|split].
  - rewrite Hinv. cbn [log add_log]. rewrite invocations_app. cbn.
    by rewrite app_nil_r.
  - destruct Hps as [->|(e & He & ->)]; [by left|]. right. exists e.
    split; [done|]. intros p Hp.
    by destruct (claimants_elem _ ev e p Hp) as [? _].
  - intros p Hp. destruct Hps as [->|(e & He & ->)].
    + by apply elem_of_nil in Hp.
    + by destruct (claimants_elem _ ev e p Hp) as [_ ?].
Qed.

(** X9: a request with [subscribe] for the callback of a consumer that
    holds the unsubscribe function of one provider is answered by another
    provider, the only one listening on the nearest answering element (a
    request re-dispatched after that provider announced itself, for
    instance).  Then the subscription moves: the new provider adds an entry
    for the callback and invokes it with its value and a new unsubscribe
    function; the consumer invokes the function it held, which removes its
    entry from the old provider, passes the value on to the user callback
    and keeps the new function.  No other subscription changes. *)
Theorem X9_subscription_moves_to_the_nearer_provider
    cb (c : ContextConsumer.t V) (held : Handle)
    q (Q : ContextProvider.t V)
    (target : Element) (request : ContextRequestEvent.t)
    (pre : list Element) (e : Element) (post : list Element) w :
  document_ok w →
  consumers w !! cb = Some c →
  ContextConsumer.unsubscribe c = Some held →
  providers w !! q = Some Q →
  hprovider held ≠ q →
  ContextRequestEvent.callback request = cb →
  ContextRequestEvent.subscribe request = true →
  let ev := mkEvent request target (ancestors_of w target) false in
  target :: ancestors_of w target = pre ++ e :: post →
  Forall (λ e', claimants w ev e' = []) pre →
  claimants w ev e = [q] →
  let w' := dispatchRequestEvent target request w in
  let new :=
    mkHandle q cb (ValueNotifier.stamp (ContextProvider.notifier Q)) in
  log w' =
    log w
    ++ [Dispatched target request;
        Invoked q cb (ContextProvider.value Q) (Some new);
        Unsubscribed held]
    ++ match ContextConsumer.callback c with
       | Some f => [UserCalled cb f (ContextProvider.value Q) (Some new)]
       | None => []
       end
  ∧ subscribed w (hprovider held) cb = true
  ∧ subscribed w' (hprovider held) cb = false
  ∧ subscriptions_of w' q =
    subscriptions_of w q ++ [Some (cb, ValueNotifier.mkInfo new target)]
  ∧ (∀ p, p ≠ q →
          subscriptions_of w' p =
          if decide (p = hprovider held)
          then JsMap.delete cb (subscriptions_of w p)
          else subscriptions_of w p)
  ∧ consumers w' =
    <[cb := ContextConsumer.mk (ContextConsumer.host c)
              (ContextConsumer.context c) (ContextConsumer.callback c)
              true true (ContextProvider.value Q) (Some new) cb]>
      (consumers w).
Proof.
  intros Hok Hc Hheld HQ Hne Hcb Hsub ev Hpath Hpre Hcl w' new. subst w'.
  rewrite (dispatchRequestEvent_nearest target request pre e post w)
    by (try done; fold ev; by rewrite Hcl).
  fold ev. rewrite Hcl. cbn [serve foldl detail origin ev]. rewrite Hcb, Hsub.
  set (w1 := add_log (Dispatched target request) w).
  assert (document_ok w1) as Hok1 by (by apply (document_ok_ext w)).
  destruct (addCallback_handover q Q cb c held target w1 Hok1 Hc Hheld HQ Hne)
    as (Hlog & H1 & H2 & H3 & H4 & H5).
  split; [|done]. rewrite Hlog. cbn [log add_log w1].
  by rewrite <-app_assoc.
Qed.

(** X10: a request with [subscribe] for the callback of a consumer is
    answered by the provider whose unsubscribe function the consumer holds,
    the only one listening on the nearest answering element (a re-dispatched
    request that no nearer provider took over, for instance).  Then no
    subscription changes and no unsubscribe function is invoked: the provider
    invokes the callback with its current value and the same unsubscribe
    function, and the consumer passes the value on to the user callback. *)
Theorem X10_request_to_the_same_provider_changes_no_subscription
    cb (c : ContextConsumer.t V) (held : Handle) (P : ContextProvider.t V)
    (target : Element) (request : ContextRequestEvent.t)
    (pre : list Element) (e : Element) (post : list Element) w :
  document_ok w →
  consumers w !! cb = Some c →
  ContextConsumer.unsubscribe c = Some held →
  providers w !! hprovider held = Some P →
  ContextRequestEvent.callback request = cb →
  ContextRequestEvent.subscribe request = true →
  let ev := mkEvent request target (ancestors_of w target) false in
  target :: ancestors_of w target = pre ++ e :: post →
  Forall (λ e', claimants w ev e' = []) pre →
  claimants w ev e = [hprovider held] →
  let w' := dispatchRequestEvent target request w in
  log w' =
    log w
    ++ [Dispatched target request;
        Invoked (hprovider held) cb (ContextProvider.value P) (Some held)]
    ++ match ContextConsumer.callback c with
       | Some f => [UserCalled cb f (ContextProvider.value P) (Some held)]
       | None => []
       end
  ∧ providers w' = providers w
  ∧ consumers w' =
    <[cb := ContextConsumer.mk (ContextConsumer.host c)
              (ContextConsumer.context c) (ContextConsumer.callback c)
              true true (ContextProvider.value P) (Some held) cb]>
      (consumers w).
Proof.
  intros Hok Hc Hheld HP Hcb Hsub ev Hpath Hpre Hcl w'. subst w'.
  destruct (ok_held w Hok cb c held Hc Hheld) as (Hs & info & Hg & Hinfo).
  pose proof (ok_filed w Hok cb c Hc) as Hfiled.
  rewrite (subscriptions_of_Some w _ P HP) in Hg.
  rewrite (dispatchRequestEvent_nearest target request pre e post w)
    by (try done; fold ev; by rewrite Hcl).
  fold ev. rewrite Hcl. cbn [serve foldl detail origin ev]. rewrite Hcb, Hsub.
  set (w1 := add_log (Dispatched target request) w).
  destruct (addCallback_subscribe (hprovider held) P cb target w1 HP)
    as (info' & _ & -> & ->).
  rewrite Hg, Hinfo.
  rewrite (register_has (hprovider held) P cb target w1 HP) by (by rewrite Hg).
  assert (consumers w1 !! cb = Some c) as Hc1 by done.
  assert (ContextConsumer._callback_body (ContextProvider.value P) (Some held) c
          = (tt,
             ContextConsumer.mk (ContextConsumer.host c)
               (ContextConsumer.context c) (ContextConsumer.callback c)
               true true (ContextProvider.value P) (Some held) cb,
             match ContextConsumer.callback c with
             | Some f =>
                 [ContextConsumer.CallUser f (ContextProvider.value P)
                    (Some held)]
             | None => []
             end)) as Hbody.
  { rewrite ConsumerFacts._callback_body_unfold. rewrite Hheld, Hs, Hfiled.
    rewrite bool_decide_eq_false_2 by (by intros ?).
    by rewrite orb_true_r. }
  split; [|split].
  - rewrite (invoke_log _ cb _ _ w1 c Hc1), Hbody. cbn [snd log add_log w1].
    rewrite <-app_assoc. cbn. by destruct (ContextConsumer.callback c).
  - unfold invoke, run_method. cbn [consumers add_log w1]. rewrite Hc, Hbody.
    by destruct (ContextConsumer.callback c).
  - rewrite invoke_consumers, Hc1, Hbody. done.
Qed.

(** X11: two providers of the same context listen on the nearest
    answering element, and a consumer that holds no unsubscribe function
    requests with [subscribe].  Both answer, in the order of their
    listeners: the first adds an entry and invokes the callback; the second
    does the same with an unsubscribe function of its own, upon which the
    consumer invokes the function of the first, which removes the first
    entry.  So the user callback is invoked twice, and the consumer ends up
    subscribed with the second provider only, with its value. *)
Theorem X11_two_providers_on_one_element
    cb (c : ContextConsumer.t V)
    p1 (P1 : ContextProvider.t V) p2 (P2 : ContextProvider.t V)
    (target : Element) (request : ContextRequestEvent.t)
    (pre : list Element) (e : Element) (post : list Element) w :
  document_ok w →
  consumers w !! cb = Some c →
  ContextConsumer.unsubscribe c = None →
  ContextConsumer.subscribe c = true →
  providers w !! p1 = Some P1 →
  providers w !! p2 = Some P2 →
  p1 ≠ p2 →
  ContextRequestEvent.callback request = cb →
  ContextRequestEvent.subscribe request = true →
  let ev := mkEvent request target (ancestors_of w target) false in
  target :: ancestors_of w target = pre ++ e :: post →
  Forall (λ e', claimants w ev e' = []) pre →
  claimants w ev e = [p1; p2] →
  let w' := dispatchRequestEvent target request w in
  let h1 := mkHandle p1 cb (ValueNotifier.stamp (ContextProvider.notifier P1)) in
  let h2 := mkHandle p2 cb (ValueNotifier.stamp (ContextProvider.notifier P2)) in
  log w' =
    log w
    ++ [Dispatched target request;
        Invoked p1 cb (ContextProvider.value P1) (Some h1)]
    ++ match ContextConsumer.callback c with
       | Some f => [UserCalled cb f (ContextProvider.value P1) (Some h1)]
       | None => []
       end
    ++ [Invoked p2 cb (ContextProvider.value P2) (Some h2); Unsubscribed h1]
    ++ match ContextConsumer.callback c with
       | Some f => [UserCalled cb f (ContextProvider.value P2) (Some h2)]
       | None => []
       end
  ∧ subscribed w' p1 cb = false
  ∧ subscribed w' p2 cb = true
  ∧ consumers w' =
    <[cb := ContextConsumer.mk (ContextConsumer.host c)
              (ContextConsumer.context c) (ContextConsumer.callback c)
              true true (ContextProvider.value P2) (Some h2) cb]>
      (consumers w).
Proof.
  intros Hok Hc Hheld Hs HP1 HP2 Hne Hcb Hsub ev Hpath Hpre Hcl w' h1 h2.
  subst w'.
  rewrite (dispatchRequestEvent_nearest target request pre e post w)
    by (try done; fold ev; by rewrite Hcl).
  fold ev. rewrite Hcl. cbn [serve foldl detail origin ev]. rewrite Hcb, Hsub.
  set (w1 := add_log (Dispatched target request) w).
  assert (document_ok w1) as Hok1 by (by apply (document_ok_ext w)).
  pose proof (addCallback_ok p1 cb target w1 c Hok1 Hc) as Hok2.
  rewrite Hs in Hok2.
  rewrite (addCallback_first p1 P1 cb c target w1 Hok1 Hc Hheld Hs HP1) in *.
  fold h1 in Hok2 |- *.
  set (c1 := ContextConsumer.mk _ _ _ true true _ (Some h1) cb) in *.
  set (w2 := mkWorld _ _ _ _ _) in *.
  assert (consumers w2 !! cb = Some c1) as Hc2 by apply lookup_insert_eq.
  assert (providers w2 !! p2 = Some P2) as HP2'.
  { cbn. by rewrite lookup_insert_ne. }
  destruct (addCallback_handover p2 P2 cb c1 h1 target w2 Hok2 Hc2 eq_refl HP2' Hne)
    as (Hlog & _ & H2 & H3 & _ & H5).
  fold h2 in Hlog, H3, H5. cbn [hprovider h1] in H2.
  split; [|split; [done|split]].
  - rewrite Hlog. cbn [log w2 w1 add_log ContextConsumer.callback c1].
    rewrite <-!app_assoc. cbn. by destruct (ContextConsumer.callback c).
  - unfold subscribed. rewrite H3. apply JsMapFacts.has_true.
    rewrite JsMapFacts.get_app.
    destruct (JsMap.get cb (subscriptions_of w2 p2)); [by eexists|].
    cbn. rewrite decide_True by done. by eexists.
  - rewrite H5. cbn [consumers w2 w1 add_log c1 ContextConsumer.host
      ContextConsumer.context ContextConsumer.callback].
    by rewrite insert_insert_eq.
Qed.

End RequestsInTheDocument.

(** ** The documents of the test suites are in order *)

Section ScenarioFacts.

Lemma reachable_behavior_bind {V} fuel p source (w : World V) :
  reachable w →
  reachable (default w (ContextProviderBehavior.bind fuel p source w)).
Proof.
  intros Hw. destruct (ContextProviderBehavior.bind fuel p source w) as [w'|] eqn:Hb.
  - eapply reachable_step; [exact Hw|]. by eapply step_behavior_bind.
  - exact Hw.
Qed.

Lemma reachable_element_bind {V} fuel p (w : World V) :
  reachable w →
  reachable (default w (ContextProviderElement.bind fuel p w)).
Proof.
  intros Hw. destruct (ContextProviderElement.bind fuel p w) as [w'|] eqn:Hb.
  - eapply reachable_step; [exact Hw|]. by eapply step_element_bind.
  - exact Hw.
Qed.

Lemma mounted_reachable : reachable Scenario.mounted.
Proof.
  unfold Scenario.mounted, Scenario.provider_mounted. cbn zeta.
  eapply reachable_step; [|apply step_consumer_bind].
  eapply reachable_step; [|apply step_consumer_new; by vm_compute].
  eapply reachable_step; [|apply step_consumer_bind].
  eapply reachable_step; [|apply step_consumer_new; by vm_compute].
  apply reachable_element_bind.
  eapply reachable_step; [|apply step_element_new; by vm_compute].
  apply reachable_start.
Qed.

Lemma late_provider_ok : document_ok Scenario.late_provider.
Proof.
  unfold Scenario.late_provider. cbn zeta.
  do 2 apply addEventListener_ok.
  apply provider_new_ok; [by vm_compute|done|].
  apply reachable_ok.
  eapply reachable_step; [|apply step_consumer_bind].
  eapply reachable_step; [|apply step_consumer_new; by vm_compute].
  apply reachable_behavior_bind.
  eapply reachable_step; [|apply step_behavior_new; by vm_compute].
  apply reachable_start.
Qed.

Lemma twins_ok : document_ok Twins.document.
Proof.
  apply reachable_ok. unfold Twins.document. cbn zeta.
  eapply reachable_step; [|apply step_consumer_new; by vm_compute].
  apply reachable_behavior_bind.
  eapply reachable_step; [|apply step_behavior_new; by vm_compute].
  apply reachable_behavior_bind.
  eapply reachable_step; [|apply step_behavior_new; by vm_compute].
  apply reachable_start.
Qed.

End ScenarioFacts.

(** A consumer in a document without providers is bound: only the request
    is logged. *)
Lemma X7_unanswered_request_witness :
  let w :=
    Consumer.new Scenario.C
      (ContextConsumer.mkOptions Scenario.simpleContext (Some 1) (Some true))
      (Scenario.document [(1, 0)]) in
  log (Consumer.bind Scenario.C 1 w)
  = [Dispatched 1 (ContextRequestEvent.mk Scenario.simpleContext Scenario.C true)].
Proof.
  cbn zeta.
  apply (X7_unanswered_request Scenario.C
           (ContextConsumer.new Scenario.C
              (ContextConsumer.mkOptions Scenario.simpleContext (Some 1)
                 (Some true)))
           1
           (Consumer.new Scenario.C
              (ContextConsumer.mkOptions Scenario.simpleContext (Some 1)
                 (Some true))
              (Scenario.document [(1, 0)]))).
  - by vm_compute.
  - reflexivity.
  - repeat constructor.
Defined.

(** late-provider_test.ts: the request re-dispatched from the consumer's
    element meets the provider attached in between; the consumer leaves the
    outer provider for it. *)
Lemma X9_subscription_moves_to_the_nearer_provider_witness :
  let request := ContextRequestEvent.mk Scenario.simpleContext Scenario.C true in
  let w' := dispatchRequestEvent 3 request Scenario.late_provider in
  subscribed Scenario.late_provider Scenario.Outer Scenario.C = true
  ∧ subscribed w' Scenario.Outer Scenario.C = false
  ∧ subscriptions_of w' Scenario.Inner
    = [Some (Scenario.C,
             ValueNotifier.mkInfo (mkHandle Scenario.Inner Scenario.C 0) 3)].
Proof.
  cbn zeta.
  destruct (X9_subscription_moves_to_the_nearer_provider Scenario.C
              (ContextConsumer.mk (Some 3) Scenario.simpleContext (Some 1)
                 true true (Some 1%Z)
                 (Some (mkHandle Scenario.Outer Scenario.C 0)) Scenario.C)
              (mkHandle Scenario.Outer Scenario.C 0)
              Scenario.Inner
              (ContextProvider.mk (ValueNotifier.new (Some 2%Z)) (Some 2)
                 Scenario.simpleContext)
              3 (ContextRequestEvent.mk Scenario.simpleContext Scenario.C true)
              [3] 2 [1; 0] Scenario.late_provider)
    as (_ & H1 & H2 & H3 & _).
  - exact late_provider_ok.
  - by vm_compute.
  - reflexivity.
  - by vm_compute.
  - discriminate.
  - reflexivity.
  - reflexivity.
  - by vm_compute.
  - repeat constructor.
  - by vm_compute.
  - split; [exact H1|]. split; [exact H2|]. exact H3.
Defined.

(** provider-consumer_test.ts: the subscribed consumer requests again and
    its provider answers again; the provider's subscriptions are as before. *)
Lemma X10_request_to_the_same_provider_changes_no_subscription_witness :
  let request := ContextRequestEvent.mk Scenario.simpleContext Scenario.Cs true in
  providers (dispatchRequestEvent 2 request Scenario.mounted)
  = providers Scenario.mounted.
Proof.
  cbn zeta.
  destruct (X10_request_to_the_same_provider_changes_no_subscription
              Scenario.Cs
              (ContextConsumer.mk (Some 2) Scenario.simpleContext (Some 1)
                 true true (Some 1000%Z)
                 (Some (mkHandle Scenario.P Scenario.Cs 0)) Scenario.Cs)
              (mkHandle Scenario.P Scenario.Cs 0)
              (ContextProvider.mk
                 (ValueNotifier.mk (Some 1000%Z)
                    [Some (Scenario.Cs,
                           ValueNotifier.mkInfo
                             (mkHandle Scenario.P Scenario.Cs 0) 2)] 1)
                 (Some 1) Scenario.simpleContext)
              2 (ContextRequestEvent.mk Scenario.simpleContext Scenario.Cs true)
              [2] 1 [0] Scenario.mounted)
    as (_ & H & _).
  - exact (reachable_ok _ mounted_reachable).
  - by vm_compute.
  - reflexivity.
  - by vm_compute.
  - reflexivity.
  - reflexivity.
  - by vm_compute.
  - repeat constructor.
  - by vm_compute.
  - exact H.
Defined.

(** Two providers of the same context are bound to element 1 and a
    subscribing consumer requests from element 2, below it: it ends up
    subscribed with the second provider only. *)
Lemma X11_two_providers_on_one_element_witness :
  let w' :=
    dispatchRequestEvent 2
      (ContextRequestEvent.mk Scenario.simpleContext Scenario.C true)
      Twins.document in
  subscribed w' Scenario.Outer Scenario.C = false
  ∧ subscribed w' Scenario.Inner Scenario.C = true.
Proof.
  cbn zeta.
  destruct (X11_two_providers_on_one_element Scenario.C
              (ContextConsumer.new Scenario.C
                 (ContextConsumer.mkOptions Scenario.simpleContext (Some 1)
                    (Some true)))
              Scenario.Outer
              (ContextProvider.mk (ValueNotifier.new (Some 1%Z)) (Some 1)
                 Scenario.simpleContext)
              Scenario.Inner
              (ContextProvider.mk (ValueNotifier.new (Some 2%Z)) (Some 1)
                 Scenario.simpleContext)
              2 (ContextRequestEvent.mk Scenario.simpleContext Scenario.C true)
              [2] 1 [0] Twins.document)
    as (_ & H1 & H2 & _).
  - exact twins_ok.
  - by vm_compute.
  - reflexivity.
  - reflexivity.
  - by vm_compute.
  - by vm_compute.
  - discriminate.
  - reflexivity.
  - reflexivity.
  - by vm_compute.
  - repeat constructor.
  - by vm_compute.
  - split; [exact H1|exact H2].
Defined.

(** * Further properties of the providers' life cycle *)

Section ProviderLifecycleFacts.
Context {V : Type}.
Implicit Types (w : World V) (p : ProviderId) (cb : Callback).

Lemma filter_all {A} (P : A → Prop) `{!∀ x, Decision (P x)} (l : list A) :
  (∀ x, x ∈ l → P x) → filter P l = l.
Proof.
  induction l as [|x l IH]; intros Hall; [done|].
  rewrite filter_cons_True by apply Hall, list_elem_of_here.
  f_equal. apply IH. intros y Hy. by apply Hall, list_elem_of_further.
Qed.

Lemma listeners_of_removeEventListener e l e' w :
  listeners_of (removeEventListener e l w) e' =
  if decide (e = e') then filter (λ l', l' ≠ l) (listeners_of w e)
  else listeners_of w e'.
Proof.
  unfold removeEventListener. unfold listeners_of at 1. cbn.
  destruct (decide (e = e')) as [->|Hne].
  - by rewrite lookup_insert_eq.
  - by rewrite lookup_insert_ne.
Qed.

(** [hostDisconnected] of the plain-element provider, on the listeners. *)
Lemma element_hostDisconnected_listeners p (P : ContextProvider.t V) el w e :
  providers w !! p = Some P →
  ContextProvider.host P = Some el →
  listeners_of (ContextProviderElement.hostDisconnected p w) e =
  if decide (el = e)
  then filter (λ l, l ≠ OnContextRequest p ∧ l ≠ OnProviderRequest p)
         (listeners_of w el)
  else listeners_of w e.
Proof.
  intros HP Hh. unfold ContextProviderElement.hostDisconnected.
  rewrite HP, Hh. rewrite !listeners_of_removeEventListener.
  destruct (decide (el = e)) as [->|]; [|done].
  rewrite decide_True by done.
  rewrite list_filter_filter. apply list_filter_iff. intros l. tauto.
Qed.

(** The plain-element provider can always be connected in a document in
    order. *)
Lemma element_hostConnected_total p w :
  document_ok w →
  ∃ fuel0 w',
    document_ok w'
    ∧ ∀ fuel, fuel0 ≤ fuel →
        ContextProviderElement.hostConnected fuel p w = Some w'.
Proof.
  intros Hok. unfold ContextProviderElement.hostConnected.
  destruct (providers w !! p) as [P|]; [|by exists 0, w].
  destruct (ContextProvider.host P); [|by exists 0, w].
  apply dispatchProviderEvent_total. by do 2 apply addEventListener_ok.
Qed.

(** [hostConnected] of the plain-element provider leaves the tree, the
    provider frames and, but for its own two listeners, the listeners. *)
Lemma element_hostConnected_frame fuel p (P : ContextProvider.t V) el w w' :
  providers w !! p = Some P →
  ContextProvider.host P = Some el →
  ContextProviderElement.hostConnected fuel p w = Some w' →
  same_frame
    (addEventListener el (OnProviderRequest p)
       (addEventListener el (OnContextRequest p) w)) w'.
Proof.
  intros HP Hh. unfold ContextProviderElement.hostConnected. rewrite HP, Hh.
  apply dispatchProviderEvent_same_frame.
Qed.

(** What one listener of an element does with an announcement that its
    provider does not answer: nothing. *)
Lemma provider_listeners_pass fuel (ls : list Listener)
    (ev : Event ContextProviderEvent.t) w :
  (∀ q Q, OnProviderRequest q ∈ ls →
          providers w !! q = Some Q →
          answers ContextProviderEvent.context Q ev = false) →
  foldl (λ st l, provider_listener fuel l st) (Some (ev, w)) ls = Some (ev, w).
Proof.
  induction ls as [|l ls IH]; intros Hls; [done|].
  cbn [foldl].
  assert (provider_listener fuel l (Some (ev, w)) = Some (ev, w)) as ->.
  { destruct l as [q|q]; [done|]. cbn [provider_listener].
    unfold onProviderRequest.
    destruct (providers w !! q) as [Q|] eqn:HQ; [|done].
    rewrite answers_spec.
    by rewrite (Hls q Q (list_elem_of_here _ _) HQ). }
  apply IH. intros q Q Hq. apply Hls. by apply list_elem_of_further.
Qed.

Lemma bubble_provider_pass fuel path (ev : Event ContextProviderEvent.t) w :
  propagationStopped ev = false →
  (∀ e q Q, e ∈ path →
            OnProviderRequest q ∈ listeners_of w e →
            providers w !! q = Some Q →
            answers ContextProviderEvent.context Q ev = false) →
  bubble_provider fuel path (ev, w) = Some (ev, w).
Proof.
  intros Hs. induction path as [|e path IH]; intros Hpath; [done|].
  cbn [bubble_provider fst snd].
  rewrite provider_listeners_pass.
  - cbn [fst]. rewrite Hs. apply IH.
    intros e' q Q He'. apply Hpath. by apply list_elem_of_further.
  - intros q Q. apply Hpath, list_elem_of_here.
Qed.

Lemma not_answers {D} (ctx : D → Context) (Q : ContextProvider.t V)
    (ev : Event D) :
  ContextProvider.context Q ≠ ctx (detail ev)
  ∨ ContextProvider.host Q = Some (origin ev) →
  answers ctx Q ev = false.
Proof.
  unfold answers. intros [Hc|Hh].
  - by rewrite (bool_decide_eq_false_2 _ (not_eq_sym Hc)).
  - rewrite (bool_decide_eq_true_2 _ Hh). apply andb_false_r.
Qed.

Lemma bubble_provider_skip fuel pre rest (ev : Event ContextProviderEvent.t) w :
  propagationStopped ev = false →
  (∀ e q Q, e ∈ pre →
            OnProviderRequest q ∈ listeners_of w e →
            providers w !! q = Some Q →
            answers ContextProviderEvent.context Q ev = false) →
  bubble_provider fuel (pre ++ rest) (ev, w) = bubble_provider fuel rest (ev, w).
Proof.
  intros Hs. induction pre as [|e pre IH]; intros Hpre; [done|].
  cbn [app bubble_provider fst snd].
  rewrite provider_listeners_pass.
  - cbn [fst]. rewrite Hs. apply IH.
    intros e' q Q He'. apply Hpre. by apply list_elem_of_further.
  - intros q Q. apply Hpre, list_elem_of_here.
Qed.

(** Whether a provider answers an event depends on its frame only. *)
Lemma answers_same_frame {D} (ctx : D → Context) w w' q
    (Q Q' : ContextProvider.t V) (ev : Event D) :
  same_frame w w' →
  providers w !! q = Some Q →
  providers w' !! q = Some Q' →
  answers ctx Q' ev = answers ctx Q ev.
Proof.
  intros (_ & _ & HF) HQ HQ'. apply (frames_lookup _ _ q) in HF.
  rewrite HQ, HQ' in HF. cbn in HF. unfold frame in HF.
  injection HF as H1 H2 _. unfold answers. by rewrite H1, H2.
Qed.

End ProviderLifecycleFacts.

Section ProviderLifecycle.
Context {V : Type}.
Implicit Types (w : World V) (p : ProviderId) (cb : Callback).

(** X12: in every document that comes about from the operations of the
    consumers and providers (with the value notifier as the specification
    describes it), a callback is subscribed with at most one provider at a
    time, and its consumer requested [subscribe] and holds the unsubscribe
    function of that provider. *)
Theorem X12_one_subscription_at_a_time w p q cb :
  reachable w →
  subscribed w p cb = true →
  (subscribed w q cb = true → p = q)
  ∧ ∃ c held,
      consumers w !! cb = Some c
      ∧ ContextConsumer.subscribe c = true
      ∧ ContextConsumer.unsubscribe c = Some held
      ∧ hprovider held = p.
Proof.
  intros Hok%reachable_ok [info Hg]%JsMapFacts.has_true.
  destruct (ok_entry w Hok p cb info Hg) as (Hp & _ & c & Hc & Hu).
  destruct (ok_held w Hok cb c _ Hc Hu) as (Hs & _).
  split.
  - intros [info' Hg']%JsMapFacts.has_true.
    destruct (ok_entry_held w q cb info' c Hok Hg' Hc) as [Hu' Hq].
    rewrite Hu in Hu'. injection Hu' as Hu'. by rewrite <-Hp, <-Hq, Hu'.
  - by exists c, (ValueNotifier.unsubscribe info).
Qed.

(** X13: in every document that comes about from the operations of the
    consumers and providers, connecting a provider comes to an end: the
    announcement and the re-dispatching loops of the providers above it
    finish, and the document they leave is again one of these documents.
    This holds for [bind] of the FASTElement behaviour and for
    [hostConnected] of the plain-element provider. *)
Theorem X13_connecting_a_provider_ends w p (source : Element) :
  reachable w →
  (∃ fuel0 w',
     reachable w'
     ∧ ∀ fuel, fuel0 ≤ fuel →
         ContextProviderBehavior.bind fuel p source w = Some w')
  ∧ (∃ fuel0 w',
       reachable w'
       ∧ ∀ fuel, fuel0 ≤ fuel →
           ContextProviderElement.hostConnected fuel p w = Some w').
Proof.
  intros Hw. pose proof (reachable_ok w Hw) as Hok. split.
  - destruct (behavior_bind_total p source w Hok) as (fuel0 & w' & _ & Hf).
    exists fuel0, w'. split; [|done].
    eapply reachable_step; [exact Hw|].
    eapply step_behavior_bind. by apply (Hf fuel0).
  - destruct (element_hostConnected_total p w Hok) as (fuel0 & w' & _ & Hf).
    exists fuel0, w'. split; [|done].
    eapply reachable_step; [exact Hw|].
    eapply step_element_bind. by apply (Hf fuel0).
Qed.

(** X14: [hostDisconnected] of the plain-element provider removes its two
    listeners from its host and nothing else: the other listeners of the
    host keep their order, the listeners of the other elements, the tree,
    the consumers and the log are as before, and so are the providers, the
    subscriptions of this one included.  Afterwards the provider claims no
    request on its host. *)
Theorem X14_hostDisconnected_removes_only_its_listeners
    p (P : ContextProvider.t V) (el : Element) w :
  providers w !! p = Some P →
  ContextProvider.host P = Some el →
  let w' := ContextProviderElement.hostDisconnected p w in
  listeners_of w' el =
    filter (λ l, l ≠ OnContextRequest p ∧ l ≠ OnProviderRequest p)
      (listeners_of w el)
  ∧ (∀ e, e ≠ el → listeners_of w' e = listeners_of w e)
  ∧ providers w' = providers w
  ∧ consumers w' = consumers w
  ∧ parent w' = parent w
  ∧ log w' = log w
  ∧ ∀ ev, p ∉ claimants w' ev el.
Proof.
  intros HP Hh w'.
  assert (∀ e, listeners_of w' e =
               if decide (el = e)
               then filter (λ l, l ≠ OnContextRequest p ∧ l ≠ OnProviderRequest p)
                      (listeners_of w el)
               else listeners_of w e) as Hls.
  { intros e. by apply (element_hostDisconnected_listeners p P). }
  assert (providers w' = providers w ∧ consumers w' = consumers w
          ∧ parent w' = parent w ∧ log w' = log w) as (? & ? & ? & ?).
  { unfold w', ContextProviderElement.hostDisconnected. by rewrite HP, Hh. }
  split; [|split].
  - by rewrite Hls, decide_True.
  - intros e He. rewrite Hls. by rewrite decide_False.
  - repeat (split; [done|]).
    intros ev [Hin _]%claimants_elem. rewrite Hls, decide_True in Hin by done.
    apply list_elem_of_filter in Hin as [[Hne _] _]. done.
Qed.

(** X15: the plain-element provider is connected and disconnected in a
    document in order in which it was not listening.  Connecting ends and
    leaves both its listeners on its host; disconnecting then leaves every
    element with the listeners it had before. *)
Theorem X15_connect_disconnect_restores_the_listeners
    p (P : ContextProvider.t V) (el : Element) w :
  document_ok w →
  providers w !! p = Some P →
  ContextProvider.host P = Some el →
  OnContextRequest p ∉ listeners_of w el →
  OnProviderRequest p ∉ listeners_of w el →
  ∃ fuel0 w1,
    (∀ fuel, fuel0 ≤ fuel →
       ContextProviderElement.hostConnected fuel p w = Some w1)
    ∧ listeners_of w1 el
      = listeners_of w el ++ [OnContextRequest p; OnProviderRequest p]
    ∧ ∀ e, listeners_of (ContextProviderElement.hostDisconnected p w1) e
           = listeners_of w e.
Proof.
  intros Hok HP Hh Hc Hr.
  destruct (element_hostConnected_total p w Hok) as (fuel0 & w1 & _ & Hf).
  exists fuel0, w1. split; [done|].
  pose proof (element_hostConnected_frame fuel0 p P el w w1 HP Hh
                (Hf fuel0 (le_n _))) as HF.
  assert (listeners_of w1 el
          = listeners_of w el ++ [OnContextRequest p; OnProviderRequest p])
    as Hls.
  { rewrite (same_frame_listeners_of _ w1 el HF).
    rewrite !listeners_of_addEventListener, !decide_True by done.
    rewrite (bool_decide_eq_false_2 (_ ∈ listeners_of w el)) by done.
    rewrite bool_decide_eq_false_2.
    - by rewrite <-app_assoc.
    - intros [?|Hin]%elem_of_app; [done|].
      by apply list_elem_of_singleton in Hin. }
  split; [done|]. intros e.
  destruct HF as (_ & _ & Hfr).
  assert (∃ P1, providers w1 !! p = Some P1
                ∧ ContextProvider.host P1 = Some el) as (P1 & HP1 & Hh1).
  { apply (frames_lookup _ _ p) in Hfr.
    rewrite !addEventListener_providers, HP in Hfr.
    destruct (providers w1 !! p) as [P1|]; [|done].
    exists P1. split; [done|]. cbn in Hfr. unfold frame in Hfr.
    injection Hfr as -> _ _. done. }
  rewrite (element_hostDisconnected_listeners p P1 el w1 e HP1 Hh1).
  destruct (decide (el = e)) as [<-|Hne].
  - rewrite Hls, filter_app.
    rewrite filter_all by (intros l Hl; split; by intros ->).
    rewrite filter_cons_False by (intros [? _]; done).
    rewrite filter_cons_False by (intros [_ ?]; done).
    by rewrite app_nil_r.
  - pose proof (element_hostConnected_frame fuel0 p P el w w1 HP Hh
                  (Hf fuel0 (le_n _))) as HF.
    rewrite (same_frame_listeners_of _ w1 e HF).
    by rewrite !listeners_of_addEventListener, !decide_False.
Qed.

(** X16: the FASTElement behaviour, bound in a document in order, removes
    no listener: every element keeps the listeners it had.  So a provider
    that was listening on one element and is bound to another listens on
    both afterwards, with the new element as its host. *)
Theorem X16_bind_removes_no_listener
    p (P : ContextProvider.t V) (source : Element) w :
  document_ok w →
  providers w !! p = Some P →
  ∃ fuel0 w',
    (∀ fuel, fuel0 ≤ fuel →
       ContextProviderBehavior.bind fuel p source w = Some w')
    ∧ (∀ e l, l ∈ listeners_of w e → l ∈ listeners_of w' e)
    ∧ OnContextRequest p ∈ listeners_of w' source
    ∧ OnProviderRequest p ∈ listeners_of w' source
    ∧ ∃ P', providers w' !! p = Some P'
            ∧ ContextProvider.host P' = Some source
            ∧ ContextProvider.context P' = ContextProvider.context P.
Proof.
  intros Hok HP.
  destruct (behavior_bind_total p source w Hok) as (fuel0 & w' & _ & Hf).
  exists fuel0, w'. split; [done|].
  pose proof (Hf fuel0 (le_n _)) as Hb.
  destruct (behavior_bind_listeners fuel0 p P source w w' HP Hb) as [Hc Hr].
  revert Hb. unfold ContextProviderBehavior.bind. rewrite HP.
  set (wh := set_providers _ w).
  unfold ContextProviderBehavior.attachListeners.
  assert (providers wh !! p = Some (ContextProvider.set_host (Some source) P))
    as Hwh by apply lookup_insert_eq.
  rewrite Hwh. cbn [ContextProvider.host ContextProvider.set_host].
  set (wa := addEventListener _ _ _).
  unfold ContextProviderBehavior.hostConnected.
  assert (providers wa !! p = Some (ContextProvider.set_host (Some source) P))
    as Hwa by (subst wa; by rewrite !addEventListener_providers).
  rewrite Hwa. cbn [ContextProvider.host ContextProvider.set_host].
  intros HF%dispatchProviderEvent_same_frame.
  split; [|split; [done|split; [done|]]].
  - intros e l Hl. rewrite (same_frame_listeners_of wa w' e HF).
    by do 2 apply addEventListener_mono.
  - destruct HF as (_ & _ & Hfr). apply (frames_lookup _ _ p) in Hfr.
    rewrite Hwa in Hfr. destruct (providers w' !! p) as [P'|]; [|done].
    exists P'. split; [done|]. cbn in Hfr. unfold frame in Hfr.
    injection Hfr as -> -> _. done.
Qed.

(** X17: an announcement that no provider on its path answers (each one
    listening there provides another context, or is hosted on the announcing
    element itself, as the announcing provider is) is dispatched and changes
    nothing: no provider re-dispatches a subscription, whatever it holds. *)
Theorem X17_unanswered_announcement (fuel : nat) (target : Element)
    (announcement : ContextProviderEvent.t) w :
  (∀ e q Q, e ∈ target :: ancestors_of w target →
            OnProviderRequest q ∈ listeners_of w e →
            providers w !! q = Some Q →
            ContextProvider.context Q ≠ ContextProviderEvent.context announcement
            ∨ ContextProvider.host Q = Some target) →
  dispatchProviderEvent fuel target announcement w
  = Some (add_log (Announced target announcement) w).
Proof.
  intros Hpath. unfold dispatchProviderEvent.
  rewrite bubble_provider_pass; [done|done|].
  intros e q Q He Hq HQ. unfold answers. cbn [detail origin].
  destruct (Hpath e q Q He Hq HQ) as [Hc|Hh].
  - by rewrite (bool_decide_eq_false_2 _ (not_eq_sym Hc)).
  - rewrite (bool_decide_eq_true_2 _ Hh). apply andb_false_r.
Qed.

(** X18: a provider announces itself from [target].  On the way up no
    provider answers the announcement before the element [e], and of the
    providers listening on [e] only [p] does.  Then, in a document in order,
    the dispatch of the announcement ends and is the pass of [p] over its
    subscriptions alone: one request per subscription, after which the
    announcement is stopped, so that no provider further out handles it. *)
Theorem X18_nearest_provider_handles_the_announcement
    p (P : ContextProvider.t V) (target : Element)
    (announcement : ContextProviderEvent.t)
    (pre : list Element) (e : Element) (post : list Element)
    (ls1 ls2 : list Listener) w :
  document_ok w →
  providers w !! p = Some P →
  ContextProvider.context P = ContextProviderEvent.context announcement →
  ContextProvider.host P ≠ Some target →
  let ev := mkEvent announcement target (ancestors_of w target) false in
  target :: ancestors_of w target = pre ++ e :: post →
  (∀ e' q Q, e' ∈ pre →
             OnProviderRequest q ∈ listeners_of w e' →
             providers w !! q = Some Q →
             ContextProvider.context Q ≠ ContextProviderEvent.context announcement
             ∨ ContextProvider.host Q = Some target) →
  listeners_of w e = ls1 ++ OnProviderRequest p :: ls2 →
  (∀ q Q, OnProviderRequest q ∈ ls1 ++ ls2 →
          providers w !! q = Some Q →
          ContextProvider.context Q ≠ ContextProviderEvent.context announcement
          ∨ ContextProvider.host Q = Some target) →
  ∃ fuel0 w',
    ∀ fuel, fuel0 ≤ fuel →
      onProviderRequest dispatchRequestEvent fuel p ev
        (add_log (Announced target announcement) w)
      = Some (stopPropagation ev, w',
              redispatched (ContextProvider.context P)
                (JsMap.entries (ContextProvider.subscriptions P)))
      ∧ dispatchProviderEvent fuel target announcement w = Some w'.
Proof.
  intros Hok HP Hctx Hhost ev Hpath Hpre Hls Hothers.
  set (w1 := add_log (Announced target announcement) w).
  assert (document_ok w1) as Hok1 by (by apply (document_ok_ext w)).
  destruct (onProviderRequest_in_document p P ev w1) as (fuel0 & w' & _ & Hf);
    [done|done|done|by apply document_ok_handles_wf| |].
  { rewrite <-(subscriptions_of_Some w p P HP). apply (ok_nodup w Hok). }
  exists fuel0, w'. intros fuel Hfuel. pose proof (Hf fuel Hfuel) as Hrun.
  split; [done|].
  unfold dispatchProviderEvent. fold ev w1. unfold composedPath.
  cbn [origin ancestors ev]. rewrite Hpath.
  rewrite bubble_provider_skip; [|done|].
  2:{ intros e' q Q He' Hq HQ. apply not_answers. by apply (Hpre e' q Q). }
  cbn [bubble_provider fst snd].
  change (listeners_of w1 e) with (listeners_of w e). rewrite Hls.
  rewrite foldl_app. rewrite provider_listeners_pass.
  2:{ intros q Q Hq HQ. apply not_answers. apply (Hothers q Q); [|done].
      apply elem_of_app. by left. }
  cbn [foldl provider_listener]. rewrite Hrun.
  rewrite provider_listeners_pass.
  - done.
  - intros q Q' Hq HQ'.
    pose proof (onProviderRequest_same_frame dispatchRequestEvent
                  dispatchRequestEvent_same_frame fuel p ev w1 _ w' _ Hrun)
      as HF.
    destruct (providers w1 !! q) as [Q|] eqn:HQ.
    + change (answers ContextProviderEvent.context Q' (stopPropagation ev))
        with (answers ContextProviderEvent.context Q' ev).
      rewrite (answers_same_frame _ w1 w' q Q Q' ev HF HQ HQ').
      apply not_answers. apply (Hothers q Q); [|done].
      apply elem_of_app. by right.
    + destruct HF as (_ & _ & HF). apply (frames_lookup _ _ q) in HF.
      by rewrite HQ, HQ' in HF.
Qed.

End ProviderLifecycle.

(** provider-consumer_test.ts: the subscribed consumer is subscribed with
    its provider and holds that provider's unsubscribe function. *)
Lemma X12_one_subscription_at_a_time_witness :
  ∃ c held,
    consumers Scenario.mounted !! Scenario.Cs = Some c
    ∧ ContextConsumer.subscribe c = true
    ∧ ContextConsumer.unsubscribe c = Some held
    ∧ hprovider held = Scenario.P.
Proof.
  apply (X12_one_subscription_at_a_time Scenario.mounted Scenario.P Scenario.P
           Scenario.Cs mounted_reachable).
  by vm_compute.
Defined.

(** provider-consumer_test.ts: connecting the provider once more ends. *)
Lemma X13_connecting_a_provider_ends_witness :
  ∃ fuel0 w',
    reachable w'
    ∧ ∀ fuel, fuel0 ≤ fuel →
        ContextProviderElement.hostConnected fuel Scenario.P Scenario.mounted
        = Some w'.
Proof.
  apply (X13_connecting_a_provider_ends Scenario.mounted Scenario.P 1
           mounted_reachable).
Defined.

(** provider-consumer_test.ts: the provider is disconnected; its host has
    no listener left and the subscription of the consumer is still there. *)
Lemma X14_hostDisconnected_removes_only_its_listeners_witness :
  let w' := ContextProviderElement.hostDisconnected Scenario.P Scenario.mounted in
  listeners_of w' 1 = []
  ∧ providers w' = providers Scenario.mounted.
Proof.
  cbn zeta.
  destruct (X14_hostDisconnected_removes_only_its_listeners Scenario.P
              (ContextProvider.mk
                 (ValueNotifier.mk (Some 1000%Z)
                    [Some (Scenario.Cs,
                           ValueNotifier.mkInfo
                             (mkHandle Scenario.P Scenario.Cs 0) 2)] 1)
                 (Some 1) Scenario.simpleContext)
              1 Scenario.mounted)
    as (H1 & _ & H2 & _).
  - by vm_compute.
  - reflexivity.
  - split; [|exact H2]. rewrite H1. by vm_compute.
Defined.

(** provider-consumer_test.ts: the provider, created on element 1, is
    connected and disconnected. *)
Lemma X15_connect_disconnect_restores_the_listeners_witness :
  let w :=
    ContextProviderElement.new Scenario.P 1
      (ContextProvider.mkOptions Scenario.simpleContext (Some 1000%Z))
      (Scenario.document [(1, 0); (2, 1); (3, 1)]) in
  ∃ fuel0 w1,
    (∀ fuel, fuel0 ≤ fuel →
       ContextProviderElement.hostConnected fuel Scenario.P w = Some w1)
    ∧ listeners_of w1 1
      = listeners_of w 1
        ++ [OnContextRequest Scenario.P; OnProviderRequest Scenario.P]
    ∧ ∀ e, listeners_of (ContextProviderElement.hostDisconnected Scenario.P w1) e
           = listeners_of w e.
Proof.
  cbn zeta.
  apply (X15_connect_disconnect_restores_the_listeners Scenario.P
           (ContextProvider.mk (ValueNotifier.new (Some 1000%Z)) (Some 1)
              Scenario.simpleContext) 1).
  - apply reachable_ok.
    eapply reachable_step; [apply reachable_start|].
    apply step_element_new. by vm_compute.
  - by vm_compute.
  - reflexivity.
  - vm_compute. by intros ?%elem_of_nil.
  - vm_compute. by intros ?%elem_of_nil.
Defined.

(** The outer provider of the nested scenario, listening on element 1, is
    bound to element 2: it listens on both. *)
Lemma X16_bind_removes_no_listener_witness :
  ∃ fuel0 w',
    (∀ fuel, fuel0 ≤ fuel →
       ContextProviderBehavior.bind fuel Scenario.Outer 2
         Scenario.nested_providers = Some w')
    ∧ OnContextRequest Scenario.Outer ∈ listeners_of w' 1
    ∧ OnContextRequest Scenario.Outer ∈ listeners_of w' 2.
Proof.
  destruct (X16_bind_removes_no_listener Scenario.Outer
              (ContextProvider.mk (ValueNotifier.new (Some 1%Z)) (Some 1)
                 Scenario.simpleContext)
              2 Scenario.nested_providers)
    as (fuel0 & w' & Hf & Hmono & Hc & _).
  - apply reachable_ok. unfold Scenario.nested_providers. cbn zeta.
    apply reachable_behavior_bind.
    eapply reachable_step; [|apply step_behavior_new; by vm_compute].
    apply reachable_behavior_bind.
    eapply reachable_step; [|apply step_behavior_new; by vm_compute].
    apply reachable_start.
  - by vm_compute.
  - exists fuel0, w'. split; [exact Hf|]. split; [|exact Hc].
    apply Hmono. vm_compute. apply list_elem_of_here.
Defined.

(** The first provider of a document announces itself: nothing happens. *)
Lemma X17_unanswered_announcement_witness :
  let w :=
    addEventListener 1 (OnProviderRequest Scenario.P)
      (addEventListener 1 (OnContextRequest Scenario.P)
         (ContextProviderElement.new Scenario.P 1
            (ContextProvider.mkOptions Scenario.simpleContext (Some 1000%Z))
            (Scenario.document [(1, 0); (2, 1); (3, 1)]))) in
  dispatchProviderEvent 0 1 (ContextProviderEvent.mk Scenario.simpleContext) w
  = Some (add_log (Announced 1 (ContextProviderEvent.mk Scenario.simpleContext)) w).
Proof.
  cbn zeta. apply X17_unanswered_announcement.
  intros e q Q He Hq HQ. right.
  assert (e = 1 ∨ e = 0) as [-> | ->].
  { revert He. vm_compute. intros He.
    apply elem_of_cons in He as [->|He]; [by left|].
    apply list_elem_of_singleton in He as ->. by right. }
  - revert Hq. vm_compute. intros Hq.
    apply elem_of_cons in Hq as [?|Hq]; [done|].
    apply list_elem_of_singleton in Hq as [= ->].
    revert HQ. vm_compute. by intros [= <-].
  - revert Hq. vm_compute. by intros ?%elem_of_nil.
Defined.

(** late-provider_test.ts: the provider attached to element 2 announces
    itself; the outer provider, on element 1, handles the announcement. *)
Lemma X18_nearest_provider_handles_the_announcement_witness :
  ∃ fuel0 w',
    ∀ fuel, fuel0 ≤ fuel →
      dispatchProviderEvent fuel 2
        (ContextProviderEvent.mk Scenario.simpleContext) Scenario.late_provider
      = Some w'.
Proof.
  destruct (X18_nearest_provider_handles_the_announcement Scenario.Outer
              (ContextProvider.mk
                 (ValueNotifier.mk (Some 1%Z)
                    [Some (Scenario.C,
                           ValueNotifier.mkInfo
                             (mkHandle Scenario.Outer Scenario.C 0) 3)] 1)
                 (Some 1) Scenario.simpleContext)
              2 (ContextProviderEvent.mk Scenario.simpleContext)
              [2] 1 [0] [OnContextRequest Scenario.Outer] []
              Scenario.late_provider)
    as (fuel0 & w' & Hf).
  - exact late_provider_ok.
  - by vm_compute.
  - reflexivity.
  - discriminate.
  - by vm_compute.
  - intros e' q Q He' Hq HQ. right.
    apply list_elem_of_singleton in He' as ->.
    revert Hq. vm_compute. intros Hq.
    apply elem_of_cons in Hq as [?|Hq]; [done|].
    apply list_elem_of_singleton in Hq as [= ->].
    revert HQ. vm_compute. by intros [= <-].
  - by vm_compute.
  - intros q Q Hq. exfalso. revert Hq. cbn.
    intros Hq. by apply list_elem_of_singleton in Hq.
  - exists fuel0, w'. intros fuel Hfuel. apply (Hf fuel Hfuel).
Defined.

(** * The plain-element provider's watch on its host *)

Section AnnouncementFacts.
Context {V : Type}.
Implicit Types (w : World V) (p : ProviderId) (cb : Callback).

Lemma announcements_app (l1 l2 : list (LogEntry V)) :
  announcements (l1 ++ l2) = announcements l1 ++ announcements l2.
Proof.
  induction l1 as [|[] l1 IH]; cbn; try done. by rewrite IH.
Qed.

Lemma announcements_logged cb (calls : list (ContextConsumer.Call V)) :
  announcements (logged cb calls) = [].
Proof. induction calls as [|[] calls IH]; cbn; done. Qed.

Lemma invoke_announcements p cb v u w :
  announcements (log (invoke p cb v u w)) = announcements (log w).
Proof.
  unfold invoke, run_method. cbn [consumers add_log].
  destruct (consumers w !! cb) as [c|].
  - destruct (ContextConsumer._callback_body v u c) as [[[] c'] calls].
    rewrite perform_all_log. cbn [log set_consumers add_log].
    rewrite !announcements_app, announcements_logged. cbn.
    by rewrite !app_nil_r.
  - cbn. rewrite announcements_app. cbn. by rewrite app_nil_r.
Qed.

Lemma addCallback_announcements p cb host sub w :
  announcements (log (addCallback p cb host sub w)) = announcements (log w).
Proof.
  unfold addCallback. destruct (providers w !! p) as [P|]; [|done].
  destruct sub; cbn [negb].
  - destruct (JsMap.get _ _).
    + by rewrite invoke_announcements, register_log.
    + by rewrite register_log.
  - apply invoke_announcements.
Qed.

Lemma serve_announcements ev w ps :
  announcements (log (serve ev w ps)) = announcements (log w).
Proof.
  revert w. induction ps as [|p ps IH]; intros w; [done|].
  by rewrite serve_cons, IH, addCallback_announcements.
Qed.

Lemma bubble_request_announcements path ev w :
  announcements (log (bubble_request path (ev, w)).2) = announcements (log w).
Proof.
  revert ev w. induction path as [|e path IH]; intros ev w; [done|].
  cbn [bubble_request fst snd]. rewrite listeners_fold. cbn [fst snd].
  destruct (propagationStopped _).
  - apply serve_announcements.
  - by rewrite IH, serve_announcements.
Qed.

Lemma dispatchRequestEvent_announcements target detail w :
  announcements (log (dispatchRequestEvent target detail w))
  = announcements (log w).
Proof.
  unfold dispatchRequestEvent. rewrite bubble_request_announcements.
  cbn. rewrite announcements_app. cbn. by rewrite app_nil_r.
Qed.

Lemma reparent_announcements fuel p ctx i seen w w' out :
  reparent dispatchRequestEvent fuel p ctx i seen w = Some (w', out) →
  announcements (log w') = announcements (log w).
Proof.
  revert i seen w w' out.
  induction fuel as [|fuel IH]; intros i seen w w' out; [done|].
  cbn [reparent]. destruct (subscriptions_of w p !! i) as [[[cb info]|]|].
  - destruct (bool_decide (cb ∈ seen)); [apply IH|].
    destruct (reparent _ _ _ _ _ _ _) as [[w'' out']|] eqn:Hr; [|done].
    intros [= <- <-]. apply IH in Hr.
    by rewrite Hr, dispatchRequestEvent_announcements.
  - apply IH.
  - by intros [= <- <-].
Qed.

Lemma onProviderRequest_announcements fuel p ev w ev' w' out :
  onProviderRequest dispatchRequestEvent fuel p ev w = Some (ev', w', out) →
  announcements (log w') = announcements (log w).
Proof.
  unfold onProviderRequest. destruct (providers w !! p) as [P|].
  - destruct (_ || _); [by intros [= <- <- <-]|].
    destruct (reparent _ _ _ _ _ _ _) as [[w'' out']|] eqn:Hr; [|done].
    intros [= <- <- <-]. by eapply reparent_announcements.
  - by intros [= <- <- <-].
Qed.

Lemma provider_listeners_announcements fuel (ls : list Listener)
    (st st' : Event ContextProviderEvent.t * World V) :
  foldl (λ st l, provider_listener fuel l st) (Some st) ls = Some st' →
  announcements (log st'.2) = announcements (log st.2).
Proof.
  revert st. induction ls as [|l ls IH]; intros [ev w].
  - cbn. by intros [= <-].
  - cbn [foldl]. destruct l as [q|q]; cbn [provider_listener].
    + apply IH.
    + destruct (onProviderRequest _ _ _ _ _) as [[[ev1 w1] out]|] eqn:Ho.
      * intros Hf. apply IH in Hf. rewrite Hf. cbn [snd].
        by eapply onProviderRequest_announcements.
      * intros Hf. exfalso. clear -Hf.
        induction ls as [|l ls IH]; [done|]. cbn [foldl] in Hf.
        by destruct l.
Qed.

Lemma bubble_provider_announcements fuel path
    (st st' : Event ContextProviderEvent.t * World V) :
  bubble_provider fuel path st = Some st' →
  announcements (log st'.2) = announcements (log st.2).
Proof.
  revert st. induction path as [|e path IH]; intros st.
  - cbn. by intros [= <-].
  - cbn [bubble_provider].
    destruct (foldl _ _ _) as [st1|] eqn:Hf; [|done].
    apply provider_listeners_announcements in Hf.
    destruct (propagationStopped st1.1).
    + by intros [= <-].
    + intros Hb. apply IH in Hb. by rewrite Hb.
Qed.

(** The dispatch of an announcement logs that announcement and no other. *)
Lemma dispatchProviderEvent_announcements fuel target detail w w' :
  dispatchProviderEvent fuel target detail w = Some w' →
  announcements (log w') = announcements (log w) ++ [(target, detail)].
Proof.
  unfold dispatchProviderEvent.
  destruct (bubble_provider _ _ _) as [st'|] eqn:Hb; [|done].
  intros [= <-]. apply bubble_provider_announcements in Hb.
  rewrite Hb. cbn. by rewrite announcements_app.
Qed.

End AnnouncementFacts.

Section WatchFacts.
Context {V : Type}.
Implicit Types (w : World V) (p : ProviderId).

Lemma connectionCallback_step p el ctx (isConnected : bool)
    (st : bool * World V) :
  watch_ok p el ctx st →
  ∃ fuel0 w',
    (∀ fuel, fuel0 ≤ fuel →
       ContextProviderWatch.connectionCallback fuel p isConnected st
       = Some (isConnected, w'))
    ∧ watch_ok p el ctx (isConnected, w')
    ∧ announcements (log w') =
      announcements (log st.2)
      ++ (if isConnected && negb st.1
          then [(el, ContextProviderEvent.mk ctx)] else []).
Proof.
  destruct st as [isReady w]. intros (Hok & (P & HP & Hh & Hc) & Hl1 & Hl2).
  cbn [fst snd] in *. unfold ContextProviderWatch.connectionCallback.
  destruct isConnected, isReady; cbn [negb andb].
  - exists 0, w. split; [done|]. split; [|by rewrite app_nil_r].
    split; [done|]. split; [by exists P|]. by split.
  - destruct (element_hostConnected_total p w Hok) as (fuel0 & w' & Hok' & Hf).
    exists fuel0, w'. split; [intros fuel Hfuel; by rewrite (Hf fuel Hfuel)|].
    pose proof (Hf fuel0 (le_n _)) as Hrun.
    pose proof (element_hostConnected_frame fuel0 p P el w w' HP Hh Hrun) as HF.
    split; [split; [done|split; [|split]]|].
    + cbn [fst snd].
      destruct HF as (_ & _ & Hfr). apply (frames_lookup _ _ p) in Hfr.
      rewrite !addEventListener_providers, HP in Hfr.
      destruct (providers w' !! p) as [P'|]; [|done].
      exists P'. split; [done|]. cbn in Hfr. unfold frame in Hfr.
      injection Hfr as -> -> _. done.
    + cbn [fst snd]. split; [done|]. intros _.
      rewrite (same_frame_listeners_of _ w' el HF).
      apply addEventListener_mono, addEventListener_elem.
    + cbn [fst snd]. split; [done|]. intros _.
      rewrite (same_frame_listeners_of _ w' el HF).
      apply addEventListener_elem.
    + revert Hrun. unfold ContextProviderElement.hostConnected.
      rewrite HP, Hh. intros Hrun%dispatchProviderEvent_announcements.
      rewrite Hrun, Hc.
      unfold addEventListener. by repeat destruct (bool_decide _).
  - exists 0, (ContextProviderElement.hostDisconnected p w).
    split; [done|]. split; [|by rewrite app_nil_r; unfold
      ContextProviderElement.hostDisconnected; rewrite HP, Hh].
    split; [by apply element_unbind_ok|]. split; [|split].
    + exists P. split; [|done].
      unfold ContextProviderElement.hostDisconnected. by rewrite HP, Hh.
    + cbn [fst snd].
      rewrite (element_hostDisconnected_listeners p P el w el HP Hh).
      rewrite decide_True by done. split; [|done].
      intros [[? _] _]%list_elem_of_filter. done.
    + cbn [fst snd].
      rewrite (element_hostDisconnected_listeners p P el w el HP Hh).
      rewrite decide_True by done. split; [|done].
      intros [[_ ?] _]%list_elem_of_filter. done.
  - exists 0, w. split; [done|]. split; [|by rewrite app_nil_r].
    split; [done|]. split; [by exists P|]. by split.
Qed.

Lemma observe_steps p el ctx (observations : list bool)
    (st : bool * World V) :
  watch_ok p el ctx st →
  ∃ fuel0 st',
    (∀ fuel, fuel0 ≤ fuel →
       ContextProviderWatch.observe fuel p observations st = Some st')
    ∧ watch_ok p el ctx st'
    ∧ st'.1 = default st.1 (last observations)
    ∧ announcements (log st'.2) =
      announcements (log st.2)
      ++ replicate (ContextProviderWatch.connections st.1 observations)
           (el, ContextProviderEvent.mk ctx).
Proof.
  revert st. induction observations as [|b obs IH]; intros st Hst.
  - exists 0, st. split; [done|]. split; [done|]. split; [done|].
    cbn. by rewrite app_nil_r.
  - destruct (connectionCallback_step p el ctx b st Hst)
      as (fuel1 & w1 & Hf1 & Hst1 & Ha1).
    destruct (IH (b, w1) Hst1) as (fuel2 & st' & Hf2 & Hst' & Hlast & Ha2).
    exists (fuel1 `max` fuel2), st'. split; [|split; [done|split]].
    + intros fuel Hfuel. cbn [ContextProviderWatch.observe].
      rewrite (Hf1 fuel) by lia. apply Hf2. lia.
    + rewrite Hlast. cbn [fst]. rewrite last_cons. by destruct (last obs).
    + cbn [fst snd] in Ha2.
      rewrite Ha2, Ha1. cbn [fst snd ContextProviderWatch.connections].
      rewrite <-app_assoc. f_equal.
      by destruct (b && negb st.1).
Qed.

End WatchFacts.

Section Watch.
Context {V : Type}.
Implicit Types (w : World V) (p : ProviderId).

(** X19: a plain-element provider is created on a host without
    [$fastController], in a document in order in which it is not listening,
    and watches its host.  Whatever [isConnected] is at the constructor's
    call of [connectionCallback] and at the later calls by the observer, and
    however many calls there are, they end; afterwards [isReady] is what the
    host was last found to be, the provider's two listeners are on its host
    exactly when [isReady] is set, and the provider has announced itself
    once for each time the host was found connected after it was not: never
    twice for one connection. *)
Theorem X19_watch_connects_once_per_connection
    p (el : Element) (options : ContextProvider.Options V)
    (isConnected : bool) (observations : list bool) w :
  document_ok w →
  providers w !! p = None →
  OnContextRequest p ∉ listeners_of w el →
  OnProviderRequest p ∉ listeners_of w el →
  ∃ fuel0 isReady w',
    (∀ fuel, fuel0 ≤ fuel →
       ContextProviderWatch.new fuel p el options isConnected w
       ≫= ContextProviderWatch.observe fuel p observations
       = Some (isReady, w'))
    ∧ isReady = default isConnected (last observations)
    ∧ (OnContextRequest p ∈ listeners_of w' el ↔ isReady = true)
    ∧ (OnProviderRequest p ∈ listeners_of w' el ↔ isReady = true)
    ∧ announcements (log w') =
      announcements (log w)
      ++ replicate
           (ContextProviderWatch.connections false (isConnected :: observations))
           (el, ContextProviderEvent.mk (ContextProvider.opt_context options)).
Proof.
  intros Hok HP Hc Hr.
  set (w0 := ContextProviderElement.new p el options w).
  destruct (observe_steps p el (ContextProvider.opt_context options)
              (isConnected :: observations) (false, w0))
    as (fuel0 & [isReady w'] & Hf & (_ & _ & Hl1 & Hl2) & Hlast & Ha).
  { split; [|split; [|by split]].
    - by apply provider_new_ok.
    - eexists. split; [apply lookup_insert_eq|done]. }
  exists fuel0, isReady, w'. split; [|split; [|done]].
  - intros fuel Hfuel. specialize (Hf fuel Hfuel).
    cbn [ContextProviderWatch.observe] in Hf.
    unfold ContextProviderWatch.new. fold w0.
    by destruct (ContextProviderWatch.connectionCallback fuel p isConnected
                   (false, w0)).
  - cbn [fst] in Hlast. rewrite Hlast, last_cons.
    by destruct (last observations).
Qed.

End Watch.

(** provider-consumer_test.ts: the provider is created on element 1 while
    the element is not connected yet; the observer then finds it connected,
    connected again, disconnected and connected: two announcements. *)
Lemma X19_watch_connects_once_per_connection_witness :
  ∃ fuel0 isReady w',
    (∀ fuel, fuel0 ≤ fuel →
       ContextProviderWatch.new fuel Scenario.P 1
         (ContextProvider.mkOptions Scenario.simpleContext (Some 1000%Z))
         false (Scenario.document [(1, 0); (2, 1); (3, 1)])
       ≫= ContextProviderWatch.observe fuel Scenario.P
            [true; true; false; true]
       = Some (isReady, w'))
    ∧ isReady = true
    ∧ announcements (log w')
      = [(1, ContextProviderEvent.mk Scenario.simpleContext);
         (1, ContextProviderEvent.mk Scenario.simpleContext)].
Proof.
  destruct (X19_watch_connects_once_per_connection Scenario.P 1
              (ContextProvider.mkOptions Scenario.simpleContext (Some 1000%Z))
              false [true; true; false; true]
              (Scenario.document [(1, 0); (2, 1); (3, 1)]))
    as (fuel0 & isReady & w' & Hf & Hlast & _ & _ & Ha).
  - apply reachable_ok, reachable_start.
  - reflexivity.
  - vm_compute. by intros ?%elem_of_nil.
  - vm_compute. by intros ?%elem_of_nil.
  - exists fuel0, isReady, w'. split; [exact Hf|]. split; [exact Hlast|].
    exact Ha.
Defined.

(** * A late provider takes over the subscriptions below it *)

Section TakeoverFacts.
Context {V : Type}.
Implicit Types (w : World V) (p : ProviderId) (cb : Callback)
  (seen : gset Callback) (m : JsMap.t Callback ValueNotifier.CallbackInfo).

(** A request event is served by its nearest claimants. *)
Lemma bubble_request_first path (ev : Event ContextRequestEvent.t) w :
  propagationStopped ev = false →
  (bubble_request path (ev, w)).2 = serve ev w (first_claimants w ev path).
Proof.
  intros Hs. induction path as [|e path IH]; [done|].
  cbn [bubble_request first_claimants fst snd]. rewrite listeners_fold.
  fold (claimants w ev e). cbn [fst snd].
  destruct (claimants w ev e) as [|q qs]; [|done].
  cbn [serve foldl]. by rewrite Hs.
Qed.

Lemma first_claimants_add_log (ev : Event ContextRequestEvent.t) path
    (entry : LogEntry V) w :
  first_claimants (add_log entry w) ev path = first_claimants w ev path.
Proof.
  induction path as [|e path IH]; [done|].
  cbn [first_claimants]. rewrite IH. done.
Qed.

Lemma dispatchRequestEvent_first (target : Element)
    (request : ContextRequestEvent.t) w :
  dispatchRequestEvent target request w =
  serve (mkEvent request target (ancestors_of w target) false)
    (add_log (Dispatched target request) w)
    (nearest_claimants w target request).
Proof.
  unfold dispatchRequestEvent. rewrite bubble_request_first by done.
  unfold nearest_claimants.
  set (w1 := add_log (Dispatched target request) w).
  change (ancestors_of w1 target) with (ancestors_of w target).
  f_equal. apply first_claimants_add_log.
Qed.

Lemma first_claimants_same_frame w w' (ev : Event ContextRequestEvent.t) path :
  same_frame w w' → first_claimants w' ev path = first_claimants w ev path.
Proof.
  intros HF. induction path as [|e path IH]; [done|].
  cbn [first_claimants]. by rewrite (same_frame_claimants w w' ev e HF), IH.
Qed.

Lemma nearest_claimants_same_frame w w' target request :
  same_frame w w' →
  nearest_claimants w' target request = nearest_claimants w target request.
Proof.
  intros HF. unfold nearest_claimants, composedPath. cbn [origin ancestors].
  rewrite (same_frame_ancestors_of w w' target HF).
  by apply first_claimants_same_frame.
Qed.

(** *** A request leaves the other consumers alone *)

Lemma addCallback_consumers_ne q cb host sub w k :
  k ≠ cb → consumers (addCallback q cb host sub w) !! k = consumers w !! k.
Proof.
  intros Hne.
  assert (∀ v u w0, consumers (invoke q cb v u w0) !! k = consumers w0 !! k)
    as Hinv.
  { intros v u w0. rewrite invoke_consumers.
    destruct (consumers w0 !! cb); [|done]. by rewrite lookup_insert_ne. }
  unfold addCallback. destruct (providers w !! q) as [Q|]; [|done].
  destruct sub; cbn [negb].
  - destruct (JsMap.get _ _).
    + by rewrite Hinv, register_consumers.
    + by rewrite register_consumers.
  - apply Hinv.
Qed.

Lemma serve_consumers_ne (ev : Event ContextRequestEvent.t) w ps k :
  k ≠ ContextRequestEvent.callback (detail ev) →
  consumers (serve ev w ps) !! k = consumers w !! k.
Proof.
  intros Hne. revert w. induction ps as [|q ps IH]; intros w; [done|].
  by rewrite serve_cons, IH, addCallback_consumers_ne.
Qed.

Lemma dispatchRequestEvent_consumers_ne target request w k :
  k ≠ ContextRequestEvent.callback request →
  consumers (dispatchRequestEvent target request w) !! k = consumers w !! k.
Proof.
  intros Hne. rewrite dispatchRequestEvent_first.
  by rewrite serve_consumers_ne.
Qed.

(** *** A provider answers the consumer that holds its own function *)

Lemma addCallback_same (P : ContextProvider.t V) cb
    (c : ContextConsumer.t V) (held : Handle) (target : Element) w :
  document_ok w →
  consumers w !! cb = Some c →
  ContextConsumer.unsubscribe c = Some held →
  providers w !! hprovider held = Some P →
  let w' := addCallback (hprovider held) cb target true w in
  log w' =
    log w
    ++ Invoked (hprovider held) cb (ContextProvider.value P) (Some held)
       :: match ContextConsumer.callback c with
          | Some f => [UserCalled cb f (ContextProvider.value P) (Some held)]
          | None => []
          end
  ∧ providers w' = providers w
  ∧ consumers w' =
    <[cb := ContextConsumer.mk (ContextConsumer.host c)
              (ContextConsumer.context c) (ContextConsumer.callback c)
              true true (ContextProvider.value P) (Some held) cb]>
      (consumers w).
Proof.
  intros Hok Hc Hheld HP w'. subst w'.
  destruct (ok_held w Hok cb c held Hc Hheld) as (Hs & info & Hg & Hinfo).
  pose proof (ok_filed w Hok cb c Hc) as Hfiled.
  rewrite (subscriptions_of_Some w _ P HP) in Hg.
  destruct (addCallback_subscribe (hprovider held) P cb target w HP)
    as (info' & _ & -> & ->).
  rewrite Hg, Hinfo.
  rewrite (register_has (hprovider held) P cb target w HP) by (by rewrite Hg).
  assert (ContextConsumer._callback_body (ContextProvider.value P) (Some held) c
          = (tt,
             ContextConsumer.mk (ContextConsumer.host c)
               (ContextConsumer.context c) (ContextConsumer.callback c)
               true true (ContextProvider.value P) (Some held) cb,
             match ContextConsumer.callback c with
             | Some f =>
                 [ContextConsumer.CallUser f (ContextProvider.value P)
                    (Some held)]
             | None => []
             end)) as Hbody.
  { rewrite ConsumerFacts._callback_body_unfold. rewrite Hheld, Hs, Hfiled.
    rewrite bool_decide_eq_false_2 by (by intros ?).
    by rewrite orb_true_r. }
  split; [|split].
  - rewrite (invoke_log _ cb _ _ w c Hc), Hbody. cbn [snd].
    by destruct (ContextConsumer.callback c).
  - unfold invoke, run_method. cbn [consumers add_log]. rewrite Hc, Hbody.
    by destruct (ContextConsumer.callback c).
  - rewrite invoke_consumers, Hc, Hbody. done.
Qed.

(** *** The loop, with the entries' own elements and the callbacks seen *)

Section ExactAt.
Variable dispatchEvent : Element → ContextRequestEvent.t → World V → World V.
Variable Inv : gset Callback → World V → Prop.
Variable served : Element → Callback → Prop.
Variable p : ProviderId.
Variable ctx : Context.
Hypothesis dispatchEvent_Inv :
  ∀ target k seen w, served target k → (k ∉ seen) → Inv seen w →
    Inv ({[k]} ∪ seen)
      (dispatchEvent target (ContextRequestEvent.mk ctx k true) w).
Hypothesis dispatchEvent_touched :
  ∀ target k seen w, served target k → Inv seen w →
    touched k (subscriptions_of w p)
      (subscriptions_of
         (dispatchEvent target (ContextRequestEvent.mk ctx k true) w) p).

Lemma reparent_exact_at todo :
  ∀ i seen w behind added,
    Inv seen w →
    (∀ k a, (k, a) ∈ JsMap.entries todo →
            served (ValueNotifier.consumerHost a) k) →
    subscriptions_of w p = behind ++ todo ++ added →
    length behind = i →
    Forall (passed_over seen) added →
    (∀ k, k ∈ JsMap.keys todo → k ∉ seen) →
    NoDup (JsMap.keys todo) →
    ∃ fuel0 w' seen',
      Inv seen' w'
      ∧ (∀ k, k ∈ seen' ↔ k ∈ JsMap.keys todo ∨ k ∈ seen)
      ∧ ∀ fuel, fuel0 ≤ fuel →
          reparent dispatchEvent fuel p ctx i seen w
          = Some (w', redispatched ctx (JsMap.entries todo)).
Proof.
  induction todo as [|[[k a]|] todo IH];
    intros i seen w behind added HI Hserved Hm Hi Hadded Hnew Hnd.
  - exists (S (length added)), w, seen. split; [done|]. split.
    { intros k. split; [by right|]. intros [Hk|?]; [|done].
      by apply elem_of_nil in Hk. }
    intros fuel Hfuel. apply reparent_passes.
    + rewrite Hm, !length_app. cbn. lia.
    + intros j s Hj. rewrite Hm. cbn [app].
      rewrite lookup_app_r by lia. intros Hs.
      rewrite Forall_forall in Hadded. apply Hadded.
      by eapply list_elem_of_lookup_2.
  - assert (subscriptions_of w p !! i = Some (Some (k, a))) as Hslot.
    { rewrite Hm, lookup_app_r by lia.
      by replace (i - length behind) with 0 by lia. }
    assert (k ∉ seen) as Hk by (apply Hnew; apply list_elem_of_here).
    assert (served (ValueNotifier.consumerHost a) k) as Hsk
      by (apply Hserved; apply list_elem_of_here).
    assert (∀ k' a', (k', a') ∈ JsMap.entries todo →
                     served (ValueNotifier.consumerHost a') k') as Hserved'.
    { intros k' a' Hk'. apply Hserved. by apply list_elem_of_further. }
    assert ((k ∉ JsMap.keys todo) ∧ NoDup (JsMap.keys todo)) as [Hkt Hnd'].
    { unfold JsMap.keys, JsMap.entries in Hnd. cbn in Hnd.
      by apply NoDup_cons in Hnd. }
    set (r := ContextRequestEvent.mk ctx k true).
    set (w2 := dispatchEvent (ValueNotifier.consumerHost a) r w).
    destruct (dispatchEvent_touched (ValueNotifier.consumerHost a) k seen w
                Hsk HI)
      as (added2 & Hm2 & Hadded2).
    fold r w2 in Hm2.
    assert (∃ behind' added',
              subscriptions_of w2 p = behind' ++ todo ++ added'
              ∧ length behind' = S i
              ∧ Forall (passed_over ({[k]} ∪ seen)) added')
      as (behind' & added' & Hm' & Hi' & Hadded').
    { assert (Forall (passed_over ({[k]} ∪ seen)) added2) as Ha2.
      { eapply Forall_impl; [exact Hadded2|]. intros s.
        apply passed_over_mono, union_subseteq_l. }
      assert (Forall (passed_over ({[k]} ∪ seen)) added) as Ha.
      { eapply Forall_impl; [exact Hadded|]. intros s.
        apply passed_over_mono, union_subseteq_r. }
      destruct Hm2 as [Hm2|Hm2]; rewrite Hm in Hm2.
      - exists (behind ++ [Some (k, a)]), (added ++ added2). split; [|split].
        + rewrite Hm2. by repeat (rewrite <-app_assoc || cbn [app]).
        + rewrite length_app. cbn. lia.
        + by apply Forall_app.
      - exists (JsMap.delete k behind ++ [None]),
          (JsMap.delete k added ++ added2).
        split; [|split].
        + rewrite Hm2, !JsMapFacts.delete_app. cbn [JsMap.delete app].
          rewrite decide_True by done. rewrite (delete_not_in k todo) by done.
          by repeat (rewrite <-app_assoc || cbn [app]).
        + rewrite length_app, JsMapFacts.delete_length. cbn. lia.
        + apply Forall_app. split; [|done]. by apply passed_over_delete. }
    destruct (IH (S i) ({[k]} ∪ seen) w2 behind' added')
      as (fuel0 & w' & seen' & HI' & Hseen' & Hfuel0); try done.
    { by apply dispatchEvent_Inv. }
    { intros k' Hk'. unfold JsMap.keys, JsMap.entries in Hnew. cbn in Hnew.
      specialize (Hnew k' ltac:(by apply list_elem_of_further)).
      intros [->%elem_of_singleton|?]%elem_of_union; done. }
    exists (S fuel0), w', seen'. split; [done|]. split.
    { intros k'. rewrite Hseen', elem_of_union, elem_of_singleton.
      unfold JsMap.keys, JsMap.entries. cbn. rewrite elem_of_cons. tauto. }
    intros [|fuel] Hfuel; [lia|].
    cbn [reparent]. rewrite Hslot.
    rewrite bool_decide_eq_false_2 by done. fold r w2.
    by rewrite (Hfuel0 fuel) by lia.
  - assert (subscriptions_of w p !! i = Some None) as Hslot.
    { rewrite Hm, lookup_app_r by lia.
      by replace (i - length behind) with 0 by lia. }
    destruct (IH (S i) seen w (behind ++ [None]) added)
      as (fuel0 & w' & seen' & HI' & Hseen' & Hfuel0); try done.
    { rewrite Hm. by repeat (rewrite <-app_assoc || cbn [app]). }
    { rewrite length_app. cbn. lia. }
    exists (S fuel0), w', seen'. split; [done|]. split; [done|].
    intros [|fuel] Hfuel; [lia|].
    cbn [reparent]. rewrite Hslot. apply Hfuel0. lia.
Qed.

End ExactAt.

End TakeoverFacts.

Section TakeoverFacts2.
Context {V : Type}.
Implicit Types (w : World V) (p : ProviderId) (cb : Callback)
  (m : JsMap.t Callback ValueNotifier.CallbackInfo).

Lemma entries_get k (a : ValueNotifier.CallbackInfo) m :
  NoDup (JsMap.keys m) → (k, a) ∈ JsMap.entries m → JsMap.get k m = Some a.
Proof.
  unfold JsMap.keys, JsMap.entries.
  induction m as [|[[k' a']|] m IH]; cbn.
  - by intros _ ?%elem_of_nil.
  - intros [Hk' Hnd]%NoDup_cons Hin. apply elem_of_cons in Hin as [Heq|Hin].
    + injection Heq as -> ->. by rewrite decide_True.
    + rewrite decide_False; [by apply IH|]. intros ->. apply Hk'.
      apply list_elem_of_fmap. by exists (k, a).
  - apply IH.
Qed.

Lemma first_claimants_provider_is_Some w (ev : Event ContextRequestEvent.t)
    path :
  Forall (λ q, is_Some (providers w !! q)) (first_claimants w ev path).
Proof.
  induction path as [|e path IH]; [constructor|].
  cbn [first_claimants].
  pose proof (claimants_provider_is_Some w ev e) as Hc.
  by destruct (claimants w ev e).
Qed.

End TakeoverFacts2.

Section Takeover.
Context {V : Type}.
Implicit Types (w : World V) (p : ProviderId) (cb : Callback).

(** X20: a provider [p] handles the announcement of a provider that has
    come up below it, in a document in order in which every consumer
    subscribed with [p] has, as the nearest provider answering its request,
    either one new provider [q] or [p] itself.  Then the pass of [p] over
    its subscriptions ends, with one request per subscription, and
    afterwards every consumer that has [q] nearest is subscribed with [q]
    and no longer with [p], and has the value of [q]; every other one is
    still subscribed with [p], under the entry it had, and has the value of
    [p]. *)
Theorem X20_late_provider_takes_over
    p (P : ContextProvider.t V) q (ev : Event ContextProviderEvent.t) w :
  document_ok w →
  providers w !! p = Some P →
  p ≠ q →
  ContextProviderEvent.context (detail ev) = ContextProvider.context P →
  ContextProvider.host P ≠ Some (origin ev) →
  let request cb :=
    ContextRequestEvent.mk (ContextProvider.context P) cb true in
  (∀ cb info,
     (cb, info) ∈ JsMap.entries (ContextProvider.subscriptions P) →
     nearest_claimants w (ValueNotifier.consumerHost info) (request cb) = [q]
     ∨ nearest_claimants w (ValueNotifier.consumerHost info) (request cb) = [p]) →
  ∃ fuel0 w',
    (∀ fuel, fuel0 ≤ fuel →
       onProviderRequest dispatchRequestEvent fuel p ev w
       = Some (stopPropagation ev, w',
               redispatched (ContextProvider.context P)
                 (JsMap.entries (ContextProvider.subscriptions P))))
    ∧ ∀ cb info,
        (cb, info) ∈ JsMap.entries (ContextProvider.subscriptions P) →
        (nearest_claimants w (ValueNotifier.consumerHost info) (request cb) = [q] →
         subscribed w' p cb = false
         ∧ subscribed w' q cb = true
         ∧ consumer_value w' cb = value_of w q)
        ∧ (nearest_claimants w (ValueNotifier.consumerHost info) (request cb) = [p] →
           JsMap.get cb (subscriptions_of w' p) = Some info
           ∧ subscribed w' q cb = false
           ∧ consumer_value w' cb = value_of w p).
Proof.
  intros Hok HP Hne Hctx Hhost request Hnear.
  set (ctx := ContextProvider.context P) in *.
  set (entries0 := JsMap.entries (ContextProvider.subscriptions P)) in *.
  assert (NoDup (JsMap.keys (ContextProvider.subscriptions P))) as Hnd.
  { rewrite <-(subscriptions_of_Some w p P HP). apply (ok_nodup w Hok). }
  pose (final := λ (w0 : World V) (k : Callback)
                   (info : ValueNotifier.CallbackInfo),
    (nearest_claimants w (ValueNotifier.consumerHost info) (request k) = [q] →
     subscribed w0 p k = false
     ∧ subscribed w0 q k = true
     ∧ consumer_value w0 k = value_of w q)
    ∧ (nearest_claimants w (ValueNotifier.consumerHost info) (request k) = [p] →
       JsMap.get k (subscriptions_of w0 p) = Some info
       ∧ subscribed w0 q k = false
       ∧ consumer_value w0 k = value_of w p)).
  pose (Inv := λ (seen : gset Callback) (w0 : World V),
    document_ok w0
    ∧ same_frame w w0
    ∧ ∀ k info, (k, info) ∈ entries0 →
        ((k ∉ seen) → JsMap.get k (subscriptions_of w0 p) = Some info)
        ∧ (k ∈ seen → final w0 k info)).
  pose (served := λ (target : Element) (k : Callback),
    ∃ info, (k, info) ∈ entries0 ∧ target = ValueNotifier.consumerHost info).
  destruct (reparent_exact_at dispatchRequestEvent Inv served p ctx)
    with (todo := ContextProvider.subscriptions P) (i := 0)
         (seen := (∅ : gset Callback)) (w := w)
         (behind := @nil (option (Callback * ValueNotifier.CallbackInfo)))
         (added := @nil (option (Callback * ValueNotifier.CallbackInfo)))
    as (fuel0 & w' & seen' & HI' & Hseen' & Hf).
  - (* one request keeps the invariant *)
    intros target k0 seen w0 (info0 & Hin0 & ->) Hk0 (Hok0 & HF0 & Hall).
    destruct (Hall k0 info0 Hin0) as [Hinit _]. specialize (Hinit Hk0).
    destruct (ok_entry w0 Hok0 p k0 info0 Hinit) as (Hprov & Hcbk & c0 & Hc0 & Hu0).
    destruct (ok_held w0 Hok0 k0 c0 _ Hc0 Hu0) as (Hs0 & _).
    set (target := ValueNotifier.consumerHost info0).
    set (r := ContextRequestEvent.mk ctx k0 true).
    set (w1 := dispatchRequestEvent target r w0).
    assert (requests_as w0 k0 true) as Hreq by (by exists c0).
    destruct (dispatchRequestEvent_ok target r w0 Hok0 Hreq) as [Hok1 _].
    fold w1 in Hok1.
    pose proof (dispatchRequestEvent_same_frame target r w0) as HF1.
    fold w1 in HF1.
    assert (same_frame w w1) as HFw1 by (by eapply same_frame_trans).
    split; [done|]. split; [done|].
    intros k info Hin. destruct (decide (k = k0)) as [->|Hkne].
    + assert (info = info0) as ->.
      { pose proof (entries_get k0 info _ Hnd Hin) as H1.
        pose proof (entries_get k0 info0 _ Hnd Hin0) as H2. congruence. }
      split.
      { intros Hn. exfalso. apply Hn, elem_of_union. left.
        by apply elem_of_singleton. }
      intros _.
      pose proof (nearest_claimants_same_frame w w0 target r HF0) as Hnear0.
      assert (w1 = serve (mkEvent r target (ancestors_of w0 target) false)
                     (add_log (Dispatched target r) w0)
                     (nearest_claimants w target r)) as Hw1.
      { unfold w1. by rewrite dispatchRequestEvent_first, Hnear0. }
      set (wl := add_log (Dispatched target r) w0) in Hw1.
      assert (document_ok wl) as Hokl by (by apply (document_ok_ext w0)).
      assert (JsMap.get k0 (subscriptions_of w0 q) = None) as Hnoq.
      { destruct (JsMap.get k0 (subscriptions_of w0 q)) as [info'|] eqn:Hg';
          [|done].
        destruct (ok_entry_held w0 q k0 info' c0 Hok0 Hg' Hc0) as [Hu' Hq'].
        rewrite Hu0 in Hu'. injection Hu' as Hu'. rewrite <-Hu' in Hq'.
        congruence. }
      split.
      * intros Hq. change (nearest_claimants w target r = [q]) in Hq.
        rewrite Hq in Hw1.
        cbn [serve foldl detail origin ContextRequestEvent.callback
               ContextRequestEvent.subscribe r] in Hw1.
        assert (is_Some (providers w !! q)) as HQw.
        { pose proof (first_claimants_provider_is_Some w
                        (mkEvent r target (ancestors_of w target) false)
                        (composedPath
                           (mkEvent r target (ancestors_of w target) false)))
            as Hall'.
          fold (nearest_claimants w target r) in Hall'. rewrite Hq in Hall'.
          by apply Forall_cons in Hall' as [? _]. }
        destruct (same_frame_provider_is_Some w w0 q HF0 HQw) as [Q0 HQ0].
        destruct (addCallback_handover q Q0 k0 c0 _ target wl Hokl Hc0 Hu0 HQ0)
          as (_ & _ & H2 & H3 & _ & H5); [congruence|].
        rewrite <-Hw1 in H2, H3, H5. rewrite Hprov in H2.
        split; [done|]. split.
        -- unfold subscribed. rewrite H3. apply JsMapFacts.has_true.
           rewrite JsMapFacts.get_app.
           change (subscriptions_of wl q) with (subscriptions_of w0 q).
           rewrite Hnoq. cbn. rewrite decide_True by done. by eexists.
        -- unfold consumer_value. rewrite H5, lookup_insert_eq. cbn.
           rewrite <-(same_frame_value_of w w0 q HF0).
           by rewrite (value_of_Some w0 q Q0 HQ0).
      * intros Hp. change (nearest_claimants w target r = [p]) in Hp.
        rewrite Hp in Hw1.
        cbn [serve foldl detail origin ContextRequestEvent.callback
               ContextRequestEvent.subscribe r] in Hw1.
        destruct (same_frame_provider_is_Some w w0 p HF0) as [P0 HP0]; [eauto|].
        rewrite <-Hprov in Hw1.
        destruct (addCallback_same P0 k0 c0 _ target wl Hokl Hc0 Hu0)
          as (_ & H2 & H5); [by rewrite Hprov|].
        rewrite <-Hw1 in H2, H5.
        assert (∀ p', subscriptions_of w1 p' = subscriptions_of w0 p') as Hsame.
        { intros p'. unfold subscriptions_of. by rewrite H2. }
        split; [by rewrite Hsame|]. split.
        -- unfold subscribed. rewrite Hsame. by apply JsMapFacts.has_false.
        -- unfold consumer_value. rewrite H5, lookup_insert_eq. cbn.
           rewrite <-(same_frame_value_of w w0 p HF0).
           by rewrite (value_of_Some w0 p P0 HP0).
    + destruct (Hall k info Hin) as [Hinit' Hfin'].
      destruct (dispatchRequestEvent_local target r w0
                  (document_ok_handles_wf w0 Hok0)) as [_ Ht].
      fold w1 in Ht.
      assert (∀ p', JsMap.get k (subscriptions_of w1 p')
                    = JsMap.get k (subscriptions_of w0 p')) as Hget.
      { intros p'. by apply (touched_get_ne k0). }
      assert (consumers w1 !! k = consumers w0 !! k) as Hcons.
      { by apply dispatchRequestEvent_consumers_ne. }
      split.
      * intros Hns. rewrite Hget. apply Hinit'. intros Hs. apply Hns.
        apply elem_of_union. by right.
      * intros [Hs%elem_of_singleton|Hs]%elem_of_union; [done|].
        destruct (Hfin' Hs) as [Fq Fp]. unfold final, subscribed, JsMap.has,
          consumer_value in *. rewrite !Hget, Hcons. done.
  - (* a request touches the entry of its callback only *)
    intros target k seen w0 _ (Hok0 & _).
    apply (dispatchRequestEvent_local target
             (ContextRequestEvent.mk ctx k true) w0).
    by apply document_ok_handles_wf.
  - split; [done|]. split; [apply same_frame_refl|].
    intros k info Hin. split.
    + intros _. rewrite (subscriptions_of_Some w p P HP).
      by apply entries_get.
    + by intros ?%not_elem_of_empty.
  - intros k a Hin. by exists a.
  - rewrite (subscriptions_of_Some w p P HP). by rewrite app_nil_r.
  - done.
  - constructor.
  - intros k _. apply not_elem_of_empty.
  - done.
  - exists fuel0, w'. split.
    + intros fuel Hfuel.
      rewrite (onProviderRequest_unfold _ fuel p P) by done.
      unfold ctx in Hf. by rewrite (Hf fuel Hfuel).
    + intros cb info Hin. destruct HI' as (_ & _ & Hall).
      destruct (Hall cb info Hin) as [_ Hfin]. apply Hfin, Hseen'. left.
      unfold JsMap.keys. apply list_elem_of_fmap. by exists (cb, info).
Qed.

End Takeover.

(** late-provider_test.ts: the outer provider handles the announcement of
    the provider attached between it and its subscribed consumer: the
    consumer is subscribed with the new provider and has its value, 2. *)
Lemma X20_late_provider_takes_over_witness :
  ∃ fuel0 w',
    (∀ fuel, fuel0 ≤ fuel →
       onProviderRequest dispatchRequestEvent fuel Scenario.Outer
         Scenario.late_announcement Scenario.late_provider
       = Some (stopPropagation Scenario.late_announcement, w',
               [(3, ContextRequestEvent.mk Scenario.simpleContext Scenario.C
                      true)]))
    ∧ subscribed w' Scenario.Outer Scenario.C = false
    ∧ subscribed w' Scenario.Inner Scenario.C = true
    ∧ consumer_value w' Scenario.C = Some 2%Z.
Proof.
  destruct (X20_late_provider_takes_over Scenario.Outer
              (ContextProvider.mk
                 (ValueNotifier.mk (Some 1%Z)
                    [Some (Scenario.C,
                           ValueNotifier.mkInfo
                             (mkHandle Scenario.Outer Scenario.C 0) 3)] 1)
                 (Some 1) Scenario.simpleContext)
              Scenario.Inner Scenario.late_announcement Scenario.late_provider)
    as (fuel0 & w' & Hf & Hfin).
  - exact late_provider_ok.
  - by vm_compute.
  - discriminate.
  - reflexivity.
  - discriminate.
  - intros cb info Hin. apply list_elem_of_singleton in Hin.
    injection Hin as -> ->. left. by vm_compute.
  - exists fuel0, w'. split; [exact Hf|].
    destruct (Hfin Scenario.C
                (ValueNotifier.mkInfo (mkHandle Scenario.Outer Scenario.C 0) 3))
      as [Hq _]; [apply list_elem_of_here|].
    apply Hq. by vm_compute.
Defined.

(** * A new value reaches the subscribers *)

Section BroadcastFacts.
Context {V : Type}.
Implicit Types (w : World V) (p : ProviderId) (cb : Callback).

(** One step of the broadcast, in a document in order: the callback is
    invoked with the unsubscribe function its consumer holds. *)
Lemma broadcast_to_step p (P : ContextProvider.t V) cb w :
  document_ok w →
  providers w !! p = Some P →
  subscribed w p cb = true →
  let w' := broadcast_to p cb w in
  document_ok w'
  ∧ same_frame w w'
  ∧ (∀ q, subscriptions_of w' q = subscriptions_of w q)
  ∧ invocations (log w') =
    invocations (log w) ++ [(p, cb, ContextProvider.value P)]
  ∧ consumer_value w' cb = ContextProvider.value P
  ∧ ∀ k, k ≠ cb → consumers w' !! k = consumers w !! k.
Proof.
  intros Hok HP [info Hg]%JsMapFacts.has_true w'. subst w'.
  destruct (ok_entry w Hok p cb info Hg) as (_ & _ & c & Hc & Hu).
  unfold broadcast_to. rewrite HP.
  rewrite (subscriptions_of_Some w p P HP) in Hg. rewrite Hg, <-Hu.
  split; [by apply invoke_same_ok|]. split; [apply invoke_same_frame|].
  split; [|split; [apply invoke_invocations|split]].
  - intros q. rewrite invoke_subscriptions, Hc.
    destruct (ContextConsumer.unsubscribe c) as [h|] eqn:Hh; [|done].
    destruct (ok_held w Hok cb c h Hc Hh) as (-> & _).
    by rewrite bool_decide_eq_false_2 by (intros ?; done).
  - by eapply invoke_consumer_value.
  - intros k Hk. rewrite invoke_consumers, Hc. by rewrite lookup_insert_ne.
Qed.

Lemma broadcast_steps p (v : option V) (ks : list Callback) w :
  document_ok w →
  value_of w p = v →
  is_Some (providers w !! p) →
  NoDup ks →
  (∀ k, k ∈ ks → subscribed w p k = true) →
  let w' := foldl (λ w cb, broadcast_to p cb w) w ks in
  document_ok w'
  ∧ same_frame w w'
  ∧ (∀ q, subscriptions_of w' q = subscriptions_of w q)
  ∧ invocations (log w') = invocations (log w) ++ ((λ cb, (p, cb, v)) <$> ks)
  ∧ (∀ k, k ∈ ks → consumer_value w' k = v)
  ∧ ∀ k, k ∉ ks → consumers w' !! k = consumers w !! k.
Proof.
  revert w. induction ks as [|k0 ks IH]; intros w Hok Hv [P HP] Hnd Hks.
  - cbn. split; [done|]. split; [apply same_frame_refl|]. split; [done|].
    split; [by rewrite app_nil_r|]. split; [|done].
    by intros k ?%elem_of_nil.
  - apply NoDup_cons in Hnd as [Hk0 Hnd]. cbn [foldl].
    destruct (broadcast_to_step p P k0 w Hok HP)
      as (Hok1 & HF1 & Hs1 & Hi1 & Hv1 & Hc1).
    { apply Hks, list_elem_of_here. }
    set (w1 := broadcast_to p k0 w) in *.
    assert (ContextProvider.value P = v) as HPv.
    { by rewrite <-(value_of_Some w p P HP). }
    destruct (IH w1) as (Hok2 & HF2 & Hs2 & Hi2 & Hv2 & Hc2); try done.
    { by rewrite (same_frame_value_of w w1 p HF1). }
    { apply (same_frame_provider_is_Some w w1 p HF1). eauto. }
    { intros k Hk. unfold subscribed. rewrite Hs1. apply Hks.
      by apply list_elem_of_further. }
    split; [done|]. split; [by eapply same_frame_trans|].
    split; [intros q; by rewrite Hs2|]. split; [|split].
    + rewrite Hi2, Hi1, HPv, <-app_assoc. done.
    + intros k [->|Hk]%elem_of_cons; [|by apply Hv2].
      unfold consumer_value. rewrite (Hc2 k0 Hk0).
      fold (consumer_value w1 k0). by rewrite Hv1.
    + intros k [Hne Hk]%not_elem_of_cons. rewrite (Hc2 k Hk). by apply Hc1.
Qed.

End BroadcastFacts.

Section SetValue.
Context {V : Type}.
Implicit Types (w : World V) (p : ProviderId) (cb : Callback).

(** X21: [setValue] in a document in order (with the value notifier as the
    specification describes it: the value is stored and every subscribed
    callback is invoked with it and with the unsubscribe function of its
    entry).  The provider then has the new value, every callback subscribed
    with it has been invoked once, in the order of the subscriptions, and its
    consumer has the new value; no subscription of any provider has changed,
    and the consumers that are not subscribed with this provider are as they
    were. *)
Theorem X21_setValue_reaches_every_subscriber p (P : ContextProvider.t V)
    (v : option V) w :
  document_ok w →
  providers w !! p = Some P →
  let w' := setValue p v w in
  value_of w' p = v
  ∧ (∀ q, subscriptions_of w' q = subscriptions_of w q)
  ∧ invocations (log w') =
    invocations (log w)
    ++ ((λ cb, (p, cb, v)) <$> JsMap.keys (ContextProvider.subscriptions P))
  ∧ (∀ cb, subscribed w p cb = true → consumer_value w' cb = v)
  ∧ (∀ cb, subscribed w p cb = false → consumers w' !! cb = consumers w !! cb).
Proof.
  intros Hok HP w'. subst w'. unfold setValue. rewrite HP.
  set (n := ContextProvider.notifier P).
  set (P1 := ContextProvider.set_notifier
               (ValueNotifier.mk v (ValueNotifier.subscriptions n)
                  (ValueNotifier.stamp n)) P).
  set (w1 := set_providers (<[p := P1]> (providers w)) w).
  assert (∀ q, subscriptions_of w1 q = subscriptions_of w q) as Hs1.
  { intros q. unfold subscriptions_of. cbn [providers set_providers w1].
    destruct (decide (p = q)) as [<-|Hne].
    - by rewrite lookup_insert_eq, HP.
    - by rewrite lookup_insert_ne. }
  assert (document_ok w1) as Hok1 by (by apply (document_ok_ext w)).
  assert (providers w1 !! p = Some P1) as HP1 by apply lookup_insert_eq.
  assert (∀ cb, cb ∈ JsMap.keys (ContextProvider.subscriptions P)
                ↔ subscribed w p cb = true) as Hkeys.
  { intros cb. unfold subscribed.
    rewrite (subscriptions_of_Some w p P HP), keys_get.
    symmetry. apply JsMapFacts.has_true. }
  unfold broadcast. rewrite Hs1, (subscriptions_of_Some w p P HP).
  destruct (broadcast_steps p v (JsMap.keys (ContextProvider.subscriptions P)) w1)
    as (_ & HF & Hs & Hi & Hv & Hc); try done.
  { by rewrite (value_of_Some w1 p P1 HP1). }
  { rewrite <-(subscriptions_of_Some w p P HP). apply (ok_nodup w Hok). }
  { intros k Hk. unfold subscribed. rewrite Hs1. by apply Hkeys. }
  split; [|split; [|split; [done|split]]].
  - rewrite (same_frame_value_of w1 _ p HF).
    by rewrite (value_of_Some w1 p P1 HP1).
  - intros q. by rewrite Hs, Hs1.
  - intros cb Hcb. by apply Hv, Hkeys.
  - intros cb Hcb. rewrite Hc; [done|]. rewrite Hkeys. by rewrite Hcb.
Qed.

End SetValue.

(** provider-consumer_test.ts: [setValue(500)]; the subscribed consumer has
    500 and the one-shot consumer is as it was. *)
Lemma X21_setValue_reaches_every_subscriber_witness :
  let w' := setValue Scenario.P (Some 500%Z) Scenario.mounted in
  consumer_value w' Scenario.Cs = Some 500%Z
  ∧ consumers w' !! Scenario.Co = consumers Scenario.mounted !! Scenario.Co.
Proof.
  cbn zeta.
  destruct (X21_setValue_reaches_every_subscriber Scenario.P
              (ContextProvider.mk
                 (ValueNotifier.mk (Some 1000%Z)
                    [Some (Scenario.Cs,
                           ValueNotifier.mkInfo
                             (mkHandle Scenario.P Scenario.Cs 0) 2)] 1)
                 (Some 1) Scenario.simpleContext)
              (Some 500%Z) Scenario.mounted)
    as (_ & _ & _ & Hv & Hc).
  - exact (reachable_ok _ mounted_reachable).
  - by vm_compute.
  - split; [apply Hv|apply Hc]; by vm_compute.
Defined.

(** * A consumer is moved *)

Section Move.
Context {V : Type}.
Implicit Types (w : World V) (p : ProviderId) (cb : Callback).

(** X22: a consumer that requested [subscribe] is disconnected, its
    element is moved in the tree, and it is connected again, in a document in
    order; in the new place the provider [q] alone is the nearest that
    answers its request.  Afterwards the consumer is subscribed with [q] and
    with no other provider, whichever it was subscribed with before, and has
    the value of [q]; the subscriptions of the other callbacks are as they
    were. *)
Theorem X22_moved_consumer_subscribes_with_its_new_nearest_provider
    cb (c : ContextConsumer.t V) (h : Element)
    (tree : gmap Element Element) q w :
  document_ok w →
  consumers w !! cb = Some c →
  ContextConsumer.host c = Some h →
  ContextConsumer.subscribe c = true →
  let w2 := set_parent tree (Consumer.hostDisconnected cb w) in
  nearest_claimants w2 h
    (ContextRequestEvent.mk (ContextConsumer.context c) cb true) = [q] →
  let w3 := Consumer.hostConnected cb w2 in
  (∀ p, subscribed w3 p cb = bool_decide (p = q))
  ∧ consumer_value w3 cb = value_of w q
  ∧ ∀ p k, k ≠ cb →
      JsMap.get k (subscriptions_of w3 p) = JsMap.get k (subscriptions_of w p).
Proof.
  intros Hok Hc Hh Hs w2 Hnear w3.
  pose proof (ok_filed w Hok cb c Hc) as Hfiled.
  set (w1 := Consumer.hostDisconnected cb w) in *.
  pose proof (consumer_hostDisconnected_ok cb w Hok) as Hok1. fold w1 in Hok1.
  pose proof (consumer_hostDisconnected_same_frame cb w) as HF1.
  fold w1 in HF1.
  set (c1 := (ContextConsumer.set_unsubscribe None c).1.2).
  assert (consumers w1 !! cb = Some c1) as Hc1.
  { unfold w1. rewrite (consumer_hostDisconnected_unfold cb c w Hc). cbn zeta.
    destruct (ContextConsumer.unsubscribe c).
    - rewrite run_unsubscribe_consumers. cbn. apply lookup_insert_eq.
    - cbn. apply lookup_insert_eq. }
  assert (∀ p k, k ≠ cb →
            JsMap.get k (subscriptions_of w1 p)
            = JsMap.get k (subscriptions_of w p)) as Hget1.
  { intros p k Hk. unfold w1.
    rewrite (consumer_hostDisconnected_unfold cb c w Hc). cbn zeta.
    destruct (ContextConsumer.unsubscribe c) as [held|] eqn:Hheld; [|done].
    rewrite run_unsubscribe_subscriptions.
    change (subscriptions_of (set_consumers _ w) p) with (subscriptions_of w p).
    destruct (decide (p = hprovider held)); [|done].
    assert (hcallback held = cb) as ->.
    { by apply (proj1 (document_ok_handles_wf w Hok) cb c held). }
    by rewrite JsMapFacts.get_delete_ne. }
  assert (document_ok w2) as Hok2 by (by apply (document_ok_ext w1)).
  assert (consumers w2 !! cb = Some c1) as Hc2 by done.
  assert (∀ p, value_of w2 p = value_of w p) as Hval.
  { intros p. change (value_of w2 p) with (value_of w1 p).
    apply (same_frame_value_of w w1 p HF1). }
  assert (w3 = addCallback q cb h true
                 (add_log
                    (Dispatched h
                       (ContextRequestEvent.mk (ContextConsumer.context c) cb true))
                    w2)) as Hw3.
  { unfold w3. rewrite (consumer_hostConnected_unfold cb c1 h w2 Hc2);
      [|done|done].
    cbn [c1 ContextConsumer.set_unsubscribe fst snd ContextConsumer.context
           ContextConsumer.subscribe]. rewrite Hs.
    rewrite dispatchRequestEvent_first, Hnear. done. }
  set (wl := add_log _ w2) in Hw3.
  assert (document_ok wl) as Hokl by (by apply (document_ok_ext w2)).
  assert (is_Some (providers wl !! q)) as [Q HQ].
  { pose proof (first_claimants_provider_is_Some w2
                  (mkEvent
                     (ContextRequestEvent.mk (ContextConsumer.context c) cb true)
                     h (ancestors_of w2 h) false)
                  (composedPath
                     (mkEvent
                        (ContextRequestEvent.mk (ContextConsumer.context c) cb
                           true)
                        h (ancestors_of w2 h) false))) as Hall.
    fold (nearest_claimants w2 h
            (ContextRequestEvent.mk (ContextConsumer.context c) cb true))
      in Hall.
    rewrite Hnear in Hall. by apply Forall_cons in Hall as [? _]. }
  pose proof (addCallback_first q Q cb c1 h wl Hokl Hc2 eq_refl Hs HQ) as Hfirst.
  cbn zeta in Hfirst. rewrite <-Hw3 in Hfirst.
  assert (∀ p, subscriptions_of w3 p =
               if decide (p = q)
               then subscriptions_of w2 q
                    ++ [Some (cb,
                              ValueNotifier.mkInfo
                                (mkHandle q cb
                                   (ValueNotifier.stamp
                                      (ContextProvider.notifier Q))) h)]
               else subscriptions_of w2 p) as Hsubs3.
  { intros p. rewrite Hfirst. unfold subscriptions_of. cbn [providers].
    destruct (decide (p = q)) as [->|Hne].
    - rewrite lookup_insert_eq.
      change (providers w2 !! q) with (providers wl !! q). by rewrite HQ.
    - by rewrite lookup_insert_ne. }
  assert (∀ p, JsMap.get cb (subscriptions_of w2 p) = None) as Hnone.
  { intros p. by apply (ok_not_held_not_subscribed w2 p cb c1). }
  split; [|split].
  - intros p. unfold subscribed, JsMap.has. rewrite Hsubs3.
    destruct (decide (p = q)) as [->|Hne].
    + rewrite JsMapFacts.get_app, Hnone. cbn. rewrite decide_True by done.
      by rewrite bool_decide_eq_true_2.
    + rewrite Hnone. by rewrite bool_decide_eq_false_2.
  - unfold consumer_value. rewrite Hfirst. cbn [consumers].
    rewrite lookup_insert_eq. cbn.
    rewrite <-(Hval q).
    change (value_of w2 q) with (value_of wl q).
    by rewrite (value_of_Some wl q Q HQ).
  - intros p k Hk. rewrite Hsubs3.
    change (subscriptions_of w2 q) with (subscriptions_of w1 q).
    change (subscriptions_of w2 p) with (subscriptions_of w1 p).
    destruct (decide (p = q)) as [->|Hne]; [|by apply Hget1].
    rewrite JsMapFacts.get_app. cbn. rewrite decide_False by done.
    rewrite (Hget1 q k Hk). by destruct (JsMap.get k (subscriptions_of w q)).
Qed.

End Move.

(** The consumer of the nested scenario, subscribed with the inner provider
    below element 2, is moved to hang directly under element 1: it is
    subscribed with the outer provider and has its value, 1. *)
Lemma X22_moved_consumer_subscribes_with_its_new_nearest_provider_witness :
  let w := Consumer.bind Scenario.C 3 Scenario.nested in
  let tree : gmap Element Element := list_to_map [(1, 0); (2, 1); (3, 1)] in
  let w3 :=
    Consumer.hostConnected Scenario.C
      (set_parent tree (Consumer.hostDisconnected Scenario.C w)) in
  subscribed w Scenario.Inner Scenario.C = true
  ∧ subscribed w3 Scenario.Inner Scenario.C = false
  ∧ subscribed w3 Scenario.Outer Scenario.C = true
  ∧ consumer_value w3 Scenario.C = Some 1%Z.
Proof.
  cbn zeta.
  destruct (X22_moved_consumer_subscribes_with_its_new_nearest_provider
              Scenario.C
              (ContextConsumer.mk (Some 3) Scenario.simpleContext (Some 1)
                 true true (Some 2%Z)
                 (Some (mkHandle Scenario.Inner Scenario.C 0)) Scenario.C)
              3 (list_to_map [(1, 0); (2, 1); (3, 1)]) Scenario.Outer
              (Consumer.bind Scenario.C 3 Scenario.nested))
    as (Hsub & Hval & _).
  - apply reachable_ok.
    eapply reachable_step; [|apply step_consumer_bind].
    unfold Scenario.nested, Scenario.nested_providers. cbn zeta.
    eapply reachable_step; [|apply step_consumer_new; by vm_compute].
    apply reachable_behavior_bind.
    eapply reachable_step; [|apply step_behavior_new; by vm_compute].
    apply reachable_behavior_bind.
    eapply reachable_step; [|apply step_behavior_new; by vm_compute].
    apply reachable_start.
  - by vm_compute.
  - reflexivity.
  - reflexivity.
  - by vm_compute.
  - split; [by vm_compute|]. split; [|split].
    + rewrite (Hsub Scenario.Inner). reflexivity.
    + rewrite (Hsub Scenario.Outer). reflexivity.
    + rewrite Hval. by vm_compute.
Defined.
